(** * LLDP decoder of gopacket ([layers/lldp.go]): a shallow embedding

    The file follows the Go source top to bottom.  Bytes are [Byte.byte];
    the fixed-width integers of the source ([byte], [uint8], [uint16],
    [uint32]) are [Z] with their wrap-around written out ([u8], [u16]);
    [int] is [Z] (no [int] computation of the decoder comes near 2^63).

    A Go slice is more than the bytes that [len] shows: a slice expression
    [s[lo:hi]] is checked against the capacity, and may make bytes of the
    backing array visible that lie past [len(s)].  The decoder re-slices
    its input with offsets read from the input, so the model keeps the
    capacity: a [slice] is the visible elements together with the room
    behind them.  A run-time panic (index or slice bounds out of range) is
    an explicit result. *)

From Stdlib Require Import ZArith List Bool Lia.
From Stdlib.Strings Require Import Byte.
Import ListNotations.
Local Open Scope Z_scope.

(** ** Go values *)

Definition byteval (b : byte) : Z := Z.of_N (Byte.to_N b).

(** Arithmetic on [uint8] and [uint16] is modulo 2^8 and 2^16. *)
Definition u8 (x : Z) : Z := x mod 256.
Definition u16 (x : Z) : Z := x mod 65536.

(** A [[]byte]: [elems] are the [len] visible bytes, [room] the bytes of the
    backing array between [len] and [cap]. *)
Record slice : Type := mkSlice { elems : list byte; room : list byte }.

Definition nilSlice : slice := mkSlice [] [].

(** A slice that owns exactly its bytes, as a slice literal does. *)
Definition sliceOf (bs : list byte) : slice := mkSlice bs [].

Definition len (s : slice) : Z := Z.of_nat (length (elems s)).
Definition cap (s : slice) : Z := Z.of_nat (length (elems s) + length (room s)).

(** [s[i]]: panics ([None]) unless [0 <= i < len(s)]. *)
Definition index (s : slice) (i : Z) : option byte :=
  if (0 <=? i) && (i <? len s) then nth_error (elems s) (Z.to_nat i) else None.

(** [s[lo:hi]]: panics unless [0 <= lo <= hi <= cap(s)]. *)
Definition reslice (s : slice) (lo hi : Z) : option slice :=
  if (0 <=? lo) && (lo <=? hi) && (hi <=? cap s) then
    let backing := elems s ++ room s in
    Some (mkSlice (firstn (Z.to_nat (hi - lo)) (skipn (Z.to_nat lo) backing))
                  (skipn (Z.to_nat hi) backing))
  else None.

(** [s[lo:]] is [s[lo:len(s)]]. *)
Definition resliceFrom (s : slice) (lo : Z) : option slice := reslice s lo (len s).

(** [string(s)]: a Go string is an immutable sequence of bytes. *)
Definition gostring : Type := list byte.
Definition stringOf (s : slice) : gostring := elems s.

(** [encoding/binary]: [BigEndian.Uint16(b)] reads [b[1]] and [b[0]],
    [BigEndian.Uint32(b)] reads [b[3]] down to [b[0]]; both index, so both
    panic on a slice that is too short. *)
Definition BigEndian_Uint16 (b : slice) : option Z :=
  match index b 1, index b 0 with
  | Some b1, Some b0 => Some (Z.lor (byteval b1) (Z.shiftl (byteval b0) 8))
  | _, _ => None
  end.

Definition BigEndian_Uint32 (b : slice) : option Z :=
  match index b 3, index b 2, index b 1, index b 0 with
  | Some b3, Some b2, Some b1, Some b0 =>
      Some (Z.lor (Z.lor (Z.lor (byteval b3) (Z.shiftl (byteval b2) 8))
                         (Z.shiftl (byteval b1) 16))
                  (Z.shiftl (byteval b0) 24))
  | _, _, _, _ => None
  end.

(** ** Errors

    The decoder builds every error with [fmt.Errorf]; an error value is
    determined by its format string and the arguments formatted into it. *)
Inductive Error : Type :=
| MalformedHeader            (* "Malformed LinkLayerDiscovery Header" *)
| MissingMandatoryTLV        (* "Missing mandatory LinkLayerDiscovery TLV" *)
| MalformedChassisID         (* "Malformed LinkLayerDiscovery ChassisID TLV" *)
| MalformedPortID            (* "Malformed LinkLayerDiscovery PortID TLV" *)
| MalformedTTL               (* "Malformed LinkLayerDiscovery TTL TLV" *)
| InvalidTLVLength (t have wanted : Z)
    (* "Invalid TLV %v length %d (wanted mimimum %v" *)
| InvalidOrgSpecificLength (subtype have wanted : Z).
    (* "Invalid Org Specific TLV %v length %d (wanted minimum %v)" *)

(** [if len(errors) > 0 { return errors[0] }; return nil], and the same with
    the named result [err] in the three extension decoders. *)
Definition firstError (errors : list Error) : option Error :=
  match errors with
  | e :: _ => Some e
  | [] => None
  end.

(** A computation that can return a value, return an error, or panic. *)
Inductive result (A : Type) : Type :=
| Ok (a : A)
| Fail (e : Error)
| Panic.
Arguments Ok {A} a.
Arguments Fail {A} e.
Arguments Panic {A}.

Definition bind {A B : Type} (r : result A) (k : A -> result B) : result B :=
  match r with
  | Ok a => k a
  | Fail e => Fail e
  | Panic => Panic
  end.

(** An operation that can only panic. *)
Definition orPanic {A : Type} (o : option A) : result A :=
  match o with
  | Some a => Ok a
  | None => Panic
  end.

Notation "x <- c ;; k" := (bind c (fun x => k))
  (at level 61, c at next level, right associativity).
Notation "' p <- c ;; k" := (bind c (fun p => k))
  (at level 61, p pattern, c at next level, right associativity).

(** ** TLV types and the raw records *)

Definition LLDPTLVEnd : Z := 0.
Definition LLDPTLVChassisID : Z := 1.
Definition LLDPTLVPortID : Z := 2.
Definition LLDPTLVTTL : Z := 3.
Definition LLDPTLVPortDescription : Z := 4.
Definition LLDPTLVSysName : Z := 5.
Definition LLDPTLVSysDescription : Z := 6.
Definition LLDPTLVSysCapabilities : Z := 7.
Definition LLDPTLVMgmtAddress : Z := 8.
Definition LLDPTLVOrgSpecific : Z := 127.

(** [LinkLayerDiscoveryValue]; the field [Type] of the source is [Typ]. *)
Record LinkLayerDiscoveryValue : Type := mkValue {
  Typ : Z;
  Length : Z;
  Value : slice
}.

Module LLDPChassisID.
Record t : Type := mk { Subtype : Z; ID : slice }.
Definition zero : t := mk 0 nilSlice.
End LLDPChassisID.

Module LLDPPortID.
Record t : Type := mk { Subtype : Z; ID : slice }.
Definition zero : t := mk 0 nilSlice.
End LLDPPortID.

(** [LinkLayerDiscovery]; of the embedded [baseLayer] the decoder sets
    [contents] only. *)
Record LinkLayerDiscovery : Type := mkLLD {
  contents : slice;
  ChassisID : LLDPChassisID.t;
  PortID : LLDPPortID.t;
  TTL : Z;
  Values : list LinkLayerDiscoveryValue
}.

Definition zeroLinkLayerDiscovery : LinkLayerDiscovery :=
  mkLLD nilSlice LLDPChassisID.zero LLDPPortID.zero 0 [].

(** ** The TLV walker: the first loop of [decodeLinkLayerDiscovery] *)

(** One header: [nbit], [t] and [val.Length].  [nbit] is a [byte], so
    [nbit<<8 + vData[1]] is computed in 8 bits before the conversion to
    [uint16]. *)
Definition headerType (b0 : byte) : Z := Z.shiftr (byteval b0) 1.
Definition headerLength (b0 b1 : byte) : Z :=
  let nbit := Z.land (byteval b0) 1 in
  u16 (u8 (u8 (Z.shiftl nbit 8) + byteval b1)).

(** The loop body, up to the decision how to go on: [inl vals] is the
    [break] at an End record, [inr (vals, vData)] the next iteration. *)
Definition scanStep (vData : slice) (vals : list LinkLayerDiscoveryValue)
  : result (list LinkLayerDiscoveryValue
            + list LinkLayerDiscoveryValue * slice) :=
  b0 <- orPanic (index vData 0) ;;
  b1 <- orPanic (index vData 1) ;;
  let t := headerType b0 in
  let length := headerLength b0 b1 in
  value <- (if 0 <? length
            then orPanic (reslice vData 2 (u16 (length + 2)))
            else Ok nilSlice) ;;
  let vals := vals ++ [mkValue t length value] in
  if t =? LLDPTLVEnd then Ok (inl vals)
  else if len vData <? u16 (2 + length) then Fail MalformedHeader
  else rest <- orPanic (resliceFrom vData (u16 (2 + length))) ;;
       Ok (inr (vals, rest)).

(** [for len(vData) > 0 { ... }]; every iteration that goes on drops at
    least the two header bytes, so [S (length (elems vData))] iterations
    are enough ([scanLoop_fuel] below); [None] is fuel running out. *)
Fixpoint scanLoop (fuel : nat) (vData : slice)
    (vals : list LinkLayerDiscoveryValue)
  : option (result (list LinkLayerDiscoveryValue)) :=
  match fuel with
  | O => None
  | S fuel =>
      if 0 <? len vData then
        match scanStep vData vals with
        | Ok (inl vals) => Some (Ok vals)
        | Ok (inr (vals, rest)) => scanLoop fuel rest vals
        | Fail e => Some (Fail e)
        | Panic => Some Panic
        end
      else Some (Ok vals)
  end.

(** The walker on [data]: [vData := data[0:]], then the loop.  The [None]
    branch is never taken ([scanLoop_fuel]). *)
Definition scanTLVs (data : slice) : result (list LinkLayerDiscoveryValue) :=
  vData <- orPanic (resliceFrom data 0) ;;
  match scanLoop (S (length (elems vData))) vData [] with
  | Some r => r
  | None => Panic
  end.

(** ** The mandatory TLVs: the second loop of [decodeLinkLayerDiscovery] *)

Definition setChassisID (c : LinkLayerDiscovery) (x : LLDPChassisID.t) :=
  mkLLD (contents c) x (PortID c) (TTL c) (Values c).
Definition setPortID (c : LinkLayerDiscovery) (x : LLDPPortID.t) :=
  mkLLD (contents c) (ChassisID c) x (TTL c) (Values c).
Definition setTTL (c : LinkLayerDiscovery) (x : Z) :=
  mkLLD (contents c) (ChassisID c) (PortID c) x (Values c).
Definition setValues (c : LinkLayerDiscovery) (x : list LinkLayerDiscoveryValue) :=
  mkLLD (contents c) (ChassisID c) (PortID c) (TTL c) x.
Definition setContents (c : LinkLayerDiscovery) (x : slice) :=
  mkLLD x (ChassisID c) (PortID c) (TTL c) (Values c).

(** The body of [for _, v := range vals { switch v.Type { ... } }] on the
    state [(c, gotEnd)]. *)
Definition extractStep (st : LinkLayerDiscovery * bool)
    (v : LinkLayerDiscoveryValue) : result (LinkLayerDiscovery * bool) :=
  let (c, gotEnd) := st in
  if Typ v =? LLDPTLVEnd then Ok (c, true)
  else if Typ v =? LLDPTLVChassisID then
    if len (Value v) <? 2 then Fail MalformedChassisID
    else b <- orPanic (index (Value v) 0) ;;
         id <- orPanic (resliceFrom (Value v) 1) ;;
         Ok (setChassisID c (LLDPChassisID.mk (byteval b) id), gotEnd)
  else if Typ v =? LLDPTLVPortID then
    if len (Value v) <? 2 then Fail MalformedPortID
    else b <- orPanic (index (Value v) 0) ;;
         id <- orPanic (resliceFrom (Value v) 1) ;;
         Ok (setPortID c (LLDPPortID.mk (byteval b) id), gotEnd)
  else if Typ v =? LLDPTLVTTL then
    if len (Value v) <? 2 then Fail MalformedTTL
    else b <- orPanic (reslice (Value v) 0 2) ;;
         ttl <- orPanic (BigEndian_Uint16 b) ;;
         Ok (setTTL c ttl, gotEnd)
  else Ok (setValues c (Values c ++ [v]), gotEnd).

Fixpoint extractLoop (vals : list LinkLayerDiscoveryValue)
    (st : LinkLayerDiscovery * bool) : result (LinkLayerDiscovery * bool) :=
  match vals with
  | [] => Ok st
  | v :: vals => st <- extractStep st v ;; extractLoop vals st
  end.

(** [decodeLinkLayerDiscovery] up to [c.contents = data]: the frame, or the
    error the function returns, or a panic. *)
Definition decodeFrame (data : slice) : result LinkLayerDiscovery :=
  vals <- scanTLVs data ;;
  if Z.of_nat (length vals) <? 4 then Fail MissingMandatoryTLV
  else
    ' (c, gotEnd) <- extractLoop vals (zeroLinkLayerDiscovery, false) ;;
    if (LLDPChassisID.Subtype (ChassisID c) =? 0)
       || (LLDPPortID.Subtype (PortID c) =? 0)
       || negb gotEnd
    then Fail MissingMandatoryTLV
    else Ok (setContents c data).

(** ** The optional TLVs: [LinkLayerDiscoveryInfo] *)

Module LLDPOrgSpecificTLV.
Record t : Type := mk { OUI : Z; SubType : Z; Info : slice }.
End LLDPOrgSpecificTLV.

Definition LLDPCapsOther : Z := Z.shiftl 1 0.
Definition LLDPCapsRepeater : Z := Z.shiftl 1 1.
Definition LLDPCapsBridge : Z := Z.shiftl 1 2.
Definition LLDPCapsWLANAP : Z := Z.shiftl 1 3.
Definition LLDPCapsRouter : Z := Z.shiftl 1 4.
Definition LLDPCapsPhone : Z := Z.shiftl 1 5.
Definition LLDPCapsDocSis : Z := Z.shiftl 1 6.
Definition LLDPCapsStationOnly : Z := Z.shiftl 1 7.
Definition LLDPCapsCVLAN : Z := Z.shiftl 1 8.
Definition LLDPCapsSVLAN : Z := Z.shiftl 1 9.
Definition LLDPCapsTmpr : Z := Z.shiftl 1 10.

Record LLDPCapabilities : Type := mkCaps {
  Other : bool;
  Repeater : bool;
  Bridge : bool;
  WLANAP : bool;
  Router : bool;
  Phone : bool;
  DocSis : bool;
  StationOnly : bool;
  CVLAN : bool;
  SVLAN : bool;
  TMPR : bool
}.

Definition zeroCapabilities : LLDPCapabilities :=
  mkCaps false false false false false false false false false false false.

Record LLDPSysCapabilities : Type := mkSysCaps {
  SystemCap : LLDPCapabilities;
  EnabledCap : LLDPCapabilities
}.

Definition zeroSysCapabilities : LLDPSysCapabilities :=
  mkSysCaps zeroCapabilities zeroCapabilities.

Module LLDPMgmtAddress.
Record t : Type := mk {
  Subtype : Z;
  Address : slice;
  InterfaceSubtype : Z;
  InterfaceNumber : Z;
  OID : gostring
}.
Definition zero : t := mk 0 nilSlice 0 0 [].
End LLDPMgmtAddress.

Record LinkLayerDiscoveryInfo : Type := mkInfo {
  PortDescription : gostring;
  SysName : gostring;
  SysDescription : gostring;
  SysCapabilities : LLDPSysCapabilities;
  MgmtAddress : LLDPMgmtAddress.t;
  OrgTLVs : list LLDPOrgSpecificTLV.t;
  Unknown : list LinkLayerDiscoveryValue
}.

Definition zeroLinkLayerDiscoveryInfo : LinkLayerDiscoveryInfo :=
  mkInfo [] [] [] zeroSysCapabilities LLDPMgmtAddress.zero [] [].

Definition setPortDescription (i : LinkLayerDiscoveryInfo) (x : gostring) :=
  mkInfo x (SysName i) (SysDescription i) (SysCapabilities i) (MgmtAddress i)
         (OrgTLVs i) (Unknown i).
Definition setSysName (i : LinkLayerDiscoveryInfo) (x : gostring) :=
  mkInfo (PortDescription i) x (SysDescription i) (SysCapabilities i)
         (MgmtAddress i) (OrgTLVs i) (Unknown i).
Definition setSysDescription (i : LinkLayerDiscoveryInfo) (x : gostring) :=
  mkInfo (PortDescription i) (SysName i) x (SysCapabilities i) (MgmtAddress i)
         (OrgTLVs i) (Unknown i).
Definition setSysCapabilities (i : LinkLayerDiscoveryInfo) (x : LLDPSysCapabilities) :=
  mkInfo (PortDescription i) (SysName i) (SysDescription i) x (MgmtAddress i)
         (OrgTLVs i) (Unknown i).
Definition setMgmtAddress (i : LinkLayerDiscoveryInfo) (x : LLDPMgmtAddress.t) :=
  mkInfo (PortDescription i) (SysName i) (SysDescription i) (SysCapabilities i)
         x (OrgTLVs i) (Unknown i).
Definition setOrgTLVs (i : LinkLayerDiscoveryInfo) (x : list LLDPOrgSpecificTLV.t) :=
  mkInfo (PortDescription i) (SysName i) (SysDescription i) (SysCapabilities i)
         (MgmtAddress i) x (Unknown i).

(** [v&mask > 0] *)
Definition hasBits (v mask : Z) : bool := 0 <? Z.land v mask.

Definition getCapabilities (v : Z) : LLDPCapabilities :=
  {| Other := hasBits v LLDPCapsOther;
     Repeater := hasBits v LLDPCapsRepeater;
     Bridge := hasBits v LLDPCapsBridge;
     WLANAP := hasBits v LLDPCapsWLANAP;
     Router := hasBits v LLDPCapsRouter;
     Phone := hasBits v LLDPCapsPhone;
     DocSis := hasBits v LLDPCapsDocSis;
     StationOnly := hasBits v LLDPCapsStationOnly;
     CVLAN := hasBits v LLDPCapsCVLAN;
     SVLAN := hasBits v LLDPCapsSVLAN;
     TMPR := hasBits v LLDPCapsTmpr |}.

Definition checkLLDPTLVLen (v : LinkLayerDiscoveryValue) (l : Z)
    (e : list Error) : bool * list Error :=
  let ok := l <=? len (Value v) in
  (ok, if ok then e
       else e ++ [InvalidTLVLength (Typ v) (len (Value v)) l]).

(** [case LLDPTLVMgmtAddress]: [mlen] and [olen] are bytes, and so are the
    sums [mlen+7], [mlen+1], ..., [mlen+9+olen]. *)
Definition decodeMgmtAddress (info : LinkLayerDiscoveryInfo)
    (errors : list Error) (v : LinkLayerDiscoveryValue)
  : result (LinkLayerDiscoveryInfo * list Error) :=
  let (ok, errors) := checkLLDPTLVLen v 9 errors in
  if ok then
    mlenb <- orPanic (index (Value v) 0) ;;
    let mlen := byteval mlenb in
    let (ok, errors) := checkLLDPTLVLen v (u8 (mlen + 7)) errors in
    if negb ok then Ok (info, errors)
    else
      subtype <- orPanic (index (Value v) 1) ;;
      address <- orPanic (reslice (Value v) 2 (u8 (mlen + 1))) ;;
      ifsubtype <- orPanic (index (Value v) (u8 (mlen + 1))) ;;
      ifnum <- orPanic (reslice (Value v) (u8 (mlen + 2)) (u8 (mlen + 6))) ;;
      ifnumber <- orPanic (BigEndian_Uint32 ifnum) ;;
      olenb <- orPanic (index (Value v) (u8 (mlen + 6))) ;;
      let olen := byteval olenb in
      let (ok, errors) := checkLLDPTLVLen v (u8 (u8 (mlen + 6) + olen)) errors in
      if ok then
        oid <- orPanic (reslice (Value v) (u8 (mlen + 9))
                                (u8 (u8 (mlen + 9) + olen))) ;;
        Ok (setMgmtAddress info
              (LLDPMgmtAddress.mk (byteval subtype) address (byteval ifsubtype)
                                  ifnumber (stringOf oid)),
            errors)
      else
        Ok (setMgmtAddress info
              (LLDPMgmtAddress.mk (byteval subtype) address (byteval ifsubtype)
                                  ifnumber (LLDPMgmtAddress.OID (MgmtAddress info))),
            errors)
  else Ok (info, errors).

(** The body of [for _, v := range c.Values { switch v.Type { ... } }] on
    the state [(info, errors)]; the switch has no default case. *)
Definition infoStep (st : LinkLayerDiscoveryInfo * list Error)
    (v : LinkLayerDiscoveryValue)
  : result (LinkLayerDiscoveryInfo * list Error) :=
  let (info, errors) := st in
  if Typ v =? LLDPTLVPortDescription then
    Ok (setPortDescription info (stringOf (Value v)), errors)
  else if Typ v =? LLDPTLVSysName then
    Ok (setSysName info (stringOf (Value v)), errors)
  else if Typ v =? LLDPTLVSysDescription then
    Ok (setSysDescription info (stringOf (Value v)), errors)
  else if Typ v =? LLDPTLVSysCapabilities then
    let (ok, errors) := checkLLDPTLVLen v 4 errors in
    if ok then
      b01 <- orPanic (reslice (Value v) 0 2) ;;
      sys <- orPanic (BigEndian_Uint16 b01) ;;
      let info := setSysCapabilities info
                    (mkSysCaps (getCapabilities sys)
                               (EnabledCap (SysCapabilities info))) in
      b23 <- orPanic (reslice (Value v) 2 4) ;;
      en <- orPanic (BigEndian_Uint16 b23) ;;
      Ok (setSysCapabilities info
            (mkSysCaps (SystemCap (SysCapabilities info)) (getCapabilities en)),
          errors)
    else Ok (info, errors)
  else if Typ v =? LLDPTLVMgmtAddress then decodeMgmtAddress info errors v
  else if Typ v =? LLDPTLVOrgSpecific then
    let (ok, errors) := checkLLDPTLVLen v 4 errors in
    if negb ok then Ok (info, errors)
    else
      b03 <- orPanic (reslice (Value v) 0 3) ;;
      oui <- orPanic (BigEndian_Uint32 (sliceOf (x00 :: elems b03))) ;;
      subtype <- orPanic (index (Value v) 3) ;;
      rest <- orPanic (resliceFrom (Value v) 4) ;;
      Ok (setOrgTLVs info
            (OrgTLVs info ++ [LLDPOrgSpecificTLV.mk oui (byteval subtype) rest]),
          errors)
  else Ok (info, errors).

Fixpoint infoLoop (vals : list LinkLayerDiscoveryValue)
    (st : LinkLayerDiscoveryInfo * list Error)
  : result (LinkLayerDiscoveryInfo * list Error) :=
  match vals with
  | [] => Ok st
  | v :: vals => st <- infoStep st v ;; infoLoop vals st
  end.

(** [info] and [errors] when the third loop ends. *)
Definition decodeInfo (vals : list LinkLayerDiscoveryValue)
  : result (LinkLayerDiscoveryInfo * list Error) :=
  infoLoop vals (zeroLinkLayerDiscoveryInfo, []).

(** ** The packet builder and the whole function

    [gopacket.PacketBuilder] is the host's sink for decoded layers; the
    decoder only calls [AddLayer], which appends to the packet's layers. *)
Inductive Layer : Type :=
| LayerLinkLayerDiscovery (c : LinkLayerDiscovery)
| LayerLinkLayerDiscoveryInfo (info : LinkLayerDiscoveryInfo).

Definition PacketBuilder : Type := list Layer.
Definition AddLayer (p : PacketBuilder) (l : Layer) : PacketBuilder := p ++ [l].

(** How a call ends: it returns [err] (nil is [None]) or panics; either way
    the builder is left in the state [p].  The third loop only collects
    errors, so [decodeInfo] is never [Fail]. *)
Inductive outcome : Type :=
| Returned (p : PacketBuilder) (err : option Error)
| Panicked (p : PacketBuilder).

Definition decodeLinkLayerDiscovery (data : slice) (p : PacketBuilder) : outcome :=
  match decodeFrame data with
  | Panic => Panicked p
  | Fail e => Returned p (Some e)
  | Ok c =>
      let p := AddLayer p (LayerLinkLayerDiscovery c) in
      match decodeInfo (Values c) with
      | Panic => Panicked p
      | Fail e => Returned p (Some e)
      | Ok (info, errors) =>
          let p := AddLayer p (LayerLinkLayerDiscoveryInfo info) in
          Returned p (firstError errors)
      end
  end.

(** ** The organisation-specific decoders *)

Definition IEEEOUI8021 : Z := 0x0080c2.
Definition IEEEOUI8023 : Z := 0x00120f.
Definition IEEEOUI8021Qbg : Z := 0x0013BF.

Definition LLDP8021SubtypePortVLANID : Z := 1.
Definition LLDP8021SubtypeProtocolVLANID : Z := 2.
Definition LLDP8021SubtypeVLANName : Z := 3.
Definition LLDP8021SubtypeProtocolIdentity : Z := 4.
Definition LLDP8021SubtypeVDIUsageDigest : Z := 5.
Definition LLDP8021SubtypeManagementVID : Z := 6.
Definition LLDP8021SubtypeLinkAggregation : Z := 7.

Definition LLDPProtocolVLANIDCapability : Z := Z.shiftl 1 0.
Definition LLDPProtocolVLANIDStatus : Z := Z.shiftl 1 1.
Definition LLDPAggregationCapability : Z := Z.shiftl 1 0.
Definition LLDPAggregationStatus : Z := Z.shiftl 1 1.

Module PortProtocolVLANID.
Record t : Type := mk { Supported : bool; Enabled : bool; ID : Z }.
End PortProtocolVLANID.

Module VLANName.
Record t : Type := mk { ID : Z; Name : gostring }.
End VLANName.

Definition ProtocolIdentity : Type := slice.

Module LinkAggregation8021.
Record t : Type := mk { Supported : bool; Enabled : bool; PortID : Z }.
Definition zero : t := mk false false 0.
End LinkAggregation8021.

Module LLDPInfo8021.
Record t : Type := mk {
  PVID : Z;
  PPVIDs : list PortProtocolVLANID.t;
  VLANNames : list VLANName.t;
  ProtocolIdentities : list ProtocolIdentity;
  VIDUsageDigest : Z;
  ManagementVID : Z;
  LinkAggregation : LinkAggregation8021.t
}.
Definition zero : t := mk 0 [] [] [] 0 0 LinkAggregation8021.zero.
Definition setPVID (i : t) (x : Z) :=
  mk x (PPVIDs i) (VLANNames i) (ProtocolIdentities i) (VIDUsageDigest i)
     (ManagementVID i) (LinkAggregation i).
Definition setPPVIDs (i : t) (x : list PortProtocolVLANID.t) :=
  mk (PVID i) x (VLANNames i) (ProtocolIdentities i) (VIDUsageDigest i)
     (ManagementVID i) (LinkAggregation i).
Definition setVLANNames (i : t) (x : list VLANName.t) :=
  mk (PVID i) (PPVIDs i) x (ProtocolIdentities i) (VIDUsageDigest i)
     (ManagementVID i) (LinkAggregation i).
Definition setProtocolIdentities (i : t) (x : list ProtocolIdentity) :=
  mk (PVID i) (PPVIDs i) (VLANNames i) x (VIDUsageDigest i)
     (ManagementVID i) (LinkAggregation i).
Definition setVIDUsageDigest (i : t) (x : Z) :=
  mk (PVID i) (PPVIDs i) (VLANNames i) (ProtocolIdentities i) x
     (ManagementVID i) (LinkAggregation i).
Definition setManagementVID (i : t) (x : Z) :=
  mk (PVID i) (PPVIDs i) (VLANNames i) (ProtocolIdentities i)
     (VIDUsageDigest i) x (LinkAggregation i).
Definition setLinkAggregation (i : t) (x : LinkAggregation8021.t) :=
  mk (PVID i) (PPVIDs i) (VLANNames i) (ProtocolIdentities i)
     (VIDUsageDigest i) (ManagementVID i) x.
End LLDPInfo8021.

Definition checkLLDPOrgSpecificLen (o : LLDPOrgSpecificTLV.t) (l : Z)
    (e : list Error) : bool * list Error :=
  let ok := l <=? len (LLDPOrgSpecificTLV.Info o) in
  (ok, if ok then e
       else e ++ [InvalidOrgSpecificLength (LLDPOrgSpecificTLV.SubType o)
                    (len (LLDPOrgSpecificTLV.Info o)) l]).

Section Decode8021.
Import LLDPOrgSpecificTLV LLDPInfo8021.

(** The body of the loop of [Decode8021] on the state [(info, errors)]. *)
Definition step8021 (st : LLDPInfo8021.t * list Error)
    (o : LLDPOrgSpecificTLV.t) : result (LLDPInfo8021.t * list Error) :=
  let (info, errors) := st in
  if negb (OUI o =? IEEEOUI8021) then Ok (info, errors)
  else if SubType o =? LLDP8021SubtypePortVLANID then
    let (ok, errors) := checkLLDPOrgSpecificLen o 2 errors in
    if ok then
      b <- orPanic (reslice (Info o) 0 2) ;;
      pvid <- orPanic (BigEndian_Uint16 b) ;;
      Ok (setPVID info pvid, errors)
    else Ok (info, errors)
  else if SubType o =? LLDP8021SubtypeProtocolVLANID then
    let (ok, errors) := checkLLDPOrgSpecificLen o 3 errors in
    if ok then
      b0 <- orPanic (index (Info o) 0) ;;
      let sup := hasBits (byteval b0) LLDPProtocolVLANIDCapability in
      let en := hasBits (byteval b0) LLDPAggregationStatus in
      b <- orPanic (reslice (Info o) 1 3) ;;
      id <- orPanic (BigEndian_Uint16 b) ;;
      Ok (setPPVIDs info (PPVIDs info ++ [PortProtocolVLANID.mk sup en id]), errors)
    else Ok (info, errors)
  else if SubType o =? LLDP8021SubtypeVLANName then
    let (ok, errors) := checkLLDPOrgSpecificLen o 2 errors in
    if ok then
      b <- orPanic (reslice (Info o) 0 2) ;;
      id <- orPanic (BigEndian_Uint16 b) ;;
      name <- orPanic (resliceFrom (Info o) 3) ;;
      Ok (setVLANNames info (VLANNames info ++ [VLANName.mk id (stringOf name)]),
          errors)
    else Ok (info, errors)
  else if SubType o =? LLDP8021SubtypeProtocolIdentity then
    let (ok, errors) := checkLLDPOrgSpecificLen o 1 errors in
    if ok then
      b0 <- orPanic (index (Info o) 0) ;;
      let l := byteval b0 in
      if 0 <? l then
        blob <- orPanic (reslice (Info o) 1 (1 + l)) ;;
        Ok (setProtocolIdentities info (ProtocolIdentities info ++ [blob]), errors)
      else Ok (info, errors)
    else Ok (info, errors)
  else if SubType o =? LLDP8021SubtypeVDIUsageDigest then
    let (ok, errors) := checkLLDPOrgSpecificLen o 4 errors in
    if ok then
      b <- orPanic (reslice (Info o) 0 4) ;;
      d <- orPanic (BigEndian_Uint32 b) ;;
      Ok (setVIDUsageDigest info d, errors)
    else Ok (info, errors)
  else if SubType o =? LLDP8021SubtypeManagementVID then
    let (ok, errors) := checkLLDPOrgSpecificLen o 2 errors in
    if ok then
      b <- orPanic (reslice (Info o) 0 2) ;;
      vid <- orPanic (BigEndian_Uint16 b) ;;
      Ok (setManagementVID info vid, errors)
    else Ok (info, errors)
  else if SubType o =? LLDP8021SubtypeLinkAggregation then
    let (ok, errors) := checkLLDPOrgSpecificLen o 5 errors in
    if ok then
      b0 <- orPanic (index (Info o) 0) ;;
      let sup := hasBits (byteval b0) LLDPAggregationCapability in
      let en := hasBits (byteval b0) LLDPAggregationStatus in
      b <- orPanic (reslice (Info o) 1 5) ;;
      port <- orPanic (BigEndian_Uint32 b) ;;
      Ok (setLinkAggregation info (LinkAggregation8021.mk sup en port), errors)
    else Ok (info, errors)
  else Ok (info, errors).

Fixpoint loop8021 (os : list LLDPOrgSpecificTLV.t)
    (st : LLDPInfo8021.t * list Error) : result (LLDPInfo8021.t * list Error) :=
  match os with
  | [] => Ok st
  | o :: os => st <- step8021 st o ;; loop8021 os st
  end.

(** [info] and [errors] when the loop of [Decode8021] ends. *)
Definition Decode8021Errors (l : LinkLayerDiscoveryInfo)
  : result (LLDPInfo8021.t * list Error) :=
  loop8021 (OrgTLVs l) (LLDPInfo8021.zero, []).

(** [func (l *LinkLayerDiscoveryInfo) Decode8021() (info LLDPInfo8021, err error)] *)
Definition Decode8021 (l : LinkLayerDiscoveryInfo)
  : result (LLDPInfo8021.t * option Error) :=
  ' (info, errors) <- Decode8021Errors l ;;
  Ok (info, firstError errors).

End Decode8021.

Definition LLDP8023SubtypeMACPHY : Z := 1.
Definition LLDP8023SubtypeMDIPower : Z := 2.
Definition LLDP8023SubtypeLinkAggregation : Z := 3.
Definition LLDP8023SubtypeMTU : Z := 4.

Definition LLDPMACPHYCapability : Z := Z.shiftl 1 0.
Definition LLDPMACPHYStatus : Z := Z.shiftl 1 1.

Definition LLDPMDIPowerPortClass : Z := Z.shiftl 1 0.
Definition LLDPMDIPowerCapability : Z := Z.shiftl 1 1.
Definition LLDPMDIPowerStatus : Z := Z.shiftl 1 2.
Definition LLDPMDIPowerPairsAbility : Z := Z.shiftl 1 3.

Module MACPHYConfigStatus.
Record t : Type := mk {
  AutoNegSupported : bool;
  AutoNegEnabled : bool;
  AutoNegCapability : Z;
  MAUType : Z
}.
Definition zero : t := mk false false 0 0.
End MACPHYConfigStatus.

Module PowerViaMDI.
Record t : Type := mk {
  PortClassPSE : bool;
  PSESupported : bool;
  PSEEnabled : bool;
  PSEPairsAbility : bool;
  PSEPowerPair : Z;
  PSEClass : Z;
  PowerType : Z;
  PowerSource : Z;
  PowerPriority : Z;
  RequestedPower : Z;
  AllocatedPower : Z
}.
Definition zero : t := mk false false false false 0 0 0 0 0 0 0.
End PowerViaMDI.

Module LinkAggregation8023.
Record t : Type := mk { Status : Z; PortID : Z }.
Definition zero : t := mk 0 0.
End LinkAggregation8023.

Module LLDPInfo8023.
Record t : Type := mk {
  MACPHYConfigStatus : MACPHYConfigStatus.t;
  PowerViaMDI : PowerViaMDI.t;
  LinkAggregation : LinkAggregation8023.t;
  MTU : Z
}.
Definition zero : t :=
  mk MACPHYConfigStatus.zero PowerViaMDI.zero LinkAggregation8023.zero 0.
Definition setMACPHYConfigStatus (i : t) (x : MACPHYConfigStatus.t) :=
  mk x (PowerViaMDI i) (LinkAggregation i) (MTU i).
Definition setPowerViaMDI (i : t) (x : PowerViaMDI.t) :=
  mk (MACPHYConfigStatus i) x (LinkAggregation i) (MTU i).
Definition setLinkAggregation (i : t) (x : LinkAggregation8023.t) :=
  mk (MACPHYConfigStatus i) (PowerViaMDI i) x (MTU i).
Definition setMTU (i : t) (x : Z) :=
  mk (MACPHYConfigStatus i) (PowerViaMDI i) (LinkAggregation i) x.
End LLDPInfo8023.

Section Decode8023.
Import LLDPOrgSpecificTLV LLDPInfo8023.

(** [case LLDP8023SubtypeMDIPower] once the length check for 3 bytes has
    passed: the six assignments from bytes 0 to 2, then, [if len(o.Info) >= 8],
    the five from bytes 3 to 7.  [pw] is [info.PowerViaMDI] before. *)
Definition decodeMDIPower (pw : PowerViaMDI.t) (o : LLDPOrgSpecificTLV.t)
  : result PowerViaMDI.t :=
  b0 <- orPanic (index (Info o) 0) ;;
  b1 <- orPanic (index (Info o) 1) ;;
  b2 <- orPanic (index (Info o) 2) ;;
  let portClassPSE := hasBits (byteval b0) LLDPMDIPowerPortClass in
  let pseSupported := hasBits (byteval b0) LLDPMDIPowerCapability in
  let pseEnabled := hasBits (byteval b0) LLDPMDIPowerStatus in
  let psePairsAbility := hasBits (byteval b0) LLDPMDIPowerPairsAbility in
  if 8 <=? len (Info o) then
    b3 <- orPanic (index (Info o) 3) ;;
    let powerType := Z.shiftr (Z.land (byteval b3) 0xc0) 6 in
    let powerSource := Z.shiftr (Z.land (byteval b3) 0x30) 4 in
    let powerSource :=
      if (powerType =? 1) || (powerType =? 3) then u8 (powerSource + 128)
      else powerSource in
    b4 <- orPanic (index (Info o) 4) ;;
    let powerPriority := Z.land (byteval b4) 0x0f in
    r <- orPanic (reslice (Info o) 5 7) ;;
    requested <- orPanic (BigEndian_Uint16 r) ;;
    a <- orPanic (reslice (Info o) 7 8) ;;
    allocated <- orPanic (BigEndian_Uint16 a) ;;
    Ok (PowerViaMDI.mk portClassPSE pseSupported pseEnabled psePairsAbility
          (byteval b1) (byteval b2) powerType powerSource powerPriority
          requested allocated)
  else
    Ok (PowerViaMDI.mk portClassPSE pseSupported pseEnabled psePairsAbility
          (byteval b1) (byteval b2)
          (PowerViaMDI.PowerType pw) (PowerViaMDI.PowerSource pw)
          (PowerViaMDI.PowerPriority pw) (PowerViaMDI.RequestedPower pw)
          (PowerViaMDI.AllocatedPower pw)).

(** The body of the loop of [Decode8023] on the state [(info, errors)]. *)
Definition step8023 (st : LLDPInfo8023.t * list Error)
    (o : LLDPOrgSpecificTLV.t) : result (LLDPInfo8023.t * list Error) :=
  let (info, errors) := st in
  if negb (OUI o =? IEEEOUI8023) then Ok (info, errors)
  else if SubType o =? LLDP8023SubtypeMACPHY then
    let (ok, errors) := checkLLDPOrgSpecificLen o 5 errors in
    if ok then
      b0 <- orPanic (index (Info o) 0) ;;
      let sup := hasBits (byteval b0) LLDPMACPHYCapability in
      let en := hasBits (byteval b0) LLDPMACPHYStatus in
      b13 <- orPanic (reslice (Info o) 1 3) ;;
      ca <- orPanic (BigEndian_Uint16 b13) ;;
      b35 <- orPanic (reslice (Info o) 3 5) ;;
      mau <- orPanic (BigEndian_Uint16 b35) ;;
      Ok (setMACPHYConfigStatus info (MACPHYConfigStatus.mk sup en ca mau), errors)
    else Ok (info, errors)
  else if SubType o =? LLDP8023SubtypeMDIPower then
    let (ok, errors) := checkLLDPOrgSpecificLen o 3 errors in
    if ok then
      pw <- decodeMDIPower (PowerViaMDI info) o ;;
      Ok (setPowerViaMDI info pw, errors)
    else Ok (info, errors)
  else if SubType o =? LLDP8023SubtypeLinkAggregation then
    let (ok, errors) := checkLLDPOrgSpecificLen o 5 errors in
    if ok then
      b0 <- orPanic (index (Info o) 0) ;;
      b <- orPanic (reslice (Info o) 1 5) ;;
      port <- orPanic (BigEndian_Uint32 b) ;;
      Ok (setLinkAggregation info (LinkAggregation8023.mk (byteval b0) port), errors)
    else Ok (info, errors)
  else if SubType o =? LLDP8023SubtypeMTU then
    let (ok, errors) := checkLLDPOrgSpecificLen o 2 errors in
    if ok then
      b <- orPanic (reslice (Info o) 0 2) ;;
      mtu <- orPanic (BigEndian_Uint16 b) ;;
      Ok (setMTU info mtu, errors)
    else Ok (info, errors)
  else Ok (info, errors).

Fixpoint loop8023 (os : list LLDPOrgSpecificTLV.t)
    (st : LLDPInfo8023.t * list Error) : result (LLDPInfo8023.t * list Error) :=
  match os with
  | [] => Ok st
  | o :: os => st <- step8023 st o ;; loop8023 os st
  end.

Definition Decode8023Errors (l : LinkLayerDiscoveryInfo)
  : result (LLDPInfo8023.t * list Error) :=
  loop8023 (OrgTLVs l) (LLDPInfo8023.zero, []).

(** [func (l *LinkLayerDiscoveryInfo) Decode8023() (info LLDPInfo8023, err error)] *)
Definition Decode8023 (l : LinkLayerDiscoveryInfo)
  : result (LLDPInfo8023.t * option Error) :=
  ' (info, errors) <- Decode8023Errors l ;;
  Ok (info, firstError errors).

End Decode8023.

Definition LLDP8021QbgEVB : Z := 0.
Definition LLDP8021QbgCDCP : Z := 1.
Definition LLDP8021QbgVDP : Z := 2.

Definition LLDPEVBCapsSTD : Z := Z.shiftl 1 0.
Definition LLDPEVBCapsRR : Z := Z.shiftl 1 1.
Definition LLDPEVBCapsRTE : Z := Z.shiftl 1 2.
Definition LLDPEVBCapsECP : Z := Z.shiftl 1 3.
Definition LLDPEVBCapsVDP : Z := Z.shiftl 1 4.

Record LLDPEVBCapabilities : Type := mkEVBCaps {
  StandardBridging : bool;
  ReflectiveRelay : bool;
  RetransmissionTimerExponent : bool;
  EdgeControlProtocol : bool;
  VSIDiscoveryProtocol : bool
}.

Definition zeroEVBCapabilities : LLDPEVBCapabilities :=
  mkEVBCaps false false false false false.

Definition getEVBCapabilities (v : Z) : LLDPEVBCapabilities :=
  {| StandardBridging := hasBits v LLDPEVBCapsSTD;
     ReflectiveRelay := hasBits v LLDPEVBCapsRR;
     RetransmissionTimerExponent := hasBits v LLDPEVBCapsRTE;
     EdgeControlProtocol := hasBits v LLDPEVBCapsECP;
     VSIDiscoveryProtocol := hasBits v LLDPEVBCapsVDP |}.

Module LLDPEVBSettings.
Record t : Type := mk {
  Supported : LLDPEVBCapabilities;
  Enabled : LLDPEVBCapabilities;
  SupportedVSIs : Z;
  ConfiguredVSIs : Z;
  RTEExponent : Z
}.
Definition zero : t := mk zeroEVBCapabilities zeroEVBCapabilities 0 0 0.
End LLDPEVBSettings.

Record LLDPInfo8021Qbg : Type := mkInfo8021Qbg {
  EVBSettings : LLDPEVBSettings.t
}.

Section Decode8021Qbg.
Import LLDPOrgSpecificTLV.

(** The body of the loop of [Decode8021Qbg] on the state [(info, errors)]. *)
Definition step8021Qbg (st : LLDPInfo8021Qbg * list Error)
    (o : LLDPOrgSpecificTLV.t) : result (LLDPInfo8021Qbg * list Error) :=
  let (info, errors) := st in
  if negb (OUI o =? IEEEOUI8021Qbg) then Ok (info, errors)
  else if SubType o =? LLDP8021QbgEVB then
    let (ok, errors) := checkLLDPOrgSpecificLen o 9 errors in
    if ok then
      b01 <- orPanic (reslice (Info o) 0 2) ;;
      sup <- orPanic (BigEndian_Uint16 b01) ;;
      b23 <- orPanic (reslice (Info o) 2 4) ;;
      en <- orPanic (BigEndian_Uint16 b23) ;;
      b45 <- orPanic (reslice (Info o) 4 6) ;;
      svsi <- orPanic (BigEndian_Uint16 b45) ;;
      b67 <- orPanic (reslice (Info o) 6 8) ;;
      cvsi <- orPanic (BigEndian_Uint16 b67) ;;
      b8 <- orPanic (index (Info o) 8) ;;
      Ok (mkInfo8021Qbg
            (LLDPEVBSettings.mk (getEVBCapabilities sup) (getEVBCapabilities en)
                                svsi cvsi (byteval b8)),
          errors)
    else Ok (info, errors)
  else Ok (info, errors).

Fixpoint loop8021Qbg (os : list LLDPOrgSpecificTLV.t)
    (st : LLDPInfo8021Qbg * list Error) : result (LLDPInfo8021Qbg * list Error) :=
  match os with
  | [] => Ok st
  | o :: os => st <- step8021Qbg st o ;; loop8021Qbg os st
  end.

Definition Decode8021QbgErrors (l : LinkLayerDiscoveryInfo)
  : result (LLDPInfo8021Qbg * list Error) :=
  loop8021Qbg (OrgTLVs l) (mkInfo8021Qbg LLDPEVBSettings.zero, []).

(** [func (l *LinkLayerDiscoveryInfo) Decode8021Qbg() (info LLDPInfo8021Qbg, err error)] *)
Definition Decode8021Qbg (l : LinkLayerDiscoveryInfo)
  : result (LLDPInfo8021Qbg * option Error) :=
  ' (info, errors) <- Decode8021QbgErrors l ;;
  Ok (info, firstError errors).

End Decode8021Qbg.

(** ** Sample records and frames, and what a call leaves behind *)

(** ChassisID, subtype 4 (MAC address), 00:11:22:33:44:55. *)
Definition tlvChassis : list byte := [x02; x07; x04; x00; x11; x22; x33; x44; x55].
(** PortID, subtype 3 (MAC address), four bytes. *)
Definition tlvPort : list byte := [x04; x05; x03; x01; x02; x03; x04].
(** TTL 120. *)
Definition tlvTTL : list byte := [x06; x02; x00; x78].
(** SysName "sw1". *)
Definition tlvSysName : list byte := [x0a; x03; x73; x77; x31].
(** SysCapabilities with a value of two bytes. *)
Definition tlvSysCapsShort : list byte := [x0e; x02; x00; x04].
(** End. *)
Definition tlvEnd : list byte := [x00; x00].

(** The info layer of a call that added both layers. *)
Definition infoLayerOf (o : outcome) : option LinkLayerDiscoveryInfo :=
  match o with
  | Returned [LayerLinkLayerDiscovery _; LayerLinkLayerDiscoveryInfo info] _ => Some info
  | _ => None
  end.

(** A [LinkLayerDiscoveryInfo] that holds organisation-specific TLVs only. *)
Definition infoOfOrgTLVs (os : list LLDPOrgSpecificTLV.t) : LinkLayerDiscoveryInfo :=
  setOrgTLVs zeroLinkLayerDiscoveryInfo os.

(** ManagementAddress with a value of nine bytes: address length 2, IPv4,
    address [0a], interface subtype 2, interface number 7, OID length 1. *)
Definition tlvMgmt : list byte :=
  [x10; x09; x02; x01; x0a; x02; x00; x00; x00; x07; x01].
(** The same with the address length 250. *)
Definition tlvMgmtWrap : list byte :=
  [x10; x09; xfa; x01; x0a; x02; x00; x00; x00; x07; x01].

(** Organisation-specific, IEEE 802.1, Protocol Identity, with the payload
    [05]: a length prefix of five and no byte after it. *)
Definition tlvProtocolIdentity : list byte := [xfe; x05; x00; x80; xc2; x04; x05].

(** Two 802.1 payload lists that each run into two length errors; the
    second error differs. *)
Definition twoErrorsA : LinkLayerDiscoveryInfo :=
  infoOfOrgTLVs
    [LLDPOrgSpecificTLV.mk IEEEOUI8021 LLDP8021SubtypePortVLANID (sliceOf [x05]);
     LLDPOrgSpecificTLV.mk IEEEOUI8021 LLDP8021SubtypeManagementVID (sliceOf [])].
Definition twoErrorsB : LinkLayerDiscoveryInfo :=
  infoOfOrgTLVs
    [LLDPOrgSpecificTLV.mk IEEEOUI8021 LLDP8021SubtypePortVLANID (sliceOf [x05]);
     LLDPOrgSpecificTLV.mk IEEEOUI8021 LLDP8021SubtypeVDIUsageDigest (sliceOf [])].

(** Organisation-specific with a value of two bytes. *)
Definition tlvOrgShort : list byte := [xfe; x02; x00; x80].

(** The frame ChassisID, PortID, TTL, SysCapabilities of two bytes,
    organisation-specific of two bytes, End, and the frame decoded from it. *)
Definition twoErrorsData : slice :=
  sliceOf (tlvChassis ++ tlvPort ++ tlvTTL ++ tlvSysCapsShort ++ tlvOrgShort ++ tlvEnd).
Definition twoErrorsFrame : LinkLayerDiscovery :=
  match decodeFrame twoErrorsData with
  | Ok c => c
  | _ => zeroLinkLayerDiscovery
  end.

(** The frame ChassisID, PortID, TTL, SysName "sw1", SysCapabilities of two
    bytes, End; the frame decoded from it and its two leftover records. *)
Definition partialData : slice :=
  sliceOf (tlvChassis ++ tlvPort ++ tlvTTL ++ tlvSysName ++ tlvSysCapsShort ++ tlvEnd).
Definition partialFrame : LinkLayerDiscovery :=
  match decodeFrame partialData with
  | Ok c => c
  | _ => zeroLinkLayerDiscovery
  end.
Definition partialName : LinkLayerDiscoveryValue :=
  mkValue LLDPTLVSysName 3 (mkSlice [x73; x77; x31] [x0e; x02; x00; x04; x00; x00]).
Definition partialCaps : LinkLayerDiscoveryValue :=
  mkValue LLDPTLVSysCapabilities 2 (mkSlice [x00; x04] [x00; x00]).





(** ** The wire form of records, and predicates on records and TLVs *)

(** The byte with the value [z] (for [0 <= z < 256]). *)
Definition byteOf (z : Z) : byte :=
  match Byte.of_N (Z.to_N z) with
  | Some b => b
  | None => x00
  end.

(** The wire form of a record of kind [t] with a value of fewer than 256
    bytes: the kind in the top seven bits of the first byte, the length in
    the second byte, the value. *)
Definition encodeTLV (r : Z * list byte) : list byte :=
  byteOf (2 * fst r) :: byteOf (Z.of_nat (length (snd r))) :: snd r.

Definition encodeTLVs (rs : list (Z * list byte)) : list byte :=
  flat_map encodeTLV rs.

(** What the wire form can carry: a kind other than End in seven bits, a
    length in eight. *)
Definition encodable (r : Z * list byte) : Prop :=
  1 <= fst r < 128 /\ (length (snd r) < 256)%nat.

(** A record as kind and value bytes. *)
Definition recordOf (v : LinkLayerDiscoveryValue) : Z * list byte :=
  (Typ v, elems (Value v)).

(** The wire form of a frame in the order of the standard: ChassisID,
    PortID, TTL, further records, End. *)
Definition encodeFrame (cs : byte) (cid : list byte) (ps : byte) (pid : list byte)
    (t0 t1 : byte) (others : list (Z * list byte)) : list byte :=
  encodeTLVs ((LLDPTLVChassisID, cs :: cid) :: (LLDPTLVPortID, ps :: pid)
              :: (LLDPTLVTTL, [t0; t1]) :: others)
  ++ tlvEnd.

(** A record as the walker builds it: a kind of seven bits, a length of
    eight, and a value of exactly that many bytes. *)
Definition wellFormed (v : LinkLayerDiscoveryValue) : Prop :=
  0 <= Typ v < 128 /\ 0 <= Length v < 256 /\ len (Value v) = Length v.

(** What the second loop keeps true of the frame it builds. *)
Definition frameInvariant (c : LinkLayerDiscovery) : Prop :=
  0 <= LLDPChassisID.Subtype (ChassisID c) < 256 /\
  (LLDPChassisID.Subtype (ChassisID c) <> 0 -> 1 <= len (LLDPChassisID.ID (ChassisID c))) /\
  0 <= LLDPPortID.Subtype (PortID c) < 256 /\
  (LLDPPortID.Subtype (PortID c) <> 0 -> 1 <= len (LLDPPortID.ID (PortID c))) /\
  0 <= TTL c < 65536 /\
  Forall (fun v => wellFormed v /\ 4 <= Typ v) (Values c).

(** The organisation-specific TLVs on which [Decode8023] panics: Power via
    MDI with a payload of eight bytes or more. *)
Definition panics8023 (o : LLDPOrgSpecificTLV.t) : Prop :=
  LLDPOrgSpecificTLV.OUI o = IEEEOUI8023 /\
  LLDPOrgSpecificTLV.SubType o = LLDP8023SubtypeMDIPower /\
  8 <= len (LLDPOrgSpecificTLV.Info o).

(** Those on which [Decode8021] panics: a VLAN name of exactly two bytes,
    and a Protocol Identity whose length prefix reaches past the capacity
    of the payload. *)
Definition panics8021 (o : LLDPOrgSpecificTLV.t) : Prop :=
  LLDPOrgSpecificTLV.OUI o = IEEEOUI8021 /\
  ((LLDPOrgSpecificTLV.SubType o = LLDP8021SubtypeVLANName /\
    len (LLDPOrgSpecificTLV.Info o) = 2) \/
   (LLDPOrgSpecificTLV.SubType o = LLDP8021SubtypeProtocolIdentity /\
    exists b, index (LLDPOrgSpecificTLV.Info o) 0 = Some b /\
              cap (LLDPOrgSpecificTLV.Info o) < 1 + byteval b)).

(** The errors of the frame-level pass and those of the per-record pass. *)
Definition frameError (e : Error) : Prop :=
  e = MalformedHeader \/ e = MissingMandatoryTLV \/ e = MalformedChassisID \/
  e = MalformedPortID \/ e = MalformedTTL.

Definition recordError (e : Error) : Prop :=
  exists t have wanted, e = InvalidTLVLength t have wanted /\ have < wanted.

(** The least payload length each decoder asks of a subtype it knows. *)
Definition minLen8021 (subtype : Z) : option Z :=
  if subtype =? LLDP8021SubtypePortVLANID then Some 2
  else if subtype =? LLDP8021SubtypeProtocolVLANID then Some 3
  else if subtype =? LLDP8021SubtypeVLANName then Some 2
  else if subtype =? LLDP8021SubtypeProtocolIdentity then Some 1
  else if subtype =? LLDP8021SubtypeVDIUsageDigest then Some 4
  else if subtype =? LLDP8021SubtypeManagementVID then Some 2
  else if subtype =? LLDP8021SubtypeLinkAggregation then Some 5
  else None.

Definition minLen8023 (subtype : Z) : option Z :=
  if subtype =? LLDP8023SubtypeMACPHY then Some 5
  else if subtype =? LLDP8023SubtypeMDIPower then Some 3
  else if subtype =? LLDP8023SubtypeLinkAggregation then Some 5
  else if subtype =? LLDP8023SubtypeMTU then Some 2
  else None.

Definition minLen8021Qbg (subtype : Z) : option Z :=
  if subtype =? LLDP8021QbgEVB then Some 9 else None.

(** The error, if any, that a TLV adds in the decoder for [oui]. *)
Definition lengthErrors (oui : Z) (minLen : Z -> option Z)
    (o : LLDPOrgSpecificTLV.t) : list Error :=
  if negb (LLDPOrgSpecificTLV.OUI o =? oui) then []
  else match minLen (LLDPOrgSpecificTLV.SubType o) with
       | Some l =>
           if l <=? len (LLDPOrgSpecificTLV.Info o) then []
           else [InvalidOrgSpecificLength (LLDPOrgSpecificTLV.SubType o)
                   (len (LLDPOrgSpecificTLV.Info o)) l]
       | None => []
       end.

(** Inputs on which the statements below are tried: the records of
    [partialData]; three records in wire form; a ManagementAddress value
    with an IPv4 address and an OID of three bytes; TLVs of the three
    extension decoders. *)
Definition partialRecords : list LinkLayerDiscoveryValue :=
  match scanTLVs partialData with
  | Ok vals => vals
  | _ => []
  end.
Definition sampleRecords : list (Z * list byte) :=
  [(LLDPTLVSysName, [x73; x77; x31]); (LLDPTLVPortDescription, []);
   (LLDPTLVSysCapabilities, [x00; x04; x00; x04])].
Definition sampleSysCaps : LinkLayerDiscoveryValue :=
  mkValue LLDPTLVSysCapabilities 4 (sliceOf [x00; x14; x00; x04]).
Definition sampleOrg : LinkLayerDiscoveryValue :=
  mkValue LLDPTLVOrgSpecific 6 (sliceOf [x00; x12; x0f; x04; x05; xdc]).
Definition sampleMgmt : LinkLayerDiscoveryValue :=
  mkValue LLDPTLVMgmtAddress 17
    (sliceOf [x05; x01; xc0; xa8; x01; x01; x02; x00; x00; x00; x07; x03;
              x00; x00; x2b; x06; x01]).
Definition sampleMTU : LLDPOrgSpecificTLV.t :=
  LLDPOrgSpecificTLV.mk IEEEOUI8023 LLDP8023SubtypeMTU (sliceOf [x05; xdc]).
Definition samplePVID : LLDPOrgSpecificTLV.t :=
  LLDPOrgSpecificTLV.mk IEEEOUI8021 LLDP8021SubtypePortVLANID (sliceOf [x00; x64]).
Definition sampleVLANName2 : LLDPOrgSpecificTLV.t :=
  LLDPOrgSpecificTLV.mk IEEEOUI8021 LLDP8021SubtypeVLANName (sliceOf [x00; x0a]).
Definition sampleEVB : LLDPOrgSpecificTLV.t :=
  LLDPOrgSpecificTLV.mk IEEEOUI8021Qbg LLDP8021QbgEVB
    (sliceOf [x00; x03; x00; x01; x00; x10; x00; x02; x08]).

(** * Properties *)

(** ** Bytes and slices *)

Lemma byteval_range (b : byte) : 0 <= byteval b < 256.
Proof.
  unfold byteval. pose proof (Byte.to_N_bounded b). lia.
Qed.

Lemma u8_small (x : Z) : 0 <= x < 256 -> u8 x = x.
Proof. intro H. unfold u8. apply Z.mod_small. exact H. Qed.

Lemma u16_small (x : Z) : 0 <= x < 65536 -> u16 x = x.
Proof. intro H. unfold u16. apply Z.mod_small. exact H. Qed.

Lemma len_nonneg (s : slice) : 0 <= len s.
Proof. unfold len. lia. Qed.

Lemma len_le_cap (s : slice) : len s <= cap s.
Proof. unfold len, cap. lia. Qed.

Lemma index_in_range (s : slice) (i : Z) :
  0 <= i < len s -> exists b, index s i = Some b.
Proof.
  intros [H0 H1]. unfold index.
  replace (0 <=? i) with true by (symmetry; apply Z.leb_le; exact H0).
  replace (i <? len s) with true by (symmetry; apply Z.ltb_lt; exact H1).
  simpl. destruct (nth_error (elems s) (Z.to_nat i)) as [b|] eqn:E.
  - exists b. reflexivity.
  - apply nth_error_None in E. unfold len in H1. lia.
Qed.

Lemma index_out_of_range (s : slice) (i : Z) :
  len s <= i -> index s i = None.
Proof.
  intro H. unfold index.
  replace (i <? len s) with false by (symmetry; apply Z.ltb_ge; exact H).
  rewrite andb_false_r. reflexivity.
Qed.

Lemma reslice_in_range (s : slice) (lo hi : Z) :
  0 <= lo <= hi -> hi <= cap s -> exists r, reslice s lo hi = Some r.
Proof.
  intros [H0 H1] H2. unfold reslice.
  replace (0 <=? lo) with true by (symmetry; apply Z.leb_le; exact H0).
  replace (lo <=? hi) with true by (symmetry; apply Z.leb_le; exact H1).
  replace (hi <=? cap s) with true by (symmetry; apply Z.leb_le; exact H2).
  simpl. eexists. reflexivity.
Qed.

Lemma reslice_out_of_range (s : slice) (lo hi : Z) :
  cap s < hi \/ hi < lo -> reslice s lo hi = None.
Proof.
  intros H. unfold reslice.
  destruct (0 <=? lo); [|reflexivity].
  destruct (lo <=? hi) eqn:E1; [|reflexivity].
  destruct (hi <=? cap s) eqn:E2; [|reflexivity].
  apply Z.leb_le in E1. apply Z.leb_le in E2. lia.
Qed.

(** What a successful [s[lo:hi]] is. *)
Lemma reslice_Some (s r : slice) (lo hi : Z) :
  reslice s lo hi = Some r ->
  0 <= lo <= hi /\ hi <= cap s /\
  elems r = firstn (Z.to_nat (hi - lo)) (skipn (Z.to_nat lo) (elems s ++ room s)) /\
  room r = skipn (Z.to_nat hi) (elems s ++ room s) /\
  len r = hi - lo.
Proof.
  unfold reslice.
  destruct (0 <=? lo) eqn:E0; [|discriminate].
  destruct (lo <=? hi) eqn:E1; [|discriminate].
  destruct (hi <=? cap s) eqn:E2; [|discriminate].
  simpl. intro H. injection H as <-.
  apply Z.leb_le in E0. apply Z.leb_le in E1. apply Z.leb_le in E2.
  repeat split; try assumption.
  unfold len, cap in *. cbn [elems].
  rewrite length_firstn, length_skipn, length_app. lia.
Qed.

(** Inside [len], a re-slice shows bytes of the slice itself. *)
Lemma reslice_within (s r : slice) (lo hi : Z) :
  reslice s lo hi = Some r -> hi <= len s ->
  elems r = firstn (Z.to_nat (hi - lo)) (skipn (Z.to_nat lo) (elems s)).
Proof.
  intros H Hhi. apply reslice_Some in H as (H0 & _ & He & _ & _).
  rewrite He. unfold len in Hhi.
  rewrite skipn_app, firstn_app, length_skipn.
  replace (Z.to_nat (hi - lo) - (length (elems s) - Z.to_nat lo))%nat with 0%nat by lia.
  rewrite firstn_O, app_nil_r. reflexivity.
Qed.

Lemma resliceFrom_within (s r : slice) (lo : Z) :
  resliceFrom s lo = Some r -> elems r = skipn (Z.to_nat lo) (elems s).
Proof.
  intro H. unfold resliceFrom in H.
  pose proof (reslice_Some _ _ _ _ H) as (H0 & _ & _ & _ & _).
  rewrite (reslice_within _ _ _ _ H) by lia.
  apply firstn_all2. rewrite length_skipn. unfold len in *. lia.
Qed.

(** [s[0:]] is [s]. *)
Lemma resliceFrom_0 (s : slice) : resliceFrom s 0 = Some s.
Proof.
  unfold resliceFrom, reslice.
  replace (0 <=? len s) with true by (symmetry; apply Z.leb_le; apply len_nonneg).
  replace (len s <=? cap s) with true by (symmetry; apply Z.leb_le; apply len_le_cap).
  cbn [Z.leb Z.compare andb Z.to_nat skipn].
  rewrite Z.sub_0_r. unfold len. rewrite Nat2Z.id.
  rewrite firstn_app, firstn_all, Nat.sub_diag, firstn_O, app_nil_r.
  rewrite skipn_app, skipn_all, Nat.sub_diag. cbn [skipn app].
  destruct s; reflexivity.
Qed.

(** ** The walker terminates *)

Lemma headerLength_low_byte (b0 b1 : byte) : headerLength b0 b1 = byteval b1.
Proof.
  unfold headerLength.
  pose proof (byteval_range b0) as H0. pose proof (byteval_range b1) as H1.
  assert (Hn : Z.land (byteval b0) 1 = 0 \/ Z.land (byteval b0) 1 = 1).
  { assert (E : Z.land (byteval b0) 1 = byteval b0 mod 2)
      by (apply (Z.land_ones (byteval b0) 1); lia).
    pose proof (Z.mod_pos_bound (byteval b0) 2). lia. }
  assert (Hs : u8 (Z.shiftl (Z.land (byteval b0) 1) 8) = 0).
  { destruct Hn as [-> | ->]; reflexivity. }
  rewrite Hs. simpl. rewrite (u8_small _ H1). apply u16_small. lia.
Qed.

Lemma scanStep_shrinks (vData rest : slice) (vals vals' : list LinkLayerDiscoveryValue) :
  scanStep vData vals = Ok (inr (vals', rest)) ->
  (length (elems rest) < length (elems vData))%nat.
Proof.
  unfold scanStep.
  destruct (index vData 0) as [b0|]; [|discriminate].
  destruct (index vData 1) as [b1|]; [|discriminate].
  cbn [orPanic bind].
  rewrite headerLength_low_byte.
  pose proof (byteval_range b1) as Hb.
  destruct (if 0 <? byteval b1 then _ else _) as [value| |]; cbn [bind]; try discriminate.
  destruct (headerType b0 =? LLDPTLVEnd); [discriminate|].
  rewrite (u16_small (2 + byteval b1)) by lia.
  destruct (len vData <? 2 + byteval b1) eqn:E; [discriminate|].
  destruct (resliceFrom vData (2 + byteval b1)) as [r|] eqn:Er; [|discriminate].
  cbn [orPanic bind]. intro H. injection H as _ <-.
  apply resliceFrom_within in Er. rewrite Er, length_skipn.
  apply Z.ltb_ge in E. unfold len in E. lia.
Qed.

(** Enough fuel: the loop returns, errs or panics, it never runs out. *)
Lemma scanLoop_fuel (fuel : nat) :
  forall vData vals, (length (elems vData) < fuel)%nat ->
    exists r, scanLoop fuel vData vals = Some r.
Proof.
  induction fuel as [|fuel IH]; intros vData vals Hlt; [lia|].
  cbn [scanLoop].
  destruct (0 <? len vData); [|eexists; reflexivity].
  destruct (scanStep vData vals) as [[vs | [vs rest]] | e | ] eqn:E;
    try (eexists; reflexivity).
  apply IH. apply scanStep_shrinks in E. lia.
Qed.

(** [scanTLVs] is the loop run to its end: on every buffer the walker
    returns its records, returns an error or panics. *)
Lemma scanTLVs_total (data : slice) :
  scanLoop (S (length (elems data))) data [] = Some (scanTLVs data).
Proof.
  unfold scanTLVs. rewrite resliceFrom_0. cbn [orPanic bind].
  destruct (scanLoop_fuel (S (length (elems data))) data []) as [r Hr]; [lia|].
  rewrite Hr. reflexivity.
Qed.

(** Every record the walker appends carries the kind and the length of the
    header in front of it: the kind is the first byte shifted right by one,
    the length is the second byte. *)
Lemma scanStep_record (vData : slice) (vals : list LinkLayerDiscoveryValue)
    (r : list LinkLayerDiscoveryValue + list LinkLayerDiscoveryValue * slice) :
  scanStep vData vals = Ok r ->
  exists b0 b1 value,
    index vData 0 = Some b0 /\ index vData 1 = Some b1 /\
    match r with inl vs => vs | inr (vs, _) => vs end
    = vals ++ [mkValue (headerType b0) (byteval b1) value].
Proof.
  unfold scanStep.
  destruct (index vData 0) as [b0|]; [|discriminate].
  destruct (index vData 1) as [b1|]; [|discriminate].
  cbn [orPanic bind]. rewrite headerLength_low_byte.
  destruct (if 0 <? byteval b1 then _ else _) as [value| |]; cbn [bind]; try discriminate.
  destruct (headerType b0 =? LLDPTLVEnd).
  - intro H. injection H as <-. exists b0, b1, value. auto.
  - destruct (len vData <? u16 (2 + byteval b1)); [discriminate|].
    destruct (resliceFrom vData (u16 (2 + byteval b1))); [|discriminate].
    cbn [orPanic bind]. intro H. injection H as <-. exists b0, b1, value. auto.
Qed.

Lemma headerType_top7 (b0 : byte) :
  headerType b0 = byteval b0 / 2 /\ 0 <= headerType b0 < 128.
Proof.
  unfold headerType. rewrite Z.shiftr_div_pow2 by lia. change (2 ^ 1) with 2.
  pose proof (byteval_range b0). split; [reflexivity|].
  split; [apply Z.div_pos; lia | apply Z.div_lt_upper_bound; lia].
Qed.

(** ** C1: the length of a record *)

(** C1 (the code departs from the claim).  The kind of a record is the top
    seven bits of the first header byte, as claimed, but the length the
    walker stores is the second header byte alone: [nbit<<8] is computed on
    a [byte] and is always 0.  On the header [03 01] (ChassisID, bottom bit
    set, low byte 1) the claimed length is 257; the walker stores 1, takes
    one byte as the value and reads the next header two bytes later. *)
Theorem C1_walker_length_drops_high_bit :
  (forall b0 b1 : byte, headerLength b0 b1 = byteval b1) /\
  scanTLVs (sliceOf [x03; x01; xaa; x00; x00])
  = Ok [mkValue 1 1 (mkSlice [xaa] [x00; x00]); mkValue 0 0 nilSlice] /\
  Z.lor (Z.shiftl (Z.land (byteval x03) 1) 8) (byteval x01) = 257.
Proof.
  split; [exact headerLength_low_byte|].
  split; reflexivity.
Qed.

(** ** C2: a truncated first record *)

(** With no room behind the buffer ([cap = len]), a first record that
    declares more bytes than follow its header makes the walker panic: the
    value is sliced before the length is compared with what remains. *)
Lemma truncated_first_record_panics (b0 b1 : byte) (rest : list byte) (p : PacketBuilder) :
  Z.of_nat (length rest) < byteval b1 ->
  decodeLinkLayerDiscovery (sliceOf (b0 :: b1 :: rest)) p = Panicked p.
Proof.
  intro H.
  assert (E : scanTLVs (sliceOf (b0 :: b1 :: rest)) = Panic).
  { unfold scanTLVs.
    rewrite resliceFrom_0. cbn [orPanic bind scanLoop].
    replace (0 <? len (sliceOf (b0 :: b1 :: rest))) with true
      by (symmetry; apply Z.ltb_lt; unfold len; cbn [sliceOf elems length]; lia).
    unfold scanStep.
    replace (index (sliceOf (b0 :: b1 :: rest)) 0) with (Some b0)
      by (unfold index, len; cbn [sliceOf elems length];
          replace (0 <? Z.of_nat (S (S (length rest)))) with true
            by (symmetry; apply Z.ltb_lt; lia); reflexivity).
    replace (index (sliceOf (b0 :: b1 :: rest)) 1) with (Some b1)
      by (unfold index, len; cbn [sliceOf elems length];
          replace (1 <? Z.of_nat (S (S (length rest)))) with true
            by (symmetry; apply Z.ltb_lt; lia); reflexivity).
    cbn [orPanic bind]. rewrite headerLength_low_byte.
    pose proof (byteval_range b1) as Hb.
    replace (0 <? byteval b1) with true by (symmetry; apply Z.ltb_lt; lia).
    rewrite reslice_out_of_range; [reflexivity|].
    left. rewrite u16_small by lia.
    unfold cap. cbn [sliceOf elems room length]. lia. }
  unfold decodeLinkLayerDiscovery, decodeFrame. rewrite E. reflexivity.
Qed.

(** C2 (the code departs from the claim).  The buffer [02 05 01] holds a
    ChassisID header that declares five bytes and one byte after it.  The
    claim has the call return the truncated-record error; the code panics on
    [vData[2:7]], before it reaches the comparison that would return
    "Malformed LinkLayerDiscovery Header".  The error is returned only when
    the backing array has room for the declared bytes. *)
Theorem C2_truncated_first_record_panics :
  decodeLinkLayerDiscovery (sliceOf [x02; x05; x01]) [] = Panicked [] /\
  decodeLinkLayerDiscovery (mkSlice [x02; x05; x01] [x00; x00; x00; x00]) []
  = Returned [] (Some MalformedHeader).
Proof.
  split; reflexivity.
Qed.

(** ** C3: a frame without a TTL record *)

(** C3 (the code departs from the claim).  The frame ChassisID, PortID,
    SysName, End has four records, an End record, both identifiers with a
    subtype other than 0, and no TTL record.  The claim (and the comment on
    [LinkLayerDiscovery]: "ChassisID, PortID and TTL are mandatory TLV's")
    has the call fail; the code never looks whether a TTL record was seen:
    it returns nil, adds both layers, and the frame's TTL is 0. *)
Theorem C3_frame_without_TTL_accepted :
  exists c info,
    decodeLinkLayerDiscovery
      (sliceOf (tlvChassis ++ tlvPort ++ tlvSysName ++ tlvEnd)) []
    = Returned [LayerLinkLayerDiscovery c; LayerLinkLayerDiscoveryInfo info] None /\
    TTL c = 0 /\
    LLDPChassisID.Subtype (ChassisID c) = 4 /\
    LLDPPortID.Subtype (PortID c) = 3 /\
    map Typ (Values c) = [LLDPTLVSysName].
Proof.
  eexists. eexists. split; [reflexivity|].
  repeat split.
Qed.

(** ** C4: Power via MDI *)

(** [BigEndian.Uint16] needs two bytes. *)
Lemma BigEndian_Uint16_short (b : slice) : len b < 2 -> BigEndian_Uint16 b = None.
Proof.
  intro H. unfold BigEndian_Uint16.
  rewrite (index_out_of_range b 1) by lia. reflexivity.
Qed.

(** Whenever the payload has the eight bytes that open the second half of
    the case, the call [binary.BigEndian.Uint16(o.Info[7:8])] gets a slice
    of one byte and panics. *)
Lemma decodeMDIPower_long_panics (pw : PowerViaMDI.t) (o : LLDPOrgSpecificTLV.t) :
  8 <= len (LLDPOrgSpecificTLV.Info o) -> decodeMDIPower pw o = Panic.
Proof.
  intro H. unfold decodeMDIPower.
  destruct (index _ 0); cbn [orPanic bind]; [|reflexivity].
  destruct (index _ 1); cbn [orPanic bind]; [|reflexivity].
  destruct (index _ 2); cbn [orPanic bind]; [|reflexivity].
  replace (8 <=? len (LLDPOrgSpecificTLV.Info o)) with true
    by (symmetry; apply Z.leb_le; exact H).
  destruct (index _ 3); cbn [orPanic bind]; [|reflexivity].
  destruct (index _ 4); cbn [orPanic bind]; [|reflexivity].
  destruct (reslice _ 5 7); cbn [orPanic bind]; [|reflexivity].
  destruct (BigEndian_Uint16 _); cbn [orPanic bind]; [|reflexivity].
  destruct (reslice _ 7 8) as [a|] eqn:Ea; cbn [orPanic bind]; [|reflexivity].
  apply reslice_Some in Ea as (_ & _ & _ & _ & Hlen).
  rewrite BigEndian_Uint16_short by lia. reflexivity.
Qed.

Lemma Decode8023_MDIPower_long_panics (l : LinkLayerDiscoveryInfo)
    (o : LLDPOrgSpecificTLV.t) :
  OrgTLVs l = [o] ->
  LLDPOrgSpecificTLV.OUI o = IEEEOUI8023 ->
  LLDPOrgSpecificTLV.SubType o = LLDP8023SubtypeMDIPower ->
  8 <= len (LLDPOrgSpecificTLV.Info o) ->
  Decode8023 l = Panic.
Proof.
  intros Hl Ho Hs Hlen.
  unfold Decode8023, Decode8023Errors. rewrite Hl. cbn [loop8023].
  unfold step8023. rewrite Ho, Hs. cbn [Z.eqb Pos.eqb negb IEEEOUI8023 LLDP8023SubtypeMACPHY
    LLDP8023SubtypeMDIPower].
  unfold checkLLDPOrgSpecificLen.
  replace (3 <=? len (LLDPOrgSpecificTLV.Info o)) with true
    by (symmetry; apply Z.leb_le; lia).
  rewrite decodeMDIPower_long_panics by exact Hlen. reflexivity.
Qed.

(** C4 (the code departs from the claim).  A Power-via-MDI payload of nine
    bytes, [0f 01 04 53 02 00 82 00 82], for which the claim gives power
    type 1, source 129, priority 2, requested power 130 and allocated power
    130; and the same payload cut to eight bytes.  [Decode8023] panics on
    both: the allocated power is read with [BigEndian.Uint16] from the
    one-byte slice [o.Info[7:8]].  The first three bytes alone decode. *)
Theorem C4_Decode8023_MDIPower_panics :
  Decode8023 (infoOfOrgTLVs
    [LLDPOrgSpecificTLV.mk IEEEOUI8023 LLDP8023SubtypeMDIPower
       (sliceOf [x0f; x01; x04; x53; x02; x00; x82; x00; x82])]) = Panic /\
  Decode8023 (infoOfOrgTLVs
    [LLDPOrgSpecificTLV.mk IEEEOUI8023 LLDP8023SubtypeMDIPower
       (sliceOf [x0f; x01; x04; x53; x02; x00; x82; x00])]) = Panic /\
  Decode8023 (infoOfOrgTLVs
    [LLDPOrgSpecificTLV.mk IEEEOUI8023 LLDP8023SubtypeMDIPower
       (sliceOf [x0f; x01; x04])])
  = Ok (LLDPInfo8023.setPowerViaMDI LLDPInfo8023.zero
          (PowerViaMDI.mk true true true true 1 4 0 0 0 0 0), None).
Proof.
  repeat split; reflexivity.
Qed.

(** ** C7: VLAN name *)

(** A VLAN-name payload of exactly two bytes passes the length check for
    two bytes and panics on [o.Info[3:]]. *)
Lemma step8021_VLANName_2_panics (st : LLDPInfo8021.t * list Error)
    (o : LLDPOrgSpecificTLV.t) :
  LLDPOrgSpecificTLV.OUI o = IEEEOUI8021 ->
  LLDPOrgSpecificTLV.SubType o = LLDP8021SubtypeVLANName ->
  len (LLDPOrgSpecificTLV.Info o) = 2 ->
  step8021 st o = Panic.
Proof.
  intros Ho Hs Hlen. destruct st as [info errors].
  unfold step8021. rewrite Ho, Hs.
  cbn [Z.eqb Pos.eqb negb IEEEOUI8021 LLDP8021SubtypePortVLANID
    LLDP8021SubtypeProtocolVLANID LLDP8021SubtypeVLANName].
  unfold checkLLDPOrgSpecificLen. rewrite Hlen. cbn [Z.leb Z.compare Pos.compare Pos.compare_cont].
  destruct (reslice _ 0 2); cbn [orPanic bind]; [|reflexivity].
  destruct (BigEndian_Uint16 _); cbn [orPanic bind]; [|reflexivity].
  unfold resliceFrom. rewrite reslice_out_of_range by lia. reflexivity.
Qed.

(** C7 (the code departs from the claim).  The VLAN-name payload [00 0a] has
    two bytes, which the claim admits and for which it gives the VLAN id 10
    and an empty name.  [Decode8021] lets it pass its check for two bytes
    and panics on [o.Info[3:]] (low bound 3, length 2).  With three bytes,
    [00 0a 02], the id is 10 and the name is empty; with five,
    [00 0a 02 76 31], the name is "v1". *)
Theorem C7_Decode8021_VLANName_2_bytes_panics :
  Decode8021 (infoOfOrgTLVs
    [LLDPOrgSpecificTLV.mk IEEEOUI8021 LLDP8021SubtypeVLANName
       (sliceOf [x00; x0a])]) = Panic /\
  Decode8021 (infoOfOrgTLVs
    [LLDPOrgSpecificTLV.mk IEEEOUI8021 LLDP8021SubtypeVLANName
       (sliceOf [x00; x0a; x02])])
  = Ok (LLDPInfo8021.setVLANNames LLDPInfo8021.zero [VLANName.mk 10 []], None) /\
  Decode8021 (infoOfOrgTLVs
    [LLDPOrgSpecificTLV.mk IEEEOUI8021 LLDP8021SubtypeVLANName
       (sliceOf [x00; x0a; x02; x76; x31])])
  = Ok (LLDPInfo8021.setVLANNames LLDPInfo8021.zero [VLANName.mk 10 [x76; x31]], None).
Proof.
  repeat split; reflexivity.
Qed.

(** ** C9: management address *)

(** C9 (the code departs from the claim).  In the nine-byte value of
    [tlvMgmt], n = 2 and m = 1: both re-validations pass (n+7 = 9 and
    n+6+m = 9), and the OID is then read from offsets 11 to 12, past the
    value.  When the frame ends right after the record the read panics;
    when a SysName record "sw1" follows, the OID is the "s" of that record.
    With n = 250 the first re-validation is [u8 (250 + 7) = 1]: it wraps,
    passes, and [v.Value[2:251]] panics. *)
Theorem C9_MgmtAddress_reads_past_value :
  (exists c,
     decodeLinkLayerDiscovery
       (sliceOf (tlvChassis ++ tlvPort ++ tlvTTL ++ tlvMgmt ++ tlvEnd)) []
     = Panicked [LayerLinkLayerDiscovery c] /\
     map (fun v => (Typ v, len (Value v))) (Values c) = [(LLDPTLVMgmtAddress, 9)]) /\
  (exists c info,
     decodeLinkLayerDiscovery
       (sliceOf (tlvChassis ++ tlvPort ++ tlvTTL ++ tlvMgmt ++ tlvSysName ++ tlvEnd)) []
     = Returned [LayerLinkLayerDiscovery c; LayerLinkLayerDiscoveryInfo info] None /\
     map (fun v => (Typ v, elems (Value v))) (Values c)
     = [(LLDPTLVMgmtAddress, [x02; x01; x0a; x02; x00; x00; x00; x07; x01]);
        (LLDPTLVSysName, [x73; x77; x31])] /\
     LLDPMgmtAddress.OID (MgmtAddress info) = [x73]) /\
  (u8 (byteval xfa + 7) = 1 /\
   exists c,
     decodeLinkLayerDiscovery
       (sliceOf (tlvChassis ++ tlvPort ++ tlvTTL ++ tlvMgmtWrap ++ tlvSysName ++ tlvEnd)) []
     = Panicked [LayerLinkLayerDiscovery c] /\
     map (fun v => (Typ v, len (Value v))) (Values c)
     = [(LLDPTLVMgmtAddress, 9); (LLDPTLVSysName, 3)]).
Proof.
  split; [|split].
  - eexists. split; reflexivity.
  - eexists. eexists. split; [reflexivity|]. split; reflexivity.
  - split; [reflexivity|]. eexists. split; reflexivity.
Qed.

(** ** C10: protocol identity *)

(** C10 (the code departs from the claim).  The Protocol Identity payload
    [05] passes the check for one byte, and [Decode8021] then takes
    [o.Info[1:6]] without comparing 6 with the length of the payload.  When
    the frame ends right after the record the read panics; when a SysName
    record "sw1" follows, the identity returned is the five bytes
    [0a 03 73 77 31]: the header and the text of that record. *)
Theorem C10_ProtocolIdentity_reads_past_payload :
  (exists info,
     infoLayerOf (decodeLinkLayerDiscovery
       (sliceOf (tlvChassis ++ tlvPort ++ tlvTTL ++ tlvProtocolIdentity ++ tlvEnd)) [])
     = Some info /\
     map (fun o => (LLDPOrgSpecificTLV.OUI o, LLDPOrgSpecificTLV.SubType o,
                    elems (LLDPOrgSpecificTLV.Info o))) (OrgTLVs info)
     = [(IEEEOUI8021, LLDP8021SubtypeProtocolIdentity, [x05])] /\
     Decode8021 info = Panic) /\
  (exists info info8021,
     infoLayerOf (decodeLinkLayerDiscovery
       (sliceOf (tlvChassis ++ tlvPort ++ tlvTTL ++ tlvProtocolIdentity
                 ++ tlvSysName ++ tlvEnd)) [])
     = Some info /\
     map (fun o => (LLDPOrgSpecificTLV.OUI o, LLDPOrgSpecificTLV.SubType o,
                    elems (LLDPOrgSpecificTLV.Info o))) (OrgTLVs info)
     = [(IEEEOUI8021, LLDP8021SubtypeProtocolIdentity, [x05])] /\
     Decode8021 info = Ok (info8021, None) /\
     map elems (LLDPInfo8021.ProtocolIdentities info8021)
     = [[x0a; x03; x73; x77; x31]]).
Proof.
  split.
  - eexists. split; [reflexivity|]. split; reflexivity.
  - eexists. eexists. split; [reflexivity|]. split; [reflexivity|].
    split; reflexivity.
Qed.

(** ** C5: which errors the caller receives *)

Lemma AddLayer_twice (p : PacketBuilder) (a b : Layer) :
  AddLayer (AddLayer p a) b = p ++ [a; b].
Proof. unfold AddLayer. rewrite <- app_assoc. reflexivity. Qed.

(** Past the frame-level checks, the call adds both layers and returns the
    first accumulated error, if any. *)
Lemma decodeLinkLayerDiscovery_info (data : slice) (p : PacketBuilder)
    (c : LinkLayerDiscovery) (info : LinkLayerDiscoveryInfo) (errors : list Error) :
  decodeFrame data = Ok c ->
  decodeInfo (Values c) = Ok (info, errors) ->
  decodeLinkLayerDiscovery data p
  = Returned (p ++ [LayerLinkLayerDiscovery c; LayerLinkLayerDiscoveryInfo info])
             (firstError errors).
Proof.
  intros Hc Hi. unfold decodeLinkLayerDiscovery. rewrite Hc, Hi.
  rewrite AddLayer_twice. reflexivity.
Qed.

(** C5, counterexample.  [Decode8021] accumulates two errors on
    [twoErrorsA] and two on [twoErrorsB]; the lists differ in the second
    error, and the caller receives the same value from both calls: the
    result and the first error.  In the same way the frame with an undersized
    SysCapabilities record and an undersized organisation-specific record
    accumulates two errors and [decodeLinkLayerDiscovery] returns the
    first. *)
Lemma C5_full_list_not_returned :
  Decode8021Errors twoErrorsA
  = Ok (LLDPInfo8021.zero,
        [InvalidOrgSpecificLength 1 1 2; InvalidOrgSpecificLength 6 0 2]) /\
  Decode8021Errors twoErrorsB
  = Ok (LLDPInfo8021.zero,
        [InvalidOrgSpecificLength 1 1 2; InvalidOrgSpecificLength 5 0 4]) /\
  Decode8021 twoErrorsA
  = Ok (LLDPInfo8021.zero, Some (InvalidOrgSpecificLength 1 1 2)) /\
  Decode8021 twoErrorsB = Decode8021 twoErrorsA /\
  decodeFrame twoErrorsData = Ok twoErrorsFrame /\
  decodeInfo (Values twoErrorsFrame)
  = Ok (zeroLinkLayerDiscoveryInfo,
        [InvalidTLVLength 7 2 4; InvalidTLVLength 127 2 4]) /\
  decodeLinkLayerDiscovery twoErrorsData []
  = Returned [LayerLinkLayerDiscovery twoErrorsFrame;
              LayerLinkLayerDiscoveryInfo zeroLinkLayerDiscoveryInfo]
             (Some (InvalidTLVLength 7 2 4)).
Proof.
  repeat split; reflexivity.
Qed.

(** C5, as the code has it.  When two or more field-level errors have
    accumulated, the caller receives the partially populated result object
    and the first of the errors: [decodeLinkLayerDiscovery] hands both
    layers to the packet builder and returns [errors[0]]; [Decode8021],
    [Decode8023] and [Decode8021Qbg] return the result they built and
    [errors[0]]. *)
Theorem C5_first_error_returned :
  (forall data p c info e1 e2 rest,
     decodeFrame data = Ok c ->
     decodeInfo (Values c) = Ok (info, e1 :: e2 :: rest) ->
     decodeLinkLayerDiscovery data p
     = Returned (p ++ [LayerLinkLayerDiscovery c; LayerLinkLayerDiscoveryInfo info])
                (Some e1)) /\
  (forall l info e1 e2 rest,
     Decode8021Errors l = Ok (info, e1 :: e2 :: rest) ->
     Decode8021 l = Ok (info, Some e1)) /\
  (forall l info e1 e2 rest,
     Decode8023Errors l = Ok (info, e1 :: e2 :: rest) ->
     Decode8023 l = Ok (info, Some e1)) /\
  (forall l info e1 e2 rest,
     Decode8021QbgErrors l = Ok (info, e1 :: e2 :: rest) ->
     Decode8021Qbg l = Ok (info, Some e1)).
Proof.
  split; [|split; [|split]].
  - intros data p c info e1 e2 rest Hc Hi.
    rewrite (decodeLinkLayerDiscovery_info _ _ _ _ _ Hc Hi). reflexivity.
  - intros l info e1 e2 rest H. unfold Decode8021. rewrite H. reflexivity.
  - intros l info e1 e2 rest H. unfold Decode8023. rewrite H. reflexivity.
  - intros l info e1 e2 rest H. unfold Decode8021Qbg. rewrite H. reflexivity.
Qed.

Lemma C5_first_error_returned_witness :
  decodeLinkLayerDiscovery twoErrorsData []
  = Returned ([] ++ [LayerLinkLayerDiscovery twoErrorsFrame;
                     LayerLinkLayerDiscoveryInfo zeroLinkLayerDiscoveryInfo])
             (Some (InvalidTLVLength 7 2 4)) /\
  Decode8021 twoErrorsA
  = Ok (LLDPInfo8021.zero, Some (InvalidOrgSpecificLength 1 1 2)).
Proof.
  split.
  - apply (proj1 C5_first_error_returned twoErrorsData [] twoErrorsFrame
             zeroLinkLayerDiscoveryInfo
             (InvalidTLVLength 7 2 4) (InvalidTLVLength 127 2 4) []);
      reflexivity.
  - apply (proj1 (proj2 C5_first_error_returned) twoErrorsA LLDPInfo8021.zero
             (InvalidOrgSpecificLength 1 1 2) (InvalidOrgSpecificLength 6 0 2) []).
    reflexivity.
Defined.

(** ** C6: a good SysName record beside an undersized SysCapabilities record *)





(** ** C8: decoding again *)





(** * Further properties of the decoder *)

(** ** Big-endian reads *)

Lemma lor_shiftl_8 (lo hi : Z) :
  0 <= lo < 256 -> 0 <= hi -> Z.lor lo (Z.shiftl hi 8) = hi * 256 + lo.
Proof.
  intros Hlo Hhi.
  rewrite Z.shiftl_mul_pow2 by lia. change (2 ^ 8) with 256.
  rewrite Z.add_comm.
  rewrite <- Z.lxor_lor, Z.add_nocarry_lxor; try reflexivity.
  all: apply Z.bits_inj'; intros n Hn; rewrite Z.land_spec, Z.bits_0;
    destruct (Z.ltb_spec n 8).
  all: try (replace (hi * 256) with (hi * 2 ^ 8) by reflexivity;
            rewrite Z.mul_pow2_bits_low by lia; apply andb_false_r).
  all: replace (Z.testbit lo n) with false; [reflexivity|];
    symmetry; destruct (Z.eq_dec lo 0) as [->|]; [apply Z.bits_0|];
    apply Z.bits_above_log2; [lia|];
    apply Z.lt_le_trans with 8; [apply Z.log2_lt_pow2; lia | lia].
Qed.

(** Inside [len], [s[lo:hi][i]] is [s[lo+i]]. *)
Lemma index_reslice (s r : slice) (lo hi i : Z) :
  reslice s lo hi = Some r -> 0 <= i < hi - lo -> hi <= len s ->
  index r i = index s (lo + i).
Proof.
  intros H Hi Hhi.
  pose proof (reslice_within _ _ _ _ H Hhi) as He.
  apply reslice_Some in H as (H0 & _ & _ & _ & Hlen).
  unfold index. rewrite Hlen.
  replace (0 <=? i) with true by (symmetry; apply Z.leb_le; lia).
  replace (i <? hi - lo) with true by (symmetry; apply Z.ltb_lt; lia).
  replace (0 <=? lo + i) with true by (symmetry; apply Z.leb_le; lia).
  replace (lo + i <? len s) with true by (symmetry; apply Z.ltb_lt; lia).
  cbn [andb]. rewrite He, nth_error_firstn.
  replace (Z.to_nat i <? Z.to_nat (hi - lo))%nat with true
    by (symmetry; apply Nat.ltb_lt; lia).
  rewrite nth_error_skipn. f_equal. lia.
Qed.

(** [binary.BigEndian.Uint16(s[lo:lo+2])] inside [len]. *)
Lemma BigEndian_Uint16_reslice (s : slice) (lo : Z) (b0 b1 : byte) :
  0 <= lo -> lo + 2 <= len s ->
  index s lo = Some b0 -> index s (lo + 1) = Some b1 ->
  exists r, reslice s lo (lo + 2) = Some r /\
            BigEndian_Uint16 r = Some (byteval b0 * 256 + byteval b1).
Proof.
  intros Hlo Hhi H0 H1.
  destruct (reslice_in_range s lo (lo + 2)) as [r Hr];
    [lia | pose proof (len_le_cap s); lia |].
  exists r. split; [exact Hr|].
  unfold BigEndian_Uint16.
  rewrite (index_reslice _ _ _ _ 1 Hr) by lia.
  rewrite (index_reslice _ _ _ _ 0 Hr) by lia.
  rewrite Z.add_0_r, H0, H1.
  rewrite lor_shiftl_8; [reflexivity | apply byteval_range | apply byteval_range].
Qed.

(** ** VLAN names of three bytes or more *)

(** A VLAN-name payload of at least three bytes adds a [VLANName] whose ID
    is the big-endian value of bytes 0 and 1 and whose name is the payload
    from offset 3 on; byte 2 is skipped. *)
Lemma step8021_VLANName (info : LLDPInfo8021.t) (errors : list Error)
    (o : LLDPOrgSpecificTLV.t) (b0 b1 : byte) :
  LLDPOrgSpecificTLV.OUI o = IEEEOUI8021 ->
  LLDPOrgSpecificTLV.SubType o = LLDP8021SubtypeVLANName ->
  3 <= len (LLDPOrgSpecificTLV.Info o) ->
  index (LLDPOrgSpecificTLV.Info o) 0 = Some b0 ->
  index (LLDPOrgSpecificTLV.Info o) 1 = Some b1 ->
  step8021 (info, errors) o
  = Ok (LLDPInfo8021.setVLANNames info
          (LLDPInfo8021.VLANNames info
           ++ [VLANName.mk (byteval b0 * 256 + byteval b1)
                           (skipn 3 (elems (LLDPOrgSpecificTLV.Info o)))]),
        errors).
Proof.
  intros Ho Hs Hlen H0 H1. unfold step8021. rewrite Ho, Hs.
  cbn [Z.eqb Pos.eqb negb IEEEOUI8021 LLDP8021SubtypePortVLANID
    LLDP8021SubtypeProtocolVLANID LLDP8021SubtypeVLANName].
  unfold checkLLDPOrgSpecificLen.
  replace (2 <=? len (LLDPOrgSpecificTLV.Info o)) with true
    by (symmetry; apply Z.leb_le; lia).
  destruct (BigEndian_Uint16_reslice (LLDPOrgSpecificTLV.Info o) 0 b0 b1)
    as (r & Hr & Hv); try assumption; try lia.
  change (0 + 2) with 2 in Hr. rewrite Hr. cbn [orPanic bind]. rewrite Hv.
  cbn [orPanic bind].
  destruct (reslice_in_range (LLDPOrgSpecificTLV.Info o) 3
              (len (LLDPOrgSpecificTLV.Info o))) as [name Hname];
    [lia | apply len_le_cap |].
  unfold resliceFrom at 1. rewrite Hname. cbn [orPanic bind].
  unfold stringOf. rewrite (resliceFrom_within _ _ _ Hname). reflexivity.
Qed.

Lemma step8021_VLANName_witness :
  step8021 (LLDPInfo8021.zero, [])
    (LLDPOrgSpecificTLV.mk IEEEOUI8021 LLDP8021SubtypeVLANName
       (sliceOf [x00; x0a; x02; x76; x31]))
  = Ok (LLDPInfo8021.setVLANNames LLDPInfo8021.zero
          (LLDPInfo8021.VLANNames LLDPInfo8021.zero
           ++ [VLANName.mk (byteval x00 * 256 + byteval x0a)
                 (skipn 3 (elems (LLDPOrgSpecificTLV.Info
                    (LLDPOrgSpecificTLV.mk IEEEOUI8021 LLDP8021SubtypeVLANName
                       (sliceOf [x00; x0a; x02; x76; x31])))))]),
        []).
Proof.
  apply (step8021_VLANName LLDPInfo8021.zero []
           (LLDPOrgSpecificTLV.mk IEEEOUI8021 LLDP8021SubtypeVLANName
              (sliceOf [x00; x0a; x02; x76; x31])) x00 x0a);
    first [reflexivity | vm_compute; discriminate].
Defined.

(** ** Witnesses of the panics *)

Lemma truncated_first_record_panics_witness :
  decodeLinkLayerDiscovery (sliceOf (x02 :: x05 :: [x01])) [] = Panicked [].
Proof.
  apply (truncated_first_record_panics x02 x05 [x01] []). reflexivity.
Defined.

Lemma Decode8023_MDIPower_long_panics_witness :
  Decode8023 (infoOfOrgTLVs
    [LLDPOrgSpecificTLV.mk IEEEOUI8023 LLDP8023SubtypeMDIPower
       (sliceOf [x0f; x01; x04; x53; x02; x00; x82; x00; x82])]) = Panic.
Proof.
  apply (Decode8023_MDIPower_long_panics _
           (LLDPOrgSpecificTLV.mk IEEEOUI8023 LLDP8023SubtypeMDIPower
              (sliceOf [x0f; x01; x04; x53; x02; x00; x82; x00; x82])));
    first [reflexivity | vm_compute; discriminate].
Defined.

(** ** The examples of the specification *)

(** The minimal frame ChassisID (MAC address), PortID, TTL 120, End decodes:
    nil is returned, both layers are added, and no record is left over. *)
Lemma minimal_frame_decodes :
  exists c info,
    decodeLinkLayerDiscovery (sliceOf (tlvChassis ++ tlvPort ++ tlvTTL ++ tlvEnd)) []
    = Returned [LayerLinkLayerDiscovery c; LayerLinkLayerDiscoveryInfo info] None /\
    LLDPChassisID.Subtype (ChassisID c) = 4 /\
    elems (LLDPChassisID.ID (ChassisID c)) = [x00; x11; x22; x33; x44; x55] /\
    LLDPPortID.Subtype (PortID c) = 3 /\
    elems (LLDPPortID.ID (PortID c)) = [x01; x02; x03; x04] /\
    TTL c = 120 /\
    Values c = [] /\
    info = zeroLinkLayerDiscoveryInfo.
Proof.
  eexists. eexists. split; [reflexivity|]. repeat split.
Qed.

(** SysCapabilities with the value [00 04 00 04]: Bridge, and nothing else,
    in both the system and the enabled capabilities. *)
Lemma SysCapabilities_bridge :
  exists c info,
    decodeLinkLayerDiscovery
      (sliceOf (tlvChassis ++ tlvPort ++ tlvTTL
                ++ [x0e; x04; x00; x04; x00; x04] ++ tlvEnd)) []
    = Returned [LayerLinkLayerDiscovery c; LayerLinkLayerDiscoveryInfo info] None /\
    SysCapabilities info
    = mkSysCaps
        (mkCaps false false true false false false false false false false false)
        (mkCaps false false true false false false false false false false false).
Proof.
  eexists. eexists. split; reflexivity.
Qed.

(** ** Records of other kinds *)

(** The switch of the third loop has no default case: whatever the records,
    the [Unknown] list of the info layer stays empty. *)
Lemma infoStep_Unknown (info info' : LinkLayerDiscoveryInfo)
    (errors errors' : list Error) (v : LinkLayerDiscoveryValue) :
  infoStep (info, errors) v = Ok (info', errors') -> Unknown info' = Unknown info.
Proof.
  unfold infoStep, decodeMgmtAddress.
  repeat match goal with
         | |- context [if ?b then _ else _] => destruct b
         | |- context [let (_, _) := ?x in _] => destruct x
         | |- context [orPanic ?o] => destruct o; cbn [orPanic bind]
         | |- Ok _ = Ok _ -> _ => intro H; injection H as <- _; reflexivity
         | |- Panic = Ok _ -> _ => discriminate
         end.
Qed.

Lemma infoLoop_Unknown (vals : list LinkLayerDiscoveryValue) :
  forall info info' errors errors',
    infoLoop vals (info, errors) = Ok (info', errors') -> Unknown info' = Unknown info.
Proof.
  induction vals as [|v vals IH]; intros info info' errors errors'; cbn [infoLoop].
  - intro H. injection H as <- _. reflexivity.
  - destruct (infoStep (info, errors) v) as [[i e]| |] eqn:E; cbn [bind]; try discriminate.
    intro H. rewrite (IH _ _ _ _ H). exact (infoStep_Unknown _ _ _ _ _ E).
Qed.

(** When the third loop ends, [Unknown] is empty, whatever the records. *)
Lemma decodeInfo_Unknown_empty (vals : list LinkLayerDiscoveryValue)
    (info : LinkLayerDiscoveryInfo) (errors : list Error) :
  decodeInfo vals = Ok (info, errors) -> Unknown info = [].
Proof.
  unfold decodeInfo. intro H. exact (infoLoop_Unknown _ _ _ _ _ H).
Qed.

Lemma decodeInfo_Unknown_empty_witness :
  Unknown (setSysName zeroLinkLayerDiscoveryInfo []) = [].
Proof.
  apply (decodeInfo_Unknown_empty [mkValue 9 0 nilSlice; mkValue LLDPTLVSysName 0 nilSlice]
           (setSysName zeroLinkLayerDiscoveryInfo []) []).
  reflexivity.
Defined.

(** * The rest of the decoder *)

(** ** The capability masks *)

(** [v&(1<<k) > 0] tests bit [k] of [v]. *)
Lemma hasBits_testbit (v k : Z) :
  0 <= k -> hasBits v (Z.shiftl 1 k) = Z.testbit v k.
Proof.
  intro Hk. unfold hasBits. rewrite Z.shiftl_1_l.
  destruct (Z.testbit v k) eqn:E.
  - replace (Z.land v (2 ^ k)) with (2 ^ k).
    + apply Z.ltb_lt. apply Z.pow_pos_nonneg; lia.
    + apply Z.bits_inj'. intros n Hn.
      rewrite Z.land_spec, Z.pow2_bits_eqb by lia.
      destruct (Z.eqb_spec k n) as [<-|]; [rewrite E|rewrite andb_false_r]; reflexivity.
  - replace (Z.land v (2 ^ k)) with 0; [reflexivity|].
    apply Z.bits_inj'. intros n Hn.
    rewrite Z.land_spec, Z.pow2_bits_eqb, Z.bits_0 by lia.
    destruct (Z.eqb_spec k n) as [<-|]; [rewrite E|rewrite andb_false_r]; reflexivity.
Qed.

Lemma getCapabilities_bits (v : Z) :
  getCapabilities v
  = mkCaps (Z.testbit v 0) (Z.testbit v 1) (Z.testbit v 2) (Z.testbit v 3)
           (Z.testbit v 4) (Z.testbit v 5) (Z.testbit v 6) (Z.testbit v 7)
           (Z.testbit v 8) (Z.testbit v 9) (Z.testbit v 10).
Proof.
  unfold getCapabilities, LLDPCapsOther, LLDPCapsRepeater, LLDPCapsBridge,
    LLDPCapsWLANAP, LLDPCapsRouter, LLDPCapsPhone, LLDPCapsDocSis,
    LLDPCapsStationOnly, LLDPCapsCVLAN, LLDPCapsSVLAN, LLDPCapsTmpr.
  rewrite !hasBits_testbit by lia. reflexivity.
Qed.

(** Bits of [v & (2^n - 1)]. *)
Lemma land_ones_eq_iff (n v w : Z) :
  0 <= n ->
  (Z.land v (Z.ones n) = Z.land w (Z.ones n)
   <-> forall k, 0 <= k < n -> Z.testbit v k = Z.testbit w k).
Proof.
  intro Hn. split.
  - intros H k Hk.
    assert (E : Z.testbit (Z.land v (Z.ones n)) k = Z.testbit (Z.land w (Z.ones n)) k)
      by (rewrite H; reflexivity).
    rewrite !Z.land_spec, Z.ones_spec_low, !andb_true_r in E by lia. exact E.
  - intro H. apply Z.bits_inj'. intros k Hk. rewrite !Z.land_spec.
    destruct (Z.ltb_spec k n).
    + rewrite (H k) by lia. reflexivity.
    + rewrite Z.ones_spec_high, !andb_false_r by lia. reflexivity.
Qed.

Theorem getCapabilities_low_11_bits (v w : Z) :
  getCapabilities v = getCapabilities w <-> Z.land v 0x7ff = Z.land w 0x7ff.
Proof.
  rewrite !getCapabilities_bits. change 0x7ff with (Z.ones 11).
  rewrite land_ones_eq_iff by lia. split.
  - intros H k Hk. injection H as H0 H1 H2 H3 H4 H5 H6 H7 H8 H9 H10.
    assert (Hc : k = 0 \/ k = 1 \/ k = 2 \/ k = 3 \/ k = 4 \/ k = 5 \/ k = 6
                 \/ k = 7 \/ k = 8 \/ k = 9 \/ k = 10) by lia.
    repeat (destruct Hc as [-> | Hc]; [assumption|]). subst k. assumption.
  - intro H. rewrite !(H _) by lia. reflexivity.
Qed.

Lemma getEVBCapabilities_bits (v : Z) :
  getEVBCapabilities v
  = mkEVBCaps (Z.testbit v 0) (Z.testbit v 1) (Z.testbit v 2) (Z.testbit v 3)
              (Z.testbit v 4).
Proof.
  unfold getEVBCapabilities, LLDPEVBCapsSTD, LLDPEVBCapsRR, LLDPEVBCapsRTE,
    LLDPEVBCapsECP, LLDPEVBCapsVDP.
  rewrite !hasBits_testbit by lia. reflexivity.
Qed.

Theorem getEVBCapabilities_low_5_bits (v w : Z) :
  getEVBCapabilities v = getEVBCapabilities w <-> Z.land v 0x1f = Z.land w 0x1f.
Proof.
  rewrite !getEVBCapabilities_bits. change 0x1f with (Z.ones 5).
  rewrite land_ones_eq_iff by lia. split.
  - intros H k Hk. injection H as H0 H1 H2 H3 H4.
    assert (Hc : k = 0 \/ k = 1 \/ k = 2 \/ k = 3 \/ k = 4) by lia.
    repeat (destruct Hc as [-> | Hc]; [assumption|]). subst k. assumption.
  - intro H. rewrite !(H _) by lia. reflexivity.
Qed.

(** ** The wire form read back *)

Lemma byteval_byteOf (z : Z) : 0 <= z < 256 -> byteval (byteOf z) = z.
Proof.
  intro H. unfold byteOf, byteval.
  destruct (Byte.of_N (Z.to_N z)) as [b|] eqn:E.
  - apply Byte.to_of_N in E. rewrite E. lia.
  - apply Byte.of_N_None_iff in E. lia.
Qed.

Lemma index_cons_0 (b : byte) (bs spare : list byte) :
  index (mkSlice (b :: bs) spare) 0 = Some b.
Proof.
  unfold index, len. cbn [elems length].
  replace (0 <? Z.of_nat (S (length bs))) with true by (symmetry; apply Z.ltb_lt; lia).
  reflexivity.
Qed.

Lemma index_cons_1 (a b : byte) (bs spare : list byte) :
  index (mkSlice (a :: b :: bs) spare) 1 = Some b.
Proof.
  unfold index, len. cbn [elems length].
  replace (1 <? Z.of_nat (S (S (length bs)))) with true by (symmetry; apply Z.ltb_lt; lia).
  reflexivity.
Qed.

Lemma headerType_byteOf (t : Z) : 0 <= t < 128 -> headerType (byteOf (2 * t)) = t.
Proof.
  intro H. unfold headerType. rewrite byteval_byteOf by lia.
  rewrite Z.shiftr_div_pow2 by lia. change (2 ^ 1) with 2.
  rewrite Z.mul_comm. apply Z.div_mul. lia.
Qed.

(** One iteration on an encoded record: the record is appended and the
    walker goes on behind it. *)
Lemma scanStep_encoded (r : Z * list byte) (rest spare : list byte)
    (vals : list LinkLayerDiscoveryValue) :
  encodable r ->
  exists v,
    scanStep (mkSlice (encodeTLV r ++ rest) spare) vals
    = Ok (inr (vals ++ [v], mkSlice rest spare)) /\
    recordOf v = r /\ Length v = len (Value v).
Proof.
  destruct r as [t value]. unfold encodable. cbn [fst snd]. intros [Ht Hl].
  unfold scanStep, encodeTLV. cbn [fst snd app].
  rewrite index_cons_0, index_cons_1. cbn [orPanic bind].
  rewrite headerLength_low_byte, headerType_byteOf, byteval_byteOf by lia.
  replace (t =? LLDPTLVEnd) with false by (symmetry; apply Z.eqb_neq; unfold LLDPTLVEnd; lia).
  rewrite !u16_small by lia.
  set (s := mkSlice (_ :: _ :: value ++ rest) spare).
  assert (Hlen : len s = 2 + Z.of_nat (length value) + Z.of_nat (length rest)).
  { unfold len, s. cbn [elems length]. rewrite length_app. lia. }
  replace (len s <? 2 + Z.of_nat (length value)) with false
    by (symmetry; apply Z.ltb_ge; lia).
  assert (Hrest : resliceFrom s (2 + Z.of_nat (length value)) = Some (mkSlice rest spare)).
  { unfold resliceFrom, reslice.
    replace (0 <=? 2 + Z.of_nat (length value)) with true by (symmetry; apply Z.leb_le; lia).
    replace (2 + Z.of_nat (length value) <=? len s) with true
      by (symmetry; apply Z.leb_le; lia).
    replace (len s <=? cap s) with true by (symmetry; apply Z.leb_le; apply len_le_cap).
    cbn [andb]. rewrite Hlen.
    replace (2 + Z.of_nat (length value) + Z.of_nat (length rest)
             - (2 + Z.of_nat (length value))) with (Z.of_nat (length rest)) by lia.
    replace (Z.to_nat (2 + Z.of_nat (length value))) with (S (S (length value))) by lia.
    replace (Z.to_nat (2 + Z.of_nat (length value) + Z.of_nat (length rest)))
      with (S (S (length value + length rest))) by lia.
    rewrite Nat2Z.id. unfold s. cbn [elems room app skipn].
    rewrite <- !app_assoc.
    rewrite (skipn_app (length value)), skipn_all, Nat.sub_diag. cbn [skipn app].
    rewrite firstn_app, firstn_all, Nat.sub_diag, firstn_O, app_nil_r.
    rewrite app_assoc, <- length_app, skipn_app, skipn_all, Nat.sub_diag.
    reflexivity. }
  destruct value as [|b value].
  - cbn [length Z.of_nat Z.ltb Z.compare bind].
    change (2 + 0) with 2 in Hrest. cbn [length Z.of_nat] in Hrest.
    rewrite Hrest. cbn [orPanic bind].
    eexists. split; [reflexivity|]. split; reflexivity.
  - replace (0 <? Z.of_nat (length (b :: value))) with true
      by (symmetry; apply Z.ltb_lt; cbn [length]; lia).
    assert (Hv : reslice s 2 (Z.of_nat (length (b :: value)) + 2)
                 = Some (mkSlice (b :: value) (rest ++ spare))).
    { unfold reslice.
      replace (2 <=? Z.of_nat (length (b :: value)) + 2) with true
        by (symmetry; apply Z.leb_le; lia).
      replace (Z.of_nat (length (b :: value)) + 2 <=? cap s) with true
        by (symmetry; apply Z.leb_le; pose proof (len_le_cap s); lia).
      cbn [Z.leb Z.compare andb].
      replace (Z.of_nat (length (b :: value)) + 2 - 2) with (Z.of_nat (length (b :: value))) by lia.
      replace (Z.to_nat (Z.of_nat (length (b :: value)) + 2))
        with (S (S (length (b :: value)))) by lia.
      rewrite Nat2Z.id. change (Z.to_nat 2) with 2%nat.
      unfold s. cbn [elems room app skipn].
      rewrite <- !app_assoc.
      change (b :: value ++ rest ++ spare) with ((b :: value) ++ rest ++ spare).
      rewrite firstn_app, firstn_all, Nat.sub_diag, firstn_O, app_nil_r.
      rewrite skipn_app, skipn_all, Nat.sub_diag. reflexivity. }
    rewrite Hv. cbn [orPanic bind]. rewrite Hrest. cbn [orPanic bind].
    eexists. split; [reflexivity|]. split; [reflexivity|].
    unfold len. reflexivity.
Qed.

Lemma scanLoop_encoded (rs : list (Z * list byte)) :
  forall (fuel : nat) (trailing spare : list byte) (acc : list LinkLayerDiscoveryValue),
    Forall encodable rs ->
    (length (encodeTLVs rs ++ tlvEnd ++ trailing) < fuel)%nat ->
    exists vals,
      scanLoop fuel (mkSlice (encodeTLVs rs ++ tlvEnd ++ trailing) spare) acc
      = Some (Ok (acc ++ vals)) /\
      map recordOf vals = rs ++ [(LLDPTLVEnd, [])] /\
      Forall (fun v => Length v = len (Value v)) vals.
Proof.
  induction rs as [|r rs IH]; intros fuel trailing spare acc Hrs Hfuel.
  - destruct fuel as [|fuel]; [lia|].
    exists [mkValue 0 0 nilSlice]. split; [|split; [reflexivity|]].
    + cbn [encodeTLVs flat_map app tlvEnd scanLoop].
      replace (0 <? len _) with true
        by (symmetry; apply Z.ltb_lt; unfold len; cbn [elems length]; lia).
      unfold scanStep. rewrite index_cons_0, index_cons_1. reflexivity.
    + constructor; [reflexivity|constructor].
  - destruct fuel as [|fuel]; [lia|].
    inversion Hrs as [|? ? Hr Hrs']; subst.
    cbn [encodeTLVs flat_map] in *. fold (encodeTLVs rs) in *.
    rewrite <- app_assoc in *.
    destruct (scanStep_encoded r (encodeTLVs rs ++ tlvEnd ++ trailing) spare acc Hr)
      as (v & Hstep & Hv & Hlen).
    destruct (IH fuel trailing spare (acc ++ [v]) Hrs') as (vals & Hloop & Hmap & Hall).
    { rewrite length_app in Hfuel. unfold encodeTLV in Hfuel. cbn [length] in Hfuel. lia. }
    exists (v :: vals). split; [|split].
    + cbn [scanLoop].
      replace (0 <? len _) with true
        by (symmetry; apply Z.ltb_lt; unfold len, encodeTLV; cbn [elems length app]; lia).
      rewrite Hstep, Hloop, <- app_assoc. reflexivity.
    + cbn [map app]. rewrite Hv, Hmap. reflexivity.
    + constructor; assumption.
Qed.

(** The walker reads back any sequence of records that the wire form can
    carry, whatever follows the End record and whatever room lies behind
    the buffer. *)
Theorem scanTLVs_encoded (rs : list (Z * list byte)) (trailing spare : list byte) :
  Forall encodable rs ->
  exists vals,
    scanTLVs (mkSlice (encodeTLVs rs ++ tlvEnd ++ trailing) spare) = Ok vals /\
    map recordOf vals = rs ++ [(LLDPTLVEnd, [])] /\
    Forall (fun v => Length v = len (Value v)) vals.
Proof.
  intro Hrs.
  destruct (scanLoop_encoded rs
              (S (length (encodeTLVs rs ++ tlvEnd ++ trailing))) trailing spare [] Hrs)
    as (vals & Hloop & Hmap & Hall); [lia|].
  exists vals. split; [|split; assumption].
  unfold scanTLVs. rewrite resliceFrom_0. cbn [orPanic bind].
  change (elems (mkSlice (encodeTLVs rs ++ tlvEnd ++ trailing) spare))
    with (encodeTLVs rs ++ tlvEnd ++ trailing).
  rewrite Hloop. reflexivity.
Qed.

(** ** The mandatory records *)

(** Indexing looks at the visible bytes only. *)
Lemma index_nth_error (s : slice) (i : Z) :
  0 <= i -> index s i = nth_error (elems s) (Z.to_nat i).
Proof.
  intro H. unfold index.
  replace (0 <=? i) with true by (symmetry; apply Z.leb_le; exact H).
  destruct (Z.ltb_spec i (len s)); [reflexivity|].
  symmetry. apply nth_error_None. unfold len in *. lia.
Qed.

Lemma resliceFrom_in_range (s : slice) (lo : Z) :
  0 <= lo <= len s ->
  exists r, resliceFrom s lo = Some r /\ elems r = skipn (Z.to_nat lo) (elems s).
Proof.
  intro H. destruct (reslice_in_range s lo (len s)) as [r Hr];
    [lia | apply len_le_cap |].
  exists r. split; [exact Hr|]. exact (resliceFrom_within _ _ _ Hr).
Qed.

Lemma extractStep_ChassisID (c : LinkLayerDiscovery) (gotEnd : bool)
    (v : LinkLayerDiscoveryValue) (b x : byte) (bs : list byte) :
  recordOf v = (LLDPTLVChassisID, b :: x :: bs) ->
  exists id,
    extractStep (c, gotEnd) v
    = Ok (setChassisID c (LLDPChassisID.mk (byteval b) id), gotEnd) /\
    elems id = x :: bs.
Proof.
  unfold recordOf. intro H. injection H as Ht He.
  unfold extractStep. rewrite Ht. cbn [Z.eqb LLDPTLVChassisID LLDPTLVEnd].
  replace (len (Value v) <? 2) with false
    by (symmetry; apply Z.ltb_ge; unfold len; rewrite He; cbn [length]; lia).
  rewrite index_nth_error, He by lia. cbn [Z.to_nat nth_error orPanic bind].
  destruct (resliceFrom_in_range (Value v) 1) as (id & Hid & Hel).
  { unfold len. rewrite He. cbn [length]. lia. }
  rewrite Hid. cbn [orPanic bind]. exists id. split; [reflexivity|].
  rewrite Hel, He. reflexivity.
Qed.

Lemma extractStep_PortID (c : LinkLayerDiscovery) (gotEnd : bool)
    (v : LinkLayerDiscoveryValue) (b x : byte) (bs : list byte) :
  recordOf v = (LLDPTLVPortID, b :: x :: bs) ->
  exists id,
    extractStep (c, gotEnd) v
    = Ok (setPortID c (LLDPPortID.mk (byteval b) id), gotEnd) /\
    elems id = x :: bs.
Proof.
  unfold recordOf. intro H. injection H as Ht He.
  unfold extractStep. rewrite Ht.
  cbn [Z.eqb Pos.eqb LLDPTLVChassisID LLDPTLVEnd LLDPTLVPortID].
  replace (len (Value v) <? 2) with false
    by (symmetry; apply Z.ltb_ge; unfold len; rewrite He; cbn [length]; lia).
  rewrite index_nth_error, He by lia. cbn [Z.to_nat nth_error orPanic bind].
  destruct (resliceFrom_in_range (Value v) 1) as (id & Hid & Hel).
  { unfold len. rewrite He. cbn [length]. lia. }
  rewrite Hid. cbn [orPanic bind]. exists id. split; [reflexivity|].
  rewrite Hel, He. reflexivity.
Qed.

Lemma extractStep_TTL (c : LinkLayerDiscovery) (gotEnd : bool)
    (v : LinkLayerDiscoveryValue) (t0 t1 : byte) (bs : list byte) :
  recordOf v = (LLDPTLVTTL, t0 :: t1 :: bs) ->
  extractStep (c, gotEnd) v
  = Ok (setTTL c (byteval t0 * 256 + byteval t1), gotEnd).
Proof.
  unfold recordOf. intro H. injection H as Ht He.
  unfold extractStep. rewrite Ht.
  cbn [Z.eqb Pos.eqb LLDPTLVChassisID LLDPTLVEnd LLDPTLVPortID LLDPTLVTTL].
  assert (Hlen : 2 <= len (Value v))
    by (unfold len; rewrite He; cbn [length]; lia).
  replace (len (Value v) <? 2) with false by (symmetry; apply Z.ltb_ge; lia).
  destruct (BigEndian_Uint16_reslice (Value v) 0 t0 t1) as (r & Hr & Hv);
    try lia; try (rewrite index_nth_error, He by lia; reflexivity).
  change (0 + 2) with 2 in Hr. rewrite Hr. cbn [orPanic bind]. rewrite Hv.
  reflexivity.
Qed.

Lemma extractLoop_others (vs rest : list LinkLayerDiscoveryValue) :
  forall (c : LinkLayerDiscovery) (gotEnd : bool),
    Forall (fun v => 4 <= Typ v) vs ->
    extractLoop (vs ++ rest) (c, gotEnd)
    = extractLoop rest (setValues c (Values c ++ vs), gotEnd).
Proof.
  induction vs as [|v vs IH]; intros c gotEnd H.
  - cbn [app]. rewrite app_nil_r. destruct c; reflexivity.
  - inversion H as [|? ? Hv Hvs]; subst. cbn [app extractLoop].
    assert (E : extractStep (c, gotEnd) v = Ok (setValues c (Values c ++ [v]), gotEnd)).
    { unfold extractStep.
      replace (Typ v =? LLDPTLVEnd) with false
        by (symmetry; apply Z.eqb_neq; unfold LLDPTLVEnd; lia).
      replace (Typ v =? LLDPTLVChassisID) with false
        by (symmetry; apply Z.eqb_neq; unfold LLDPTLVChassisID; lia).
      replace (Typ v =? LLDPTLVPortID) with false
        by (symmetry; apply Z.eqb_neq; unfold LLDPTLVPortID; lia).
      replace (Typ v =? LLDPTLVTTL) with false
        by (symmetry; apply Z.eqb_neq; unfold LLDPTLVTTL; lia).
      reflexivity. }
    rewrite E. cbn [bind]. rewrite IH by assumption.
    cbn [setValues Values contents ChassisID PortID TTL].
    rewrite <- app_assoc. reflexivity.
Qed.

Lemma Forall_Typ_of_records (vs : list LinkLayerDiscoveryValue)
    (rs : list (Z * list byte)) :
  map recordOf vs = rs -> Forall (fun r => 4 <= fst r) rs ->
  Forall (fun v => 4 <= Typ v) vs.
Proof.
  intros <- H. rewrite Forall_map in H. exact H.
Qed.

(** A frame in the order of the standard is accepted and read back: the
    subtypes and ids of ChassisID and PortID, the TTL, and the further
    records as [Values], whatever follows the End record and whatever room
    lies behind the buffer. *)
Theorem decodeFrame_encoded (cs : byte) (cid : list byte) (ps : byte) (pid : list byte)
    (t0 t1 : byte) (others : list (Z * list byte)) (trailing spare : list byte) :
  byteval cs <> 0 -> byteval ps <> 0 ->
  (1 <= length cid < 255)%nat -> (1 <= length pid < 255)%nat ->
  Forall encodable others -> Forall (fun r => 4 <= fst r) others ->
  exists c,
    decodeFrame (mkSlice (encodeFrame cs cid ps pid t0 t1 others ++ trailing) spare)
    = Ok c /\
    contents c = mkSlice (encodeFrame cs cid ps pid t0 t1 others ++ trailing) spare /\
    LLDPChassisID.Subtype (ChassisID c) = byteval cs /\
    elems (LLDPChassisID.ID (ChassisID c)) = cid /\
    LLDPPortID.Subtype (PortID c) = byteval ps /\
    elems (LLDPPortID.ID (PortID c)) = pid /\
    TTL c = byteval t0 * 256 + byteval t1 /\
    map recordOf (Values c) = others.
Proof.
  intros Hcs Hps Hcid Hpid Henc Hkind.
  destruct cid as [|cx cid]; [cbn [length] in Hcid; lia|].
  destruct pid as [|px pid]; [cbn [length] in Hpid; lia|].
  cbn [length] in Hcid, Hpid.
  set (rs := (LLDPTLVChassisID, cs :: cx :: cid) :: (LLDPTLVPortID, ps :: px :: pid)
             :: (LLDPTLVTTL, [t0; t1]) :: others).
  assert (Hrs : Forall encodable rs).
  { unfold rs, encodable, LLDPTLVChassisID, LLDPTLVPortID, LLDPTLVTTL.
    repeat (apply Forall_cons; [cbn [fst snd length]; lia|]). exact Henc. }
  unfold encodeFrame. fold rs. rewrite <- app_assoc.
  set (data := mkSlice (encodeTLVs rs ++ tlvEnd ++ trailing) spare).
  destruct (scanLoop_encoded rs (S (length (encodeTLVs rs ++ tlvEnd ++ trailing)))
              trailing spare [] Hrs) as (vals & Hloop & Hmap & _); [lia|].
  assert (Hscan : scanTLVs data = Ok vals).
  { unfold scanTLVs, data. rewrite resliceFrom_0. cbn [orPanic bind].
    change (elems (mkSlice (encodeTLVs rs ++ tlvEnd ++ trailing) spare))
      with (encodeTLVs rs ++ tlvEnd ++ trailing).
    rewrite Hloop. reflexivity. }
  unfold rs in Hmap.
  cbn [app] in Hmap.
  apply map_eq_cons in Hmap as (v1 & vals1 & -> & H1 & Hmap).
  apply map_eq_cons in Hmap as (v2 & vals2 & -> & H2 & Hmap).
  apply map_eq_cons in Hmap as (v3 & vrest & -> & H3 & Hmap).
  apply map_eq_app in Hmap as (vo & ve & -> & Hvo & Hve).
  apply map_eq_cons in Hve as (vend & ve' & -> & Hend & Hve).
  apply map_eq_nil in Hve as ->.
  assert (Hend' : Typ vend = LLDPTLVEnd) by (unfold recordOf in Hend; congruence).
  destruct (extractStep_ChassisID zeroLinkLayerDiscovery false v1 cs cx cid H1)
    as (idc & Hs1 & Hidc).
  destruct (extractStep_PortID
              (setChassisID zeroLinkLayerDiscovery (LLDPChassisID.mk (byteval cs) idc))
              false v2 ps px pid H2) as (idp & Hs2 & Hidp).
  pose proof (extractStep_TTL
                (setPortID (setChassisID zeroLinkLayerDiscovery
                              (LLDPChassisID.mk (byteval cs) idc))
                           (LLDPPortID.mk (byteval ps) idp))
                false v3 t0 t1 [] H3) as Hs3.
  eexists. split.
  - unfold decodeFrame. rewrite Hscan. cbn [bind].
    replace (Z.of_nat (length (v1 :: v2 :: v3 :: vo ++ [vend])) <? 4) with false
      by (symmetry; apply Z.ltb_ge; cbn [length]; rewrite length_app; cbn [length]; lia).
    cbn [extractLoop]. rewrite Hs1. cbn [bind]. rewrite Hs2. cbn [bind].
    rewrite Hs3. cbn [bind].
    rewrite extractLoop_others by (eapply Forall_Typ_of_records; eassumption).
    cbn [extractLoop]. unfold extractStep at 1. rewrite Hend'.
    cbn [Z.eqb LLDPTLVEnd bind].
    cbn [setValues setTTL setPortID setChassisID ChassisID PortID
         LLDPChassisID.Subtype LLDPPortID.Subtype].
    replace (byteval cs =? 0) with false by (symmetry; apply Z.eqb_neq; exact Hcs).
    replace (byteval ps =? 0) with false by (symmetry; apply Z.eqb_neq; exact Hps).
    cbn [orb negb]. reflexivity.
  - cbn. repeat split; assumption.
Qed.

(** ** What the walker returns *)

Lemma scanStep_wellFormed (vData : slice) (vals : list LinkLayerDiscoveryValue)
    (r : list LinkLayerDiscoveryValue + list LinkLayerDiscoveryValue * slice) :
  scanStep vData vals = Ok r ->
  exists v, wellFormed v /\
    ((r = inl (vals ++ [v]) /\ Typ v = LLDPTLVEnd) \/
     (exists rest, r = inr (vals ++ [v], rest) /\ Typ v <> LLDPTLVEnd)).
Proof.
  unfold scanStep.
  destruct (index vData 0) as [b0|]; [|discriminate].
  destruct (index vData 1) as [b1|]; [|discriminate].
  cbn [orPanic bind]. rewrite headerLength_low_byte.
  pose proof (byteval_range b1) as Hb. pose proof (headerType_top7 b0) as [_ Ht].
  assert (Hv : forall value,
             (if 0 <? byteval b1
              then orPanic (reslice vData 2 (u16 (byteval b1 + 2)))
              else Ok nilSlice) = Ok value ->
             wellFormed (mkValue (headerType b0) (byteval b1) value)).
  { intros value H. unfold wellFormed. cbn [Typ Length Value].
    split; [exact Ht|]. split; [exact Hb|].
    destruct (Z.ltb_spec 0 (byteval b1)).
    - destruct (reslice vData 2 (u16 (byteval b1 + 2))) as [s|] eqn:E; [|discriminate].
      injection H as <-. apply reslice_Some in E as (_ & _ & _ & _ & E).
      rewrite E, u16_small by lia. lia.
    - injection H as <-. unfold len. cbn. lia. }
  destruct (if 0 <? byteval b1 then _ else _) as [value| |] eqn:E;
    cbn [bind]; try discriminate.
  specialize (Hv value eq_refl).
  destruct (Z.eqb_spec (headerType b0) LLDPTLVEnd) as [He|He].
  - intro H. injection H as <-. eexists. split; [exact Hv|]. left. auto.
  - destruct (len vData <? u16 (2 + byteval b1)); [discriminate|].
    destruct (resliceFrom vData (u16 (2 + byteval b1))) as [rest|]; [|discriminate].
    cbn [orPanic bind]. intro H. injection H as <-.
    eexists. split; [exact Hv|]. right. exists rest. auto.
Qed.

Lemma scanLoop_wellFormed (fuel : nat) :
  forall vData acc vals,
    scanLoop fuel vData acc = Some (Ok vals) ->
    Forall wellFormed acc ->
    Forall (fun v => Typ v <> LLDPTLVEnd) acc ->
    Forall wellFormed vals /\
    exists pre, Forall (fun v => Typ v <> LLDPTLVEnd) pre /\
                (vals = pre \/ exists e, vals = pre ++ [e]).
Proof.
  induction fuel as [|fuel IH]; intros vData acc vals H Hwf Hne; [discriminate|].
  cbn [scanLoop] in H.
  destruct (0 <? len vData).
  - destruct (scanStep vData acc) as [r|e|] eqn:E; try discriminate.
    apply scanStep_wellFormed in E as (v & Hv & [[-> Hend] | (rest & -> & Hn)]).
    + injection H as <-. split.
      * apply Forall_app. split; [exact Hwf|]. constructor; [exact Hv|constructor].
      * exists acc. split; [exact Hne|]. right. exists v. reflexivity.
    + apply IH in H; [exact H| |].
      * apply Forall_app. split; [exact Hwf|]. constructor; [exact Hv|constructor].
      * apply Forall_app. split; [exact Hne|]. constructor; [exact Hn|constructor].
  - injection H as <-. split; [exact Hwf|].
    exists acc. split; [exact Hne|]. left. reflexivity.
Qed.

(** Whatever the buffer, the records the walker returns are well formed,
    and an End record can only be the last of them. *)
Theorem scanTLVs_wellFormed (data : slice) (vals : list LinkLayerDiscoveryValue) :
  scanTLVs data = Ok vals ->
  Forall wellFormed vals /\
  forall i v, nth_error vals i = Some v -> Typ v = LLDPTLVEnd -> S i = length vals.
Proof.
  unfold scanTLVs. rewrite resliceFrom_0. cbn [orPanic bind].
  destruct (scanLoop _ data []) as [r|] eqn:E; [|discriminate].
  intros ->. apply scanLoop_wellFormed in E as (Hwf & pre & Hpre & Hv);
    [|constructor|constructor].
  split; [exact Hwf|]. intros i v Hi Hend.
  assert (Hp : forall j w, nth_error pre j = Some w -> Typ w <> LLDPTLVEnd).
  { intros j w Hj. apply nth_error_In in Hj.
    rewrite Forall_forall in Hpre. exact (Hpre w Hj). }
  destruct Hv as [-> | [e ->]].
  - exfalso. exact (Hp i v Hi Hend).
  - rewrite length_app. cbn [length].
    destruct (Nat.lt_ge_cases i (length pre)) as [Hlt|Hge].
    + rewrite nth_error_app1 in Hi by exact Hlt. exfalso. exact (Hp i v Hi Hend).
    + assert (i < length (pre ++ [e]))%nat
        by (apply nth_error_Some; rewrite Hi; discriminate).
      rewrite length_app in H. cbn [length] in H. lia.
Qed.

(** ** What an accepted frame holds *)

Lemma BigEndian_Uint16_range (b : slice) (z : Z) :
  BigEndian_Uint16 b = Some z -> 0 <= z < 65536.
Proof.
  unfold BigEndian_Uint16.
  destruct (index b 1) as [b1|]; [|discriminate].
  destruct (index b 0) as [b0|]; [|discriminate].
  intro H.
  assert (Hz : z = Z.lor (byteval b1) (Z.shiftl (byteval b0) 8)) by congruence.
  pose proof (byteval_range b0). pose proof (byteval_range b1).
  rewrite Hz, lor_shiftl_8 by lia. lia.
Qed.

Lemma extractStep_invariant (c c' : LinkLayerDiscovery) (gotEnd gotEnd' : bool)
    (v : LinkLayerDiscoveryValue) :
  wellFormed v -> frameInvariant c ->
  extractStep (c, gotEnd) v = Ok (c', gotEnd') ->
  frameInvariant c' /\ contents c' = contents c.
Proof.
  intros Hv (Hc1 & Hc2 & Hp1 & Hp2 & Ht & Hvals). unfold extractStep.
  destruct (Z.eqb_spec (Typ v) LLDPTLVEnd) as [E0|E0].
  { intro H. injection H as <- _. unfold frameInvariant. auto 10. }
  destruct (Z.eqb_spec (Typ v) LLDPTLVChassisID) as [E1|E1].
  { destruct (Z.ltb_spec (len (Value v)) 2) as [Hl|Hl]; [discriminate|].
    destruct (index (Value v) 0) as [b|]; [|discriminate].
    destruct (resliceFrom (Value v) 1) as [id|] eqn:Eid; [|discriminate].
    cbn [orPanic bind]. intro H. injection H as <- _.
    apply reslice_Some in Eid as (_ & _ & _ & _ & Eid).
    pose proof (byteval_range b).
    unfold frameInvariant. cbn. repeat split; try assumption; try lia; tauto. }
  destruct (Z.eqb_spec (Typ v) LLDPTLVPortID) as [E2|E2].
  { destruct (Z.ltb_spec (len (Value v)) 2) as [Hl|Hl]; [discriminate|].
    destruct (index (Value v) 0) as [b|]; [|discriminate].
    destruct (resliceFrom (Value v) 1) as [id|] eqn:Eid; [|discriminate].
    cbn [orPanic bind]. intro H. injection H as <- _.
    apply reslice_Some in Eid as (_ & _ & _ & _ & Eid).
    pose proof (byteval_range b).
    unfold frameInvariant. cbn. repeat split; try assumption; try lia; tauto. }
  destruct (Z.eqb_spec (Typ v) LLDPTLVTTL) as [E3|E3].
  { destruct (Z.ltb_spec (len (Value v)) 2) as [Hl|Hl]; [discriminate|].
    destruct (reslice (Value v) 0 2) as [b|]; [|discriminate].
    cbn [orPanic bind].
    destruct (BigEndian_Uint16 b) as [ttl|] eqn:Ettl; [|discriminate].
    cbn [orPanic bind]. intro H. injection H as <- _.
    apply BigEndian_Uint16_range in Ettl.
    unfold frameInvariant. cbn. repeat split; try assumption; try lia; tauto. }
  intro H. injection H as <- _.
  unfold frameInvariant. cbn. repeat split; try assumption; try lia; try tauto.
  apply Forall_app. split; [exact Hvals|]. constructor; [|constructor].
  split; [exact Hv|]. destruct Hv as [Hty _].
  unfold LLDPTLVEnd, LLDPTLVChassisID, LLDPTLVPortID, LLDPTLVTTL in *. lia.
Qed.

Lemma extractLoop_invariant (vals : list LinkLayerDiscoveryValue) :
  forall c c' gotEnd gotEnd',
    Forall wellFormed vals -> frameInvariant c ->
    extractLoop vals (c, gotEnd) = Ok (c', gotEnd') ->
    frameInvariant c' /\ contents c' = contents c.
Proof.
  induction vals as [|v vals IH]; intros c c' gotEnd gotEnd' Hwf Hinv; cbn [extractLoop].
  - intro H. injection H as <- _. auto.
  - inversion Hwf as [|? ? Hv Hvs]; subst.
    destruct (extractStep (c, gotEnd) v) as [[c1 g1]|e|] eqn:E; cbn [bind]; try discriminate.
    intro H. destruct (extractStep_invariant _ _ _ _ _ Hv Hinv E) as [Hinv1 Hc1].
    destruct (IH _ _ _ _ Hvs Hinv1 H) as [Hinv' Hc']. split; [exact Hinv'|congruence].
Qed.

(** What holds of every frame that [decodeLinkLayerDiscovery] accepts:
    the contents are the buffer, both identifiers have a subtype other than
    0 and an id of at least one byte, the TTL fits 16 bits, and the records
    left over are well formed and of none of the four mandatory kinds. *)
Theorem decodeFrame_accepted (data : slice) (c : LinkLayerDiscovery) :
  decodeFrame data = Ok c ->
  contents c = data /\
  1 <= LLDPChassisID.Subtype (ChassisID c) < 256 /\
  1 <= len (LLDPChassisID.ID (ChassisID c)) /\
  1 <= LLDPPortID.Subtype (PortID c) < 256 /\
  1 <= len (LLDPPortID.ID (PortID c)) /\
  0 <= TTL c < 65536 /\
  Forall (fun v => wellFormed v /\ 4 <= Typ v) (Values c).
Proof.
  unfold decodeFrame.
  destruct (scanTLVs data) as [vals|e|] eqn:Es; cbn [bind]; try discriminate.
  destruct (Z.of_nat (length vals) <? 4); [discriminate|].
  destruct (extractLoop vals (zeroLinkLayerDiscovery, false)) as [[c0 g]|e|] eqn:Ee;
    cbn [bind]; try discriminate.
  destruct (Z.eqb_spec (LLDPChassisID.Subtype (ChassisID c0)) 0) as [|Hc]; [discriminate|].
  destruct (Z.eqb_spec (LLDPPortID.Subtype (PortID c0)) 0) as [|Hp]; [discriminate|].
  destruct g; [|discriminate]. cbn [orb negb]. intro H. injection H as <-.
  assert (Hwf : Forall wellFormed vals).
  { unfold scanTLVs in Es. rewrite resliceFrom_0 in Es. cbn [orPanic bind] in Es.
    destruct (scanLoop _ data []) as [r|] eqn:E; [|discriminate]. subst r.
    apply scanLoop_wellFormed in E as [E _]; [exact E|constructor|constructor]. }
  assert (H0 : frameInvariant zeroLinkLayerDiscovery).
  { unfold frameInvariant. cbn. repeat split; try lia. constructor. }
  destruct (extractLoop_invariant vals _ _ _ _ Hwf H0 Ee)
    as [(Hc1 & Hc2 & Hp1 & Hp2 & Ht & Hv) _].
  cbn. repeat split; try assumption; try lia; auto.
Qed.

(** ** The optional records *)

(** Evaluates [Z.to_nat] on the literals of a goal. *)
Ltac to_nat_literals :=
  repeat match goal with
         | |- context [Z.to_nat ?n] =>
             let m := eval vm_compute in (Z.to_nat n) in
             change (Z.to_nat n) with m
         end.

Lemma lor_shiftl (lo hi k : Z) :
  0 <= k -> 0 <= lo < 2 ^ k -> 0 <= hi -> Z.lor lo (Z.shiftl hi k) = hi * 2 ^ k + lo.
Proof.
  intros Hk Hlo Hhi.
  rewrite Z.shiftl_mul_pow2 by lia.
  rewrite Z.add_comm.
  rewrite <- Z.lxor_lor, Z.add_nocarry_lxor; try reflexivity.
  all: apply Z.bits_inj'; intros n Hn; rewrite Z.land_spec, Z.bits_0;
    destruct (Z.ltb_spec n k).
  all: try (rewrite Z.mul_pow2_bits_low by lia; apply andb_false_r).
  all: replace (Z.testbit lo n) with false; [reflexivity|];
    symmetry; destruct (Z.eq_dec lo 0) as [->|]; [apply Z.bits_0|];
    apply Z.bits_above_log2; [lia|];
    apply Z.lt_le_trans with k; [apply Z.log2_lt_pow2; lia | lia].
Qed.

(** Inside [len], a re-slice succeeds and has the length asked for. *)
Lemma reslice_ok (s : slice) (lo hi : Z) :
  0 <= lo <= hi -> hi <= len s ->
  exists r, reslice s lo hi = Some r /\ len r = hi - lo /\
            elems r = firstn (Z.to_nat (hi - lo)) (skipn (Z.to_nat lo) (elems s)).
Proof.
  intros H Hhi.
  destruct (reslice_in_range s lo hi) as [r Hr]; [lia | pose proof (len_le_cap s); lia |].
  exists r. split; [exact Hr|]. split.
  - apply reslice_Some in Hr. tauto.
  - exact (reslice_within _ _ _ _ Hr Hhi).
Qed.

Lemma BigEndian_Uint16_elems (b : slice) (b0 b1 : byte) (bs : list byte) :
  elems b = b0 :: b1 :: bs ->
  BigEndian_Uint16 b = Some (byteval b0 * 256 + byteval b1).
Proof.
  intro H. unfold BigEndian_Uint16.
  rewrite !index_nth_error, H by lia. to_nat_literals. cbn [nth_error].
  rewrite lor_shiftl_8; [reflexivity | apply byteval_range | apply byteval_range].
Qed.

Lemma BigEndian_Uint32_elems (b : slice) (b0 b1 b2 b3 : byte) (bs : list byte) :
  elems b = b0 :: b1 :: b2 :: b3 :: bs ->
  BigEndian_Uint32 b
  = Some (byteval b0 * 16777216 + byteval b1 * 65536 + byteval b2 * 256 + byteval b3).
Proof.
  intro H. unfold BigEndian_Uint32.
  rewrite !index_nth_error, H by lia. to_nat_literals. cbn [nth_error].
  pose proof (byteval_range b0). pose proof (byteval_range b1).
  pose proof (byteval_range b2). pose proof (byteval_range b3).
  rewrite (lor_shiftl (byteval b3) _ 8) by lia.
  rewrite (lor_shiftl _ _ 16) by (change (2 ^ 16) with 65536; lia).
  rewrite (lor_shiftl _ _ 24) by (change (2 ^ 24) with 16777216; lia).
  f_equal. change (2 ^ 8) with 256. change (2 ^ 16) with 65536.
  change (2 ^ 24) with 16777216. lia.
Qed.

(** A slice of at least [n] bytes starts with [n] bytes. *)
Lemma elems_4 (s : slice) :
  4 <= len s -> exists b0 b1 b2 b3 bs, elems s = b0 :: b1 :: b2 :: b3 :: bs.
Proof.
  unfold len. destruct (elems s) as [|b0 [|b1 [|b2 [|b3 bs]]]]; cbn [length]; try lia.
  intros _. eauto 6.
Qed.

(** SysCapabilities with four bytes or more: the first two bytes are the
    system capabilities, the next two the enabled ones. *)
Lemma infoStep_SysCapabilities (info : LinkLayerDiscoveryInfo) (errors : list Error)
    (v : LinkLayerDiscoveryValue) (b0 b1 b2 b3 : byte) (bs : list byte) :
  Typ v = LLDPTLVSysCapabilities ->
  elems (Value v) = b0 :: b1 :: b2 :: b3 :: bs ->
  infoStep (info, errors) v
  = Ok (setSysCapabilities info
          (mkSysCaps (getCapabilities (byteval b0 * 256 + byteval b1))
                     (getCapabilities (byteval b2 * 256 + byteval b3))),
        errors).
Proof.
  intros Ht He. unfold infoStep, checkLLDPTLVLen. rewrite Ht.
  cbn [Z.eqb Pos.eqb LLDPTLVSysCapabilities LLDPTLVPortDescription LLDPTLVSysName
       LLDPTLVSysDescription].
  assert (Hlen : 4 <= len (Value v)) by (unfold len; rewrite He; cbn [length]; lia).
  replace (4 <=? len (Value v)) with true by (symmetry; apply Z.leb_le; exact Hlen).
  destruct (reslice_ok (Value v) 0 2) as (r01 & Hr01 & _ & He01'); [lia|lia|].
  destruct (reslice_ok (Value v) 2 4) as (r23 & Hr23 & _ & He23'); [lia|lia|].
  assert (He01 : elems r01 = [b0; b1]) by (rewrite He01', He; reflexivity).
  assert (He23 : elems r23 = [b2; b3]) by (rewrite He23', He; reflexivity).
  rewrite Hr01. cbn [orPanic bind].
  rewrite (BigEndian_Uint16_elems r01 b0 b1 [] He01). cbn [orPanic bind].
  rewrite Hr23. cbn [orPanic bind].
  rewrite (BigEndian_Uint16_elems r23 b2 b3 [] He23). cbn [orPanic bind].
  reflexivity.
Qed.

(** Organisation-specific with four bytes or more: three bytes of OUI, one
    of subtype, the rest is the payload. *)
Lemma infoStep_OrgSpecific (info : LinkLayerDiscoveryInfo) (errors : list Error)
    (v : LinkLayerDiscoveryValue) (b0 b1 b2 b3 : byte) (bs : list byte) :
  Typ v = LLDPTLVOrgSpecific ->
  elems (Value v) = b0 :: b1 :: b2 :: b3 :: bs ->
  exists payload,
    infoStep (info, errors) v
    = Ok (setOrgTLVs info
            (OrgTLVs info
             ++ [LLDPOrgSpecificTLV.mk
                   (byteval b0 * 65536 + byteval b1 * 256 + byteval b2)
                   (byteval b3) payload]),
          errors) /\
    elems payload = bs.
Proof.
  intros Ht He. unfold infoStep, checkLLDPTLVLen. rewrite Ht.
  cbn [Z.eqb Pos.eqb LLDPTLVSysCapabilities LLDPTLVPortDescription LLDPTLVSysName
       LLDPTLVSysDescription LLDPTLVMgmtAddress LLDPTLVOrgSpecific].
  assert (Hlen : 4 <= len (Value v)) by (unfold len; rewrite He; cbn [length]; lia).
  replace (4 <=? len (Value v)) with true by (symmetry; apply Z.leb_le; exact Hlen).
  cbn [negb].
  destruct (reslice_ok (Value v) 0 3) as (r & Hr & _ & Her'); [lia|lia|].
  assert (Her : elems r = [b0; b1; b2]) by (rewrite Her', He; reflexivity).
  rewrite Hr. cbn [orPanic bind]. rewrite Her.
  rewrite (BigEndian_Uint32_elems (sliceOf [x00; b0; b1; b2]) x00 b0 b1 b2 [] eq_refl).
  cbn [orPanic bind].
  rewrite index_nth_error, He by lia. to_nat_literals.
  cbn [nth_error orPanic bind].
  destruct (resliceFrom_in_range (Value v) 4) as (payload & Hp & Hep); [lia|].
  rewrite Hp. cbn [orPanic bind]. exists payload. split.
  - repeat f_equal.
  - rewrite Hep, He. reflexivity.
Qed.

(** Every record kind but ManagementAddress is decoded without a panic. *)
Lemma infoStep_no_panic (st : LinkLayerDiscoveryInfo * list Error)
    (v : LinkLayerDiscoveryValue) :
  Typ v <> LLDPTLVMgmtAddress -> exists st', infoStep st v = Ok st'.
Proof.
  intro Ht. destruct st as [info errors]. unfold infoStep.
  destruct (Typ v =? LLDPTLVPortDescription); [eexists; reflexivity|].
  destruct (Typ v =? LLDPTLVSysName); [eexists; reflexivity|].
  destruct (Typ v =? LLDPTLVSysDescription); [eexists; reflexivity|].
  destruct (Z.eqb_spec (Typ v) LLDPTLVSysCapabilities) as [E|_].
  { unfold checkLLDPTLVLen. destruct (Z.leb_spec 4 (len (Value v))) as [Hl|Hl];
      [|eexists; reflexivity].
    destruct (elems_4 _ Hl) as (b0 & b1 & b2 & b3 & bs & He).
    pose proof (infoStep_SysCapabilities info errors v b0 b1 b2 b3 bs E He) as H.
    unfold infoStep, checkLLDPTLVLen in H. rewrite E in H.
    cbn [Z.eqb Pos.eqb LLDPTLVSysCapabilities LLDPTLVPortDescription LLDPTLVSysName
         LLDPTLVSysDescription] in H.
    replace (4 <=? len (Value v)) with true in H by (symmetry; apply Z.leb_le; exact Hl).
    rewrite H. eexists. reflexivity. }
  destruct (Z.eqb_spec (Typ v) LLDPTLVMgmtAddress) as [E|_]; [contradiction|].
  destruct (Z.eqb_spec (Typ v) LLDPTLVOrgSpecific) as [E|_]; [|eexists; reflexivity].
  unfold checkLLDPTLVLen. destruct (Z.leb_spec 4 (len (Value v))) as [Hl|Hl];
    [|eexists; reflexivity].
  destruct (elems_4 _ Hl) as (b0 & b1 & b2 & b3 & bs & He).
  destruct (infoStep_OrgSpecific info errors v b0 b1 b2 b3 bs E He) as (payload & H & _).
  unfold infoStep, checkLLDPTLVLen in H. rewrite E in H.
  cbn [Z.eqb Pos.eqb LLDPTLVSysCapabilities LLDPTLVPortDescription LLDPTLVSysName
       LLDPTLVSysDescription LLDPTLVMgmtAddress LLDPTLVOrgSpecific] in H.
  replace (4 <=? len (Value v)) with true in H by (symmetry; apply Z.leb_le; exact Hl).
  rewrite H. eexists. reflexivity.
Qed.

Lemma infoLoop_no_panic (vals : list LinkLayerDiscoveryValue) :
  forall st, Forall (fun v => Typ v <> LLDPTLVMgmtAddress) vals ->
             exists st', infoLoop vals st = Ok st'.
Proof.
  induction vals as [|v vals IH]; intros st H; cbn [infoLoop].
  - eexists. reflexivity.
  - inversion H as [|? ? Hv Hvs]; subst.
    destruct (infoStep_no_panic st v Hv) as [st1 E]. rewrite E. cbn [bind].
    apply IH. exact Hvs.
Qed.

(** An accepted frame without a ManagementAddress record is decoded to the
    end: both layers are added and the call returns. *)
Theorem decodeLinkLayerDiscovery_returns (data : slice) (p : PacketBuilder)
    (c : LinkLayerDiscovery) :
  decodeFrame data = Ok c ->
  Forall (fun v => Typ v <> LLDPTLVMgmtAddress) (Values c) ->
  exists info err,
    decodeLinkLayerDiscovery data p
    = Returned (p ++ [LayerLinkLayerDiscovery c; LayerLinkLayerDiscoveryInfo info]) err.
Proof.
  intros Hc Hv.
  destruct (infoLoop_no_panic (Values c) (zeroLinkLayerDiscoveryInfo, []) Hv)
    as [[info errors] Hi].
  exists info, (firstError errors).
  apply decodeLinkLayerDiscovery_info; assumption.
Qed.

(** ** The layout of a management address *)

Lemma index_elems (s : slice) (pre : list byte) (b : byte) (post : list byte) (i : Z) :
  elems s = pre ++ b :: post -> i = Z.of_nat (length pre) -> index s i = Some b.
Proof.
  intros He ->. rewrite index_nth_error, He, Nat2Z.id by lia.
  rewrite nth_error_app2, Nat.sub_diag by lia. reflexivity.
Qed.

Lemma reslice_elems (s : slice) (pre mid post : list byte) (lo hi : Z) :
  elems s = pre ++ mid ++ post ->
  lo = Z.of_nat (length pre) -> hi = lo + Z.of_nat (length mid) ->
  exists r, reslice s lo hi = Some r /\ elems r = mid.
Proof.
  intros He -> ->.
  destruct (reslice_ok s (Z.of_nat (length pre))
              (Z.of_nat (length pre) + Z.of_nat (length mid)))
    as (r & Hr & _ & Her); [lia| |].
  { unfold len. rewrite He, !length_app. lia. }
  exists r. split; [exact Hr|]. rewrite Her, He.
  replace (Z.of_nat (length pre) + Z.of_nat (length mid) - Z.of_nat (length pre))
    with (Z.of_nat (length mid)) by lia.
  rewrite !Nat2Z.id, skipn_app, skipn_all, Nat.sub_diag. cbn [skipn app].
  rewrite firstn_app, firstn_all, Nat.sub_diag, firstn_O, app_nil_r. reflexivity.
Qed.

(** ManagementAddress as the code lays it out: the address length [n],
    the address subtype, [n-1] bytes of address, the interface subtype, four
    bytes of interface number, the OID length [m], two bytes that are
    skipped, and [m] bytes of OID. *)
Lemma decodeMgmtAddress_fields (info : LinkLayerDiscoveryInfo) (errors : list Error)
    (v : LinkLayerDiscoveryValue)
    (nb st ifs i0 i1 i2 i3 mb x y : byte) (addr oid rest : list byte) :
  elems (Value v)
  = nb :: st :: addr ++ ifs :: i0 :: i1 :: i2 :: i3 :: mb :: x :: y :: oid ++ rest ->
  byteval nb = Z.of_nat (length addr) + 1 ->
  byteval mb = Z.of_nat (length oid) ->
  len (Value v) < 256 ->
  exists address,
    decodeMgmtAddress info errors v
    = Ok (setMgmtAddress info
            (LLDPMgmtAddress.mk (byteval st) address (byteval ifs)
               (byteval i0 * 16777216 + byteval i1 * 65536 + byteval i2 * 256 + byteval i3)
               oid),
          errors) /\
    elems address = addr.
Proof.
  intros He Hn Hm Hlt.
  assert (Hlen : len (Value v)
                 = byteval nb + 9 + byteval mb + Z.of_nat (length rest)).
  { unfold len. rewrite He. cbn [length]. rewrite length_app. cbn [length].
    rewrite length_app. lia. }
  unfold decodeMgmtAddress, checkLLDPTLVLen.
  replace (9 <=? len (Value v)) with true by (symmetry; apply Z.leb_le; lia).
  rewrite (index_elems (Value v) [] nb _ 0 He eq_refl). cbn [orPanic bind].
  rewrite (u8_small (byteval nb + 7)) by lia.
  replace (byteval nb + 7 <=? len (Value v)) with true by (symmetry; apply Z.leb_le; lia).
  cbn [negb].
  rewrite (index_elems (Value v) [nb] st _ 1 He eq_refl). cbn [orPanic bind].
  rewrite !(u8_small (byteval nb + _)) by lia.
  destruct (reslice_elems (Value v) [nb; st] addr
              (ifs :: i0 :: i1 :: i2 :: i3 :: mb :: x :: y :: oid ++ rest)
              2 (byteval nb + 1) He eq_refl) as (address & Hra & Hea); [lia|].
  rewrite Hra. cbn [orPanic bind].
  assert (He1 : elems (Value v)
                = (nb :: st :: addr) ++ ifs
                  :: i0 :: i1 :: i2 :: i3 :: mb :: x :: y :: oid ++ rest)
    by (rewrite He; reflexivity).
  rewrite (index_elems (Value v) _ ifs _ (byteval nb + 1) He1)
    by (cbn [length]; lia).
  cbn [orPanic bind].
  assert (He2 : elems (Value v)
                = (nb :: st :: addr ++ [ifs]) ++ [i0; i1; i2; i3]
                  ++ mb :: x :: y :: oid ++ rest)
    by (rewrite He; cbn [app]; rewrite <- app_assoc; reflexivity).
  destruct (reslice_elems (Value v) _ _ _ (byteval nb + 2) (byteval nb + 6) He2)
    as (rn & Hrn & Hen);
    [cbn [length]; rewrite length_app; cbn [length]; lia | cbn [length]; lia |].
  rewrite Hrn. cbn [orPanic bind].
  rewrite (BigEndian_Uint32_elems rn i0 i1 i2 i3 [] Hen). cbn [orPanic bind].
  assert (He3 : elems (Value v)
                = (nb :: st :: addr ++ [ifs; i0; i1; i2; i3]) ++ mb
                  :: x :: y :: oid ++ rest)
    by (rewrite He; cbn [app]; rewrite <- app_assoc; reflexivity).
  rewrite (index_elems (Value v) _ mb _ (byteval nb + 6) He3)
    by (cbn [length]; rewrite length_app; cbn [length]; lia).
  cbn [orPanic bind].
  rewrite (u8_small (byteval nb + 6 + byteval mb)) by lia.
  replace (byteval nb + 6 + byteval mb <=? len (Value v)) with true
    by (symmetry; apply Z.leb_le; lia).
  rewrite (u8_small (byteval nb + 9 + byteval mb)) by lia.
  assert (He4 : elems (Value v)
                = (nb :: st :: addr ++ [ifs; i0; i1; i2; i3; mb; x; y]) ++ oid ++ rest)
    by (rewrite He; cbn [app]; rewrite <- app_assoc; reflexivity).
  destruct (reslice_elems (Value v) _ _ _ (byteval nb + 9)
              (byteval nb + 9 + byteval mb) He4) as (ro & Hro & Heo);
    [cbn [length]; rewrite length_app; cbn [length]; lia | lia |].
  rewrite Hro. cbn [orPanic bind]. unfold stringOf. rewrite Heo.
  exists address. split; [reflexivity | exact Hea].
Qed.

(** ** When the extension decoders panic *)

Lemma BigEndian_Uint16_ok (b : slice) :
  2 <= len b -> exists z, BigEndian_Uint16 b = Some z.
Proof.
  intro H. unfold BigEndian_Uint16.
  destruct (index_in_range b 1) as [b1 ->]; [lia|].
  destruct (index_in_range b 0) as [b0 ->]; [lia|].
  eexists. reflexivity.
Qed.

Lemma BigEndian_Uint32_ok (b : slice) :
  4 <= len b -> exists z, BigEndian_Uint32 b = Some z.
Proof.
  intro H. unfold BigEndian_Uint32.
  destruct (index_in_range b 3) as [b3 ->]; [lia|].
  destruct (index_in_range b 2) as [b2 ->]; [lia|].
  destruct (index_in_range b 1) as [b1 ->]; [lia|].
  destruct (index_in_range b 0) as [b0 ->]; [lia|].
  eexists. reflexivity.
Qed.

(** Discharges the reads of a branch whose length check covers them. *)
Ltac reads_ok :=
  repeat (cbn [orPanic bind];
          match goal with
          | |- context [orPanic (index ?s ?i)] =>
              let b := fresh "b" in
              destruct (index_in_range s i) as [b ->]; [lia|]
          | |- context [orPanic (reslice ?s ?lo ?hi)] =>
              let r := fresh "r" in let Hl := fresh "Hl" in
              destruct (reslice_ok s lo hi) as (r & -> & Hl & _); [lia|lia|]
          | |- context [orPanic (BigEndian_Uint16 ?b)] =>
              let z := fresh "z" in
              destruct (BigEndian_Uint16_ok b) as [z ->]; [lia|]
          | |- context [orPanic (BigEndian_Uint32 ?b)] =>
              let z := fresh "z" in
              destruct (BigEndian_Uint32_ok b) as [z ->]; [lia|]
          end);
  cbn [orPanic bind].

Lemma checkLLDPOrgSpecificLen_spec (o : LLDPOrgSpecificTLV.t) (l : Z) (e : list Error) :
  (l <= len (LLDPOrgSpecificTLV.Info o) /\ checkLLDPOrgSpecificLen o l e = (true, e)) \/
  (len (LLDPOrgSpecificTLV.Info o) < l /\
   checkLLDPOrgSpecificLen o l e
   = (false, e ++ [InvalidOrgSpecificLength (LLDPOrgSpecificTLV.SubType o)
                     (len (LLDPOrgSpecificTLV.Info o)) l])).
Proof.
  unfold checkLLDPOrgSpecificLen.
  destruct (Z.leb_spec l (len (LLDPOrgSpecificTLV.Info o))); [left|right]; auto.
Qed.

(** Splits on a length check of the goal. *)
Ltac check_len :=
  match goal with
  | |- context [checkLLDPOrgSpecificLen ?o ?l ?e] =>
      let Hl := fresh "Hl" in
      destruct (checkLLDPOrgSpecificLen_spec o l e) as [[Hl ->] | [Hl ->]]
  end.

Lemma step8023_panics (st : LLDPInfo8023.t * list Error) (o : LLDPOrgSpecificTLV.t) :
  (panics8023 o /\ step8023 st o = Panic) \/
  (~ panics8023 o /\ exists st', step8023 st o = Ok st').
Proof.
  destruct st as [info errors]. unfold step8023, panics8023.
  destruct (Z.eqb_spec (LLDPOrgSpecificTLV.OUI o) IEEEOUI8023) as [Eo|Eo]; cbn [negb];
    [|right; split; [tauto|eexists; reflexivity]].
  destruct (Z.eqb_spec (LLDPOrgSpecificTLV.SubType o) LLDP8023SubtypeMACPHY) as [E1|E1].
  { right. split; [unfold LLDP8023SubtypeMACPHY, LLDP8023SubtypeMDIPower in *; lia|].
    check_len; [reads_ok|]; eexists; reflexivity. }
  destruct (Z.eqb_spec (LLDPOrgSpecificTLV.SubType o) LLDP8023SubtypeMDIPower) as [E2|E2].
  { check_len.
    - destruct (Z.le_gt_cases 8 (len (LLDPOrgSpecificTLV.Info o))) as [H8|H8].
      + left. split; [auto|]. rewrite decodeMDIPower_long_panics by exact H8. reflexivity.
      + right. split; [lia|]. unfold decodeMDIPower.
        replace (8 <=? len (LLDPOrgSpecificTLV.Info o)) with false
          by (symmetry; apply Z.leb_gt; lia).
        reads_ok. eexists. reflexivity.
    - right. split; [lia|]. eexists. reflexivity. }
  right. split; [tauto|].
  destruct (LLDPOrgSpecificTLV.SubType o =? LLDP8023SubtypeLinkAggregation).
  { check_len; [reads_ok|]; eexists; reflexivity. }
  destruct (LLDPOrgSpecificTLV.SubType o =? LLDP8023SubtypeMTU).
  { check_len; [reads_ok|]; eexists; reflexivity. }
  eexists. reflexivity.
Qed.

Lemma loop8023_panics (os : list LLDPOrgSpecificTLV.t) :
  forall st,
    (Exists panics8023 os /\ loop8023 os st = Panic) \/
    (~ Exists panics8023 os /\ exists st', loop8023 os st = Ok st').
Proof.
  induction os as [|o os IH]; intro st; cbn [loop8023].
  - right. split; [intro H; inversion H|eexists; reflexivity].
  - destruct (step8023_panics st o) as [[Hp ->] | [Hn [st1 ->]]]; cbn [bind].
    + left. split; [left; exact Hp|reflexivity].
    + destruct (IH st1) as [[He ->] | [Hne [st' ->]]].
      * left. split; [right; exact He|reflexivity].
      * right. split; [|eexists; reflexivity].
        intro H. inversion H; subst; contradiction.
Qed.

(** [Decode8023] panics exactly when one of the TLVs is a Power-via-MDI TLV
    of the IEEE 802.3 OUI with eight bytes or more; otherwise it returns. *)
Theorem Decode8023_panics_iff (l : LinkLayerDiscoveryInfo) :
  (Decode8023 l = Panic <-> Exists panics8023 (OrgTLVs l)) /\
  (~ Exists panics8023 (OrgTLVs l) -> exists info err, Decode8023 l = Ok (info, err)).
Proof.
  unfold Decode8023, Decode8023Errors.
  destruct (loop8023_panics (OrgTLVs l) (LLDPInfo8023.zero, []))
    as [[He ->] | [Hne [[info errors] ->]]]; cbn [bind].
  - split; [tauto|]. intro H. contradiction.
  - split.
    + split; [discriminate|]. intro H. contradiction.
    + intros _. eexists. eexists. reflexivity.
Qed.

Lemma step8021_panics (st : LLDPInfo8021.t * list Error) (o : LLDPOrgSpecificTLV.t) :
  (panics8021 o /\ step8021 st o = Panic) \/
  (~ panics8021 o /\ exists st', step8021 st o = Ok st').
Proof.
  destruct st as [info errors]. unfold step8021, panics8021.
  destruct (Z.eqb_spec (LLDPOrgSpecificTLV.OUI o) IEEEOUI8021) as [Eo|Eo]; cbn [negb];
    [|right; split; [tauto|eexists; reflexivity]].
  destruct (Z.eqb_spec (LLDPOrgSpecificTLV.SubType o) LLDP8021SubtypePortVLANID) as [E1|E1].
  { right. split.
    - unfold LLDP8021SubtypePortVLANID, LLDP8021SubtypeVLANName,
        LLDP8021SubtypeProtocolIdentity in *. lia.
    - check_len; [reads_ok|]; eexists; reflexivity. }
  destruct (Z.eqb_spec (LLDPOrgSpecificTLV.SubType o) LLDP8021SubtypeProtocolVLANID) as [E2|E2].
  { right. split.
    - unfold LLDP8021SubtypeProtocolVLANID, LLDP8021SubtypeVLANName,
        LLDP8021SubtypeProtocolIdentity in *. lia.
    - check_len; [reads_ok|]; eexists; reflexivity. }
  destruct (Z.eqb_spec (LLDPOrgSpecificTLV.SubType o) LLDP8021SubtypeVLANName) as [E3|E3].
  { check_len.
    - reads_ok.
      destruct (Z.eq_dec (len (LLDPOrgSpecificTLV.Info o)) 2) as [H2|H2].
      + left. split; [auto|].
        unfold resliceFrom. rewrite reslice_out_of_range by lia. reflexivity.
      + right. split.
        * unfold LLDP8021SubtypeVLANName, LLDP8021SubtypeProtocolIdentity in *. lia.
        * destruct (resliceFrom_in_range (LLDPOrgSpecificTLV.Info o) 3) as (r' & -> & _);
            [lia|]. eexists. reflexivity.
    - right. split.
      + unfold LLDP8021SubtypeVLANName, LLDP8021SubtypeProtocolIdentity in *. lia.
      + eexists. reflexivity. }
  destruct (Z.eqb_spec (LLDPOrgSpecificTLV.SubType o) LLDP8021SubtypeProtocolIdentity)
    as [E4|E4].
  { check_len.
    - destruct (index_in_range (LLDPOrgSpecificTLV.Info o) 0) as [b Hb]; [lia|].
      rewrite Hb. cbn [orPanic bind].
      pose proof (byteval_range b) as Hr.
      pose proof (len_le_cap (LLDPOrgSpecificTLV.Info o)) as Hcap.
      destruct (Z.ltb_spec 0 (byteval b)) as [Hpos|Hzero].
      + destruct (Z.lt_ge_cases (cap (LLDPOrgSpecificTLV.Info o)) (1 + byteval b))
          as [Hout|Hin].
        * left. split; [split; [exact Eo | right; split; [exact E4 | exists b; auto]]|].
          rewrite reslice_out_of_range by lia. reflexivity.
        * right. split.
          -- intros [_ [[H _] | [_ (b' & Hb' & Hlt)]]].
             ++ unfold LLDP8021SubtypeVLANName, LLDP8021SubtypeProtocolIdentity in *. lia.
             ++ assert (b' = b) by congruence. subst b'. lia.
          -- destruct (reslice_in_range (LLDPOrgSpecificTLV.Info o) 1 (1 + byteval b))
               as [r ->]; [lia|lia|]. eexists. reflexivity.
      + right. split; [|eexists; reflexivity].
        intros [_ [[H _] | [_ (b' & Hb' & Hlt)]]].
        * unfold LLDP8021SubtypeVLANName, LLDP8021SubtypeProtocolIdentity in *. lia.
        * assert (b' = b) by congruence. subst b'. lia.
    - right. split; [|eexists; reflexivity].
      intros [_ [[H _] | [_ (b' & Hb' & Hlt)]]].
      + unfold LLDP8021SubtypeVLANName, LLDP8021SubtypeProtocolIdentity in *. lia.
      + rewrite index_out_of_range in Hb' by lia. discriminate. }
  right. split; [tauto|].
  destruct (LLDPOrgSpecificTLV.SubType o =? LLDP8021SubtypeVDIUsageDigest).
  { check_len; [reads_ok|]; eexists; reflexivity. }
  destruct (LLDPOrgSpecificTLV.SubType o =? LLDP8021SubtypeManagementVID).
  { check_len; [reads_ok|]; eexists; reflexivity. }
  destruct (LLDPOrgSpecificTLV.SubType o =? LLDP8021SubtypeLinkAggregation).
  { check_len; [reads_ok|]; eexists; reflexivity. }
  eexists. reflexivity.
Qed.

Lemma loop8021_panics (os : list LLDPOrgSpecificTLV.t) :
  forall st,
    (Exists panics8021 os /\ loop8021 os st = Panic) \/
    (~ Exists panics8021 os /\ exists st', loop8021 os st = Ok st').
Proof.
  induction os as [|o os IH]; intro st; cbn [loop8021].
  - right. split; [intro H; inversion H|eexists; reflexivity].
  - destruct (step8021_panics st o) as [[Hp ->] | [Hn [st1 ->]]]; cbn [bind].
    + left. split; [left; exact Hp|reflexivity].
    + destruct (IH st1) as [[He ->] | [Hne [st' ->]]].
      * left. split; [right; exact He|reflexivity].
      * right. split; [|eexists; reflexivity].
        intro H. inversion H; subst; contradiction.
Qed.

(** [Decode8021] panics exactly when one of the IEEE 802.1 TLVs is a VLAN
    name of two bytes or a Protocol Identity whose length prefix reaches
    past the capacity of its payload; otherwise it returns. *)
Theorem Decode8021_panics_iff (l : LinkLayerDiscoveryInfo) :
  (Decode8021 l = Panic <-> Exists panics8021 (OrgTLVs l)) /\
  (~ Exists panics8021 (OrgTLVs l) -> exists info err, Decode8021 l = Ok (info, err)).
Proof.
  unfold Decode8021, Decode8021Errors.
  destruct (loop8021_panics (OrgTLVs l) (LLDPInfo8021.zero, []))
    as [[He ->] | [Hne [[info errors] ->]]]; cbn [bind].
  - split; [tauto|]. intro H. contradiction.
  - split.
    + split; [discriminate|]. intro H. contradiction.
    + intros _. eexists. eexists. reflexivity.
Qed.

Lemma step8021Qbg_returns (st : LLDPInfo8021Qbg * list Error) (o : LLDPOrgSpecificTLV.t) :
  exists st', step8021Qbg st o = Ok st'.
Proof.
  destruct st as [info errors]. unfold step8021Qbg.
  destruct (negb _); [eexists; reflexivity|].
  destruct (LLDPOrgSpecificTLV.SubType o =? LLDP8021QbgEVB); [|eexists; reflexivity].
  check_len; [reads_ok|]; eexists; reflexivity.
Qed.

(** [Decode8021Qbg] never panics. *)
Theorem Decode8021Qbg_returns (l : LinkLayerDiscoveryInfo) :
  exists info err, Decode8021Qbg l = Ok (info, err).
Proof.
  unfold Decode8021Qbg, Decode8021QbgErrors.
  generalize (mkInfo8021Qbg LLDPEVBSettings.zero, @nil Error).
  induction (OrgTLVs l) as [|o os IH]; intros [info errors]; cbn [loop8021Qbg bind].
  - eexists. eexists. reflexivity.
  - destruct (step8021Qbg_returns (info, errors) o) as [st' ->]. cbn [bind]. apply IH.
Qed.

(** ** The fields of the extension TLVs *)

(** Reads at literal offsets of a slice whose first bytes [He] names. *)
Ltac fields He :=
  repeat (cbn [orPanic bind];
    match goal with
    | |- context [orPanic (index ?s ?i)] =>
        rewrite (index_nth_error s i) by lia; rewrite He;
        to_nat_literals; cbn [nth_error]
    | |- context [orPanic (reslice ?s ?lo ?hi)] =>
        let r := fresh "r" in let Her := fresh "Her" in
        destruct (reslice_ok s lo hi) as (r & -> & _ & Her);
        [lia | unfold len; rewrite He; cbn [length]; lia |];
        rewrite He in Her;
        match type of Her with
        | _ = ?rhs => let t := eval vm_compute in rhs in change (elems r = t) in Her
        end
    | Her : elems ?r = _ |- context [orPanic (BigEndian_Uint16 ?r)] =>
        rewrite (BigEndian_Uint16_elems r _ _ _ Her)
    | Her : elems ?r = _ |- context [orPanic (BigEndian_Uint32 ?r)] =>
        rewrite (BigEndian_Uint32_elems r _ _ _ _ _ Her)
    end);
  cbn [orPanic bind].

(** A length check that the bytes named by [He] pass. *)
Ltac check_passes He :=
  unfold checkLLDPOrgSpecificLen;
  match goal with
  | |- context [?l <=? len ?s] =>
      replace (l <=? len s) with true
        by (symmetry; apply Z.leb_le; unfold len; rewrite He; cbn [length]; lia)
  end.

Section Fields8023.
Import LLDPOrgSpecificTLV.
Variables (info : LLDPInfo8023.t) (errors : list Error) (o : LLDPOrgSpecificTLV.t).
Hypothesis Ho : OUI o = IEEEOUI8023.

Lemma step8023_MACPHY (b0 b1 b2 b3 b4 : byte) (bs : list byte) :
  SubType o = LLDP8023SubtypeMACPHY ->
  elems (Info o) = b0 :: b1 :: b2 :: b3 :: b4 :: bs ->
  step8023 (info, errors) o
  = Ok (LLDPInfo8023.setMACPHYConfigStatus info
          (MACPHYConfigStatus.mk (Z.testbit (byteval b0) 0) (Z.testbit (byteval b0) 1)
             (byteval b1 * 256 + byteval b2) (byteval b3 * 256 + byteval b4)),
        errors).
Proof.
  intros Hs He. unfold step8023. rewrite Ho, Hs. cbn [Z.eqb Pos.eqb negb IEEEOUI8023
    LLDP8023SubtypeMACPHY].
  check_passes He. fields He.
  unfold LLDPMACPHYCapability, LLDPMACPHYStatus. rewrite !hasBits_testbit by lia.
  reflexivity.
Qed.

Lemma step8023_MDIPower_short (b0 b1 b2 : byte) (bs : list byte) :
  SubType o = LLDP8023SubtypeMDIPower ->
  elems (Info o) = b0 :: b1 :: b2 :: bs -> (length bs < 5)%nat ->
  step8023 (info, errors) o
  = Ok (LLDPInfo8023.setPowerViaMDI info
          (PowerViaMDI.mk (Z.testbit (byteval b0) 0) (Z.testbit (byteval b0) 1)
             (Z.testbit (byteval b0) 2) (Z.testbit (byteval b0) 3)
             (byteval b1) (byteval b2)
             (PowerViaMDI.PowerType (LLDPInfo8023.PowerViaMDI info))
             (PowerViaMDI.PowerSource (LLDPInfo8023.PowerViaMDI info))
             (PowerViaMDI.PowerPriority (LLDPInfo8023.PowerViaMDI info))
             (PowerViaMDI.RequestedPower (LLDPInfo8023.PowerViaMDI info))
             (PowerViaMDI.AllocatedPower (LLDPInfo8023.PowerViaMDI info))),
        errors).
Proof.
  intros Hs He Hl. unfold step8023. rewrite Ho, Hs. cbn [Z.eqb Pos.eqb negb IEEEOUI8023
    LLDP8023SubtypeMACPHY LLDP8023SubtypeMDIPower].
  check_passes He. unfold decodeMDIPower. fields He.
  replace (8 <=? len (Info o)) with false
    by (symmetry; apply Z.leb_gt; unfold len; rewrite He; cbn [length]; lia).
  unfold LLDPMDIPowerPortClass, LLDPMDIPowerCapability, LLDPMDIPowerStatus,
    LLDPMDIPowerPairsAbility. rewrite !hasBits_testbit by lia.
  reflexivity.
Qed.

Lemma step8023_LinkAggregation (b0 b1 b2 b3 b4 : byte) (bs : list byte) :
  SubType o = LLDP8023SubtypeLinkAggregation ->
  elems (Info o) = b0 :: b1 :: b2 :: b3 :: b4 :: bs ->
  step8023 (info, errors) o
  = Ok (LLDPInfo8023.setLinkAggregation info
          (LinkAggregation8023.mk (byteval b0)
             (byteval b1 * 16777216 + byteval b2 * 65536 + byteval b3 * 256 + byteval b4)),
        errors).
Proof.
  intros Hs He. unfold step8023. rewrite Ho, Hs. cbn [Z.eqb Pos.eqb negb IEEEOUI8023
    LLDP8023SubtypeMACPHY LLDP8023SubtypeMDIPower LLDP8023SubtypeLinkAggregation].
  check_passes He. fields He. reflexivity.
Qed.

Lemma step8023_MTU (b0 b1 : byte) (bs : list byte) :
  SubType o = LLDP8023SubtypeMTU ->
  elems (Info o) = b0 :: b1 :: bs ->
  step8023 (info, errors) o
  = Ok (LLDPInfo8023.setMTU info (byteval b0 * 256 + byteval b1), errors).
Proof.
  intros Hs He. unfold step8023. rewrite Ho, Hs. cbn [Z.eqb Pos.eqb negb IEEEOUI8023
    LLDP8023SubtypeMACPHY LLDP8023SubtypeMDIPower LLDP8023SubtypeLinkAggregation
    LLDP8023SubtypeMTU].
  check_passes He. fields He. reflexivity.
Qed.

End Fields8023.

Ltac subtype8021 Ho Hs :=
  unfold step8021; rewrite Ho, Hs;
  cbn [Z.eqb Pos.eqb negb IEEEOUI8021 LLDP8021SubtypePortVLANID
       LLDP8021SubtypeProtocolVLANID LLDP8021SubtypeVLANName
       LLDP8021SubtypeProtocolIdentity LLDP8021SubtypeVDIUsageDigest
       LLDP8021SubtypeManagementVID LLDP8021SubtypeLinkAggregation].

Section Fields8021.
Import LLDPOrgSpecificTLV.
Variables (info : LLDPInfo8021.t) (errors : list Error) (o : LLDPOrgSpecificTLV.t).
Hypothesis Ho : OUI o = IEEEOUI8021.

Lemma step8021_PortVLANID (b0 b1 : byte) (bs : list byte) :
  SubType o = LLDP8021SubtypePortVLANID ->
  elems (Info o) = b0 :: b1 :: bs ->
  step8021 (info, errors) o
  = Ok (LLDPInfo8021.setPVID info (byteval b0 * 256 + byteval b1), errors).
Proof.
  intros Hs He. subtype8021 Ho Hs. check_passes He. fields He. reflexivity.
Qed.

Lemma step8021_ProtocolVLANID (b0 b1 b2 : byte) (bs : list byte) :
  SubType o = LLDP8021SubtypeProtocolVLANID ->
  elems (Info o) = b0 :: b1 :: b2 :: bs ->
  step8021 (info, errors) o
  = Ok (LLDPInfo8021.setPPVIDs info
          (LLDPInfo8021.PPVIDs info
           ++ [PortProtocolVLANID.mk (Z.testbit (byteval b0) 0) (Z.testbit (byteval b0) 1)
                 (byteval b1 * 256 + byteval b2)]),
        errors).
Proof.
  intros Hs He. subtype8021 Ho Hs. check_passes He. fields He.
  unfold LLDPProtocolVLANIDCapability, LLDPAggregationStatus.
  rewrite !hasBits_testbit by lia. reflexivity.
Qed.

Lemma step8021_ProtocolIdentity (lb : byte) (blob rest : list byte) :
  SubType o = LLDP8021SubtypeProtocolIdentity ->
  elems (Info o) = lb :: blob ++ rest ->
  byteval lb = Z.of_nat (length blob) ->
  (blob = [] /\ step8021 (info, errors) o = Ok (info, errors)) \/
  (blob <> [] /\
   exists identity,
     step8021 (info, errors) o
     = Ok (LLDPInfo8021.setProtocolIdentities info
             (LLDPInfo8021.ProtocolIdentities info ++ [identity]),
           errors) /\
     elems identity = blob).
Proof.
  intros Hs He Hl. subtype8021 Ho Hs.
  unfold checkLLDPOrgSpecificLen.
  replace (1 <=? len (Info o)) with true
    by (symmetry; apply Z.leb_le; unfold len; rewrite He; cbn [length]; lia).
  rewrite (index_elems (Info o) [] lb _ 0 He eq_refl). cbn [orPanic bind].
  rewrite Hl. destruct blob as [|b blob].
  - left. split; reflexivity.
  - right. split; [discriminate|].
    replace (0 <? Z.of_nat (length (b :: blob))) with true
      by (symmetry; apply Z.ltb_lt; cbn [length]; lia).
    destruct (reslice_elems (Info o) [lb] (b :: blob) rest 1
                (1 + Z.of_nat (length (b :: blob))) He eq_refl eq_refl)
      as (r & -> & Her).
    cbn [orPanic bind]. exists r. split; [reflexivity|exact Her].
Qed.

Lemma step8021_VDIUsageDigest (b0 b1 b2 b3 : byte) (bs : list byte) :
  SubType o = LLDP8021SubtypeVDIUsageDigest ->
  elems (Info o) = b0 :: b1 :: b2 :: b3 :: bs ->
  step8021 (info, errors) o
  = Ok (LLDPInfo8021.setVIDUsageDigest info
          (byteval b0 * 16777216 + byteval b1 * 65536 + byteval b2 * 256 + byteval b3),
        errors).
Proof.
  intros Hs He. subtype8021 Ho Hs. check_passes He. fields He. reflexivity.
Qed.

Lemma step8021_ManagementVID (b0 b1 : byte) (bs : list byte) :
  SubType o = LLDP8021SubtypeManagementVID ->
  elems (Info o) = b0 :: b1 :: bs ->
  step8021 (info, errors) o
  = Ok (LLDPInfo8021.setManagementVID info (byteval b0 * 256 + byteval b1), errors).
Proof.
  intros Hs He. subtype8021 Ho Hs. check_passes He. fields He. reflexivity.
Qed.

Lemma step8021_LinkAggregation (b0 b1 b2 b3 b4 : byte) (bs : list byte) :
  SubType o = LLDP8021SubtypeLinkAggregation ->
  elems (Info o) = b0 :: b1 :: b2 :: b3 :: b4 :: bs ->
  step8021 (info, errors) o
  = Ok (LLDPInfo8021.setLinkAggregation info
          (LinkAggregation8021.mk (Z.testbit (byteval b0) 0) (Z.testbit (byteval b0) 1)
             (byteval b1 * 16777216 + byteval b2 * 65536 + byteval b3 * 256 + byteval b4)),
        errors).
Proof.
  intros Hs He. subtype8021 Ho Hs. check_passes He. fields He.
  unfold LLDPAggregationCapability, LLDPAggregationStatus.
  rewrite !hasBits_testbit by lia. reflexivity.
Qed.

End Fields8021.

(** EVB settings of nine bytes or more: two capability masks, two VSI
    counts and the exponent byte. *)
Lemma step8021Qbg_EVB (info : LLDPInfo8021Qbg) (errors : list Error)
    (o : LLDPOrgSpecificTLV.t) (b0 b1 b2 b3 b4 b5 b6 b7 b8 : byte) (bs : list byte) :
  LLDPOrgSpecificTLV.OUI o = IEEEOUI8021Qbg ->
  LLDPOrgSpecificTLV.SubType o = LLDP8021QbgEVB ->
  elems (LLDPOrgSpecificTLV.Info o) = b0 :: b1 :: b2 :: b3 :: b4 :: b5 :: b6 :: b7 :: b8 :: bs ->
  step8021Qbg (info, errors) o
  = Ok (mkInfo8021Qbg
          (LLDPEVBSettings.mk (getEVBCapabilities (byteval b0 * 256 + byteval b1))
             (getEVBCapabilities (byteval b2 * 256 + byteval b3))
             (byteval b4 * 256 + byteval b5) (byteval b6 * 256 + byteval b7)
             (byteval b8)),
        errors).
Proof.
  intros Ho Hs He. unfold step8021Qbg. rewrite Ho, Hs.
  cbn [Z.eqb Pos.eqb negb IEEEOUI8021Qbg LLDP8021QbgEVB].
  check_passes He. fields He. reflexivity.
Qed.

(** TLVs of another organisation leave the state of a decoder as it is. *)
Lemma loop8021_filter (os : list LLDPOrgSpecificTLV.t) :
  forall st, loop8021 os st
             = loop8021 (filter (fun o => LLDPOrgSpecificTLV.OUI o =? IEEEOUI8021) os) st.
Proof.
  induction os as [|o os IH]; intro st; [reflexivity|].
  cbn [filter]. destruct (LLDPOrgSpecificTLV.OUI o =? IEEEOUI8021) eqn:E.
  - cbn [loop8021]. destruct (step8021 st o); cbn [bind]; auto.
  - cbn [loop8021]. destruct st as [info errors]. unfold step8021 at 1. rewrite E.
    cbn [negb bind]. apply IH.
Qed.

Lemma loop8023_filter (os : list LLDPOrgSpecificTLV.t) :
  forall st, loop8023 os st
             = loop8023 (filter (fun o => LLDPOrgSpecificTLV.OUI o =? IEEEOUI8023) os) st.
Proof.
  induction os as [|o os IH]; intro st; [reflexivity|].
  cbn [filter]. destruct (LLDPOrgSpecificTLV.OUI o =? IEEEOUI8023) eqn:E.
  - cbn [loop8023]. destruct (step8023 st o); cbn [bind]; auto.
  - cbn [loop8023]. destruct st as [info errors]. unfold step8023 at 1. rewrite E.
    cbn [negb bind]. apply IH.
Qed.

Lemma loop8021Qbg_filter (os : list LLDPOrgSpecificTLV.t) :
  forall st, loop8021Qbg os st
             = loop8021Qbg
                 (filter (fun o => LLDPOrgSpecificTLV.OUI o =? IEEEOUI8021Qbg) os) st.
Proof.
  induction os as [|o os IH]; intro st; [reflexivity|].
  cbn [filter]. destruct (LLDPOrgSpecificTLV.OUI o =? IEEEOUI8021Qbg) eqn:E.
  - cbn [loop8021Qbg]. destruct (step8021Qbg st o); cbn [bind]; auto.
  - cbn [loop8021Qbg]. destruct st as [info errors]. unfold step8021Qbg at 1. rewrite E.
    cbn [negb bind]. apply IH.
Qed.

(** Each extension decoder sees the TLVs of its own OUI only: dropping all
    other TLVs from the info layer changes neither result nor error nor
    panic. *)
Theorem extension_decoders_filter_by_OUI (l : LinkLayerDiscoveryInfo) :
  Decode8021 l
  = Decode8021 (setOrgTLVs l
      (filter (fun o => LLDPOrgSpecificTLV.OUI o =? IEEEOUI8021) (OrgTLVs l))) /\
  Decode8023 l
  = Decode8023 (setOrgTLVs l
      (filter (fun o => LLDPOrgSpecificTLV.OUI o =? IEEEOUI8023) (OrgTLVs l))) /\
  Decode8021Qbg l
  = Decode8021Qbg (setOrgTLVs l
      (filter (fun o => LLDPOrgSpecificTLV.OUI o =? IEEEOUI8021Qbg) (OrgTLVs l))).
Proof.
  unfold Decode8021, Decode8021Errors, Decode8023, Decode8023Errors,
    Decode8021Qbg, Decode8021QbgErrors.
  cbn [setOrgTLVs OrgTLVs].
  rewrite <- loop8021_filter, <- loop8023_filter, <- loop8021Qbg_filter. auto.
Qed.

(** ** The two tiers of errors *)

Lemma scanLoop_Fail (fuel : nat) :
  forall vData acc e, scanLoop fuel vData acc = Some (Fail e) -> e = MalformedHeader.
Proof.
  induction fuel as [|fuel IH]; intros vData acc e; cbn [scanLoop]; [discriminate|].
  destruct (0 <? len vData); [|discriminate].
  destruct (scanStep vData acc) as [[vs|[vs rest]]|e'|] eqn:E; try discriminate.
  - apply IH.
  - intro H. injection H as <-. revert E. unfold scanStep.
    destruct (index vData 0); [|discriminate].
    destruct (index vData 1); [|discriminate]. cbn [orPanic bind].
    destruct (0 <? _); [destruct (reslice _ _ _)|]; cbn [orPanic bind];
      try discriminate;
      (destruct (_ =? LLDPTLVEnd); [discriminate|];
       destruct (len vData <? _); [congruence|];
       destruct (resliceFrom _ _); discriminate).
Qed.

Lemma extractLoop_Fail (vals : list LinkLayerDiscoveryValue) :
  forall st e, extractLoop vals st = Fail e ->
               e = MalformedChassisID \/ e = MalformedPortID \/ e = MalformedTTL.
Proof.
  induction vals as [|v vals IH]; intros [c g] e; cbn [extractLoop]; [discriminate|].
  destruct (extractStep (c, g) v) as [st1|e'|] eqn:E; cbn [bind]; try discriminate.
  - apply IH.
  - intro H. injection H as <-. revert E. unfold extractStep.
    destruct (Typ v =? LLDPTLVEnd); [discriminate|].
    destruct (Typ v =? LLDPTLVChassisID).
    { destruct (len (Value v) <? 2); [intro H; injection H as <-; auto|].
      destruct (index _ 0); [|discriminate].
      destruct (resliceFrom _ 1); discriminate. }
    destruct (Typ v =? LLDPTLVPortID).
    { destruct (len (Value v) <? 2); [intro H; injection H as <-; auto|].
      destruct (index _ 0); [|discriminate].
      destruct (resliceFrom _ 1); discriminate. }
    destruct (Typ v =? LLDPTLVTTL); [|discriminate].
    destruct (len (Value v) <? 2); [intro H; injection H as <-; auto|].
    destruct (reslice _ 0 2); [|discriminate]. cbn [orPanic bind].
    destruct (BigEndian_Uint16 _); discriminate.
Qed.

Lemma decodeFrame_Fail (data : slice) (e : Error) :
  decodeFrame data = Fail e -> frameError e.
Proof.
  unfold decodeFrame, frameError.
  destruct (scanTLVs data) as [vals|e'|] eqn:Es; cbn [bind]; try discriminate.
  - destruct (_ <? 4); [intro H; injection H as <-; auto|].
    destruct (extractLoop vals _) as [[c g]|e'|] eqn:Ee; cbn [bind]; try discriminate.
    + destruct (_ || _ || _); [intro H; injection H as <-; auto|discriminate].
    + intro H. injection H as <-. apply extractLoop_Fail in Ee. tauto.
  - intro H. injection H as <-. left.
    unfold scanTLVs in Es. rewrite resliceFrom_0 in Es. cbn [orPanic bind] in Es.
    destruct (scanLoop _ data []) as [r|] eqn:E; [|discriminate]. subst r.
    exact (scanLoop_Fail _ _ _ _ E).
Qed.

Lemma checkLLDPTLVLen_spec (v : LinkLayerDiscoveryValue) (l : Z) (e : list Error) :
  (l <= len (Value v) /\ checkLLDPTLVLen v l e = (true, e)) \/
  (len (Value v) < l /\
   checkLLDPTLVLen v l e = (false, e ++ [InvalidTLVLength (Typ v) (len (Value v)) l])).
Proof.
  unfold checkLLDPTLVLen.
  destruct (Z.leb_spec l (len (Value v))); [left|right]; auto.
Qed.

Ltac check_tlv_len :=
  match goal with
  | |- context [checkLLDPTLVLen ?v ?l ?e] =>
      let Hl := fresh "Hl" in
      destruct (checkLLDPTLVLen_spec v l e) as [[Hl ->] | [Hl ->]]
  end.

(** Follows a chain of reads to its end, whatever each read gives. *)
Ltac any_reads :=
  repeat (cbn [orPanic bind];
          match goal with
          | |- context [orPanic ?x] => destruct x
          end);
  cbn [orPanic bind]; try discriminate.

Lemma infoStep_errors (info info' : LinkLayerDiscoveryInfo) (errors errors' : list Error)
    (v : LinkLayerDiscoveryValue) :
  Forall recordError errors ->
  infoStep (info, errors) v = Ok (info', errors') ->
  Forall recordError errors'.
Proof.
  intro Hall.
  assert (Hadd : forall l, len (Value v) < l ->
            Forall recordError (errors ++ [InvalidTLVLength (Typ v) (len (Value v)) l])).
  { intros l Hl. apply Forall_app. split; [exact Hall|].
    constructor; [|constructor]. unfold recordError. eauto. }
  unfold infoStep, decodeMgmtAddress.
  destruct (Typ v =? LLDPTLVPortDescription); [intro H; injection H as _ <-; exact Hall|].
  destruct (Typ v =? LLDPTLVSysName); [intro H; injection H as _ <-; exact Hall|].
  destruct (Typ v =? LLDPTLVSysDescription); [intro H; injection H as _ <-; exact Hall|].
  destruct (Typ v =? LLDPTLVSysCapabilities).
  { check_tlv_len; any_reads; intro H; injection H as _ <-; auto. }
  destruct (Typ v =? LLDPTLVMgmtAddress).
  { check_tlv_len; [|intro H; injection H as _ <-; auto].
    destruct (index (Value v) 0) as [nb|]; cbn [orPanic bind]; [|discriminate].
    check_tlv_len; cbn [negb]; [|intro H; injection H as _ <-; auto].
    destruct (index (Value v) 1); cbn [orPanic bind]; [|discriminate].
    destruct (reslice (Value v) 2 _); cbn [orPanic bind]; [|discriminate].
    destruct (index (Value v) _); cbn [orPanic bind]; [|discriminate].
    destruct (reslice (Value v) _ _); cbn [orPanic bind]; [|discriminate].
    destruct (BigEndian_Uint32 _); cbn [orPanic bind]; [|discriminate].
    destruct (index (Value v) _) as [mb|]; cbn [orPanic bind]; [|discriminate].
    check_tlv_len.
    - destruct (reslice (Value v) _ _); cbn [orPanic bind]; [|discriminate].
      intro H; injection H as _ <-; auto.
    - intro H; injection H as _ <-; auto. }
  destruct (Typ v =? LLDPTLVOrgSpecific).
  { check_tlv_len; cbn [negb]; any_reads; intro H; injection H as _ <-; auto. }
  intro H; injection H as _ <-; exact Hall.
Qed.

Lemma infoLoop_errors (vals : list LinkLayerDiscoveryValue) :
  forall info info' errors errors',
    Forall recordError errors ->
    infoLoop vals (info, errors) = Ok (info', errors') ->
    Forall recordError errors'.
Proof.
  induction vals as [|v vals IH]; intros info info' errors errors' Hall; cbn [infoLoop].
  - intro H. injection H as _ <-. exact Hall.
  - destruct (infoStep (info, errors) v) as [[i1 e1]|e|] eqn:E; cbn [bind]; try discriminate.
    apply IH. exact (infoStep_errors _ _ _ _ _ Hall E).
Qed.

Lemma infoLoop_not_Fail (vals : list LinkLayerDiscoveryValue) :
  forall st e, infoLoop vals st <> Fail e.
Proof.
  induction vals as [|v vals IH]; intros [info errors] e; cbn [infoLoop]; [discriminate|].
  destruct (infoStep (info, errors) v) as [st1|e1|] eqn:E; cbn [bind];
    [apply IH| |discriminate].
  exfalso. revert E. unfold infoStep, decodeMgmtAddress.
  repeat match goal with
         | |- context [if ?b then _ else _] => destruct b
         | |- context [let (_, _) := ?x in _] => destruct x
         | |- context [orPanic ?o] => destruct o; cbn [orPanic bind]
         | |- _ = Fail _ -> _ => discriminate
         end.
Qed.

(** The two tiers of errors: a returned error of the frame-level pass comes
    with a builder that was not touched; any other returned error is the
    length error of a record and comes with both layers added. *)
Theorem decodeLinkLayerDiscovery_error_tiers (data : slice) (p p' : PacketBuilder)
    (e : Error) :
  decodeLinkLayerDiscovery data p = Returned p' (Some e) ->
  (frameError e /\ p' = p /\ decodeFrame data = Fail e) \/
  (recordError e /\
   exists c info,
     decodeFrame data = Ok c /\
     p' = p ++ [LayerLinkLayerDiscovery c; LayerLinkLayerDiscoveryInfo info]).
Proof.
  unfold decodeLinkLayerDiscovery.
  destruct (decodeFrame data) as [c|e'|] eqn:Ef; try discriminate.
  - destruct (decodeInfo (Values c)) as [[info errors]|e'|] eqn:Ei; try discriminate.
    + rewrite AddLayer_twice. intro H. injection H as <- He. right.
      destruct errors as [|e0 errors]; [discriminate|]. cbn [firstError] in He.
      injection He as ->. split; [|eauto].
      unfold decodeInfo in Ei. apply infoLoop_errors in Ei; [|constructor].
      inversion Ei; assumption.
    + exfalso. exact (infoLoop_not_Fail _ _ _ Ei).
  - intro H. injection H as <- <-. left. split; [|auto].
    exact (decodeFrame_Fail _ _ Ef).
Qed.

(** An empty buffer is rejected; a buffer of one byte panics. *)
Theorem decodeLinkLayerDiscovery_short_buffer (spare : list byte) (p : PacketBuilder) :
  decodeLinkLayerDiscovery (mkSlice [] spare) p = Returned p (Some MissingMandatoryTLV) /\
  forall b, decodeLinkLayerDiscovery (mkSlice [b] spare) p = Panicked p.
Proof.
  split.
  - unfold decodeLinkLayerDiscovery, decodeFrame, scanTLVs.
    rewrite resliceFrom_0. reflexivity.
  - intro b. unfold decodeLinkLayerDiscovery, decodeFrame, scanTLVs.
    rewrite resliceFrom_0. reflexivity.
Qed.

(** ** The errors of the extension decoders *)

(** Closes a branch of a loop body once its length check is split. *)
Ltac branch_errors :=
  unfold checkLLDPOrgSpecificLen;
  match goal with
  | |- context [?l <=? len ?s] => destruct (l <=? len s)
  end;
  any_reads;
  try (let H := fresh "H" in
       intro H; injection H as _ <-; rewrite ?app_nil_r; reflexivity).

Lemma step8021_errors (info info' : LLDPInfo8021.t) (errors errors' : list Error)
    (o : LLDPOrgSpecificTLV.t) :
  step8021 (info, errors) o = Ok (info', errors') ->
  errors' = errors ++ lengthErrors IEEEOUI8021 minLen8021 o.
Proof.
  unfold step8021, lengthErrors, minLen8021.
  destruct (negb _); [intro H; injection H as _ <-; rewrite app_nil_r; reflexivity|].
  repeat (destruct (LLDPOrgSpecificTLV.SubType o =? _); [branch_errors|]).
  all: repeat match goal with
              | |- context [if ?b then _ else _] => destruct b
              end;
    try discriminate;
    intro H; injection H as _ <-; rewrite ?app_nil_r; reflexivity.
Qed.

Lemma step8023_errors (info info' : LLDPInfo8023.t) (errors errors' : list Error)
    (o : LLDPOrgSpecificTLV.t) :
  step8023 (info, errors) o = Ok (info', errors') ->
  errors' = errors ++ lengthErrors IEEEOUI8023 minLen8023 o.
Proof.
  unfold step8023, lengthErrors, minLen8023.
  destruct (negb _); [intro H; injection H as _ <-; rewrite app_nil_r; reflexivity|].
  repeat (destruct (LLDPOrgSpecificTLV.SubType o =? _); [branch_errors|]).
  - destruct (decodeMDIPower _ o); cbn [bind]; try discriminate.
    intro H; injection H as _ <-; rewrite ?app_nil_r; reflexivity.
  - intro H; injection H as _ <-; rewrite app_nil_r; reflexivity.
Qed.

Lemma step8021Qbg_errors (info info' : LLDPInfo8021Qbg) (errors errors' : list Error)
    (o : LLDPOrgSpecificTLV.t) :
  step8021Qbg (info, errors) o = Ok (info', errors') ->
  errors' = errors ++ lengthErrors IEEEOUI8021Qbg minLen8021Qbg o.
Proof.
  unfold step8021Qbg, lengthErrors, minLen8021Qbg.
  destruct (negb _); [intro H; injection H as _ <-; rewrite app_nil_r; reflexivity|].
  repeat (destruct (LLDPOrgSpecificTLV.SubType o =? _); [branch_errors|]).
  intro H; injection H as _ <-; rewrite app_nil_r; reflexivity.
Qed.

Section LoopErrors.
Context {St : Type}
  (step : St * list Error -> LLDPOrgSpecificTLV.t -> result (St * list Error))
  (errs : LLDPOrgSpecificTLV.t -> list Error).
Hypothesis step_errors : forall info info' errors errors' o,
  step (info, errors) o = Ok (info', errors') -> errors' = errors ++ errs o.

Lemma loop_errors
    (loop : list LLDPOrgSpecificTLV.t -> St * list Error -> result (St * list Error)) :
  (forall st, loop [] st = Ok st) ->
  (forall o os st, loop (o :: os) st = bind (step st o) (fun st => loop os st)) ->
  forall os info info' errors errors',
    loop os (info, errors) = Ok (info', errors') ->
    errors' = errors ++ flat_map errs os.
Proof.
  intros Hnil Hcons. induction os as [|o os IH]; intros info info' errors errors'.
  - rewrite Hnil. intro H. injection H as _ <-. cbn [flat_map]. rewrite app_nil_r. reflexivity.
  - rewrite Hcons. destruct (step (info, errors) o) as [[i1 e1]|e|] eqn:E; cbn [bind];
      try discriminate.
    intro H. apply IH in H. apply step_errors in E. subst.
    cbn [flat_map]. rewrite app_assoc. reflexivity.
Qed.
End LoopErrors.

(** When an extension decoder returns, the errors it has collected are one
    length error for each TLV of its OUI that is shorter than the least
    length of its subtype, in the order of the TLVs; the error returned is
    the first of them. *)
Theorem extension_decoder_errors (l : LinkLayerDiscoveryInfo) :
  (forall info err, Decode8021 l = Ok (info, err) ->
     err = firstError (flat_map (lengthErrors IEEEOUI8021 minLen8021) (OrgTLVs l))) /\
  (forall info err, Decode8023 l = Ok (info, err) ->
     err = firstError (flat_map (lengthErrors IEEEOUI8023 minLen8023) (OrgTLVs l))) /\
  (forall info err, Decode8021Qbg l = Ok (info, err) ->
     err = firstError (flat_map (lengthErrors IEEEOUI8021Qbg minLen8021Qbg) (OrgTLVs l))).
Proof.
  split; [|split]; intros info err.
  - unfold Decode8021, Decode8021Errors.
    destruct (loop8021 _ _) as [[i e]|e|] eqn:E; cbn [bind]; try discriminate.
    intro H. injection H as _ <-.
    apply (loop_errors step8021 _ step8021_errors loop8021) in E;
      [subst; reflexivity | reflexivity | reflexivity].
  - unfold Decode8023, Decode8023Errors.
    destruct (loop8023 _ _) as [[i e]|e|] eqn:E; cbn [bind]; try discriminate.
    intro H. injection H as _ <-.
    apply (loop_errors step8023 _ step8023_errors loop8023) in E;
      [subst; reflexivity | reflexivity | reflexivity].
  - unfold Decode8021Qbg, Decode8021QbgErrors.
    destruct (loop8021Qbg _ _) as [[i e]|e|] eqn:E; cbn [bind]; try discriminate.
    intro H. injection H as _ <-.
    apply (loop_errors step8021Qbg _ step8021Qbg_errors loop8021Qbg) in E;
      [subst; reflexivity | reflexivity | reflexivity].
Qed.

(** ** Statements on the loops and the decoders *)

(** The eleven flags of [getCapabilities v] are bits 0 to 10 of [v], in the
    order of the fields; two masks give the same flags exactly when they
    agree on these bits. *)
Theorem getCapabilities_flags (v : Z) :
  getCapabilities v
  = mkCaps (Z.testbit v 0) (Z.testbit v 1) (Z.testbit v 2) (Z.testbit v 3)
           (Z.testbit v 4) (Z.testbit v 5) (Z.testbit v 6) (Z.testbit v 7)
           (Z.testbit v 8) (Z.testbit v 9) (Z.testbit v 10) /\
  forall w, getCapabilities v = getCapabilities w <-> Z.land v 0x7ff = Z.land w 0x7ff.
Proof.
  split; [apply getCapabilities_bits|]. intro w. apply getCapabilities_low_11_bits.
Qed.

(** The five flags of [getEVBCapabilities v] are bits 0 to 4 of [v]. *)
Theorem getEVBCapabilities_flags (v : Z) :
  getEVBCapabilities v
  = mkEVBCaps (Z.testbit v 0) (Z.testbit v 1) (Z.testbit v 2) (Z.testbit v 3)
              (Z.testbit v 4) /\
  forall w, getEVBCapabilities v = getEVBCapabilities w <-> Z.land v 0x1f = Z.land w 0x1f.
Proof.
  split; [apply getEVBCapabilities_bits|]. intro w. apply getEVBCapabilities_low_5_bits.
Qed.

(** A SysCapabilities record of four bytes or more sets both capability
    sets from its first four bytes and adds no error. *)
Theorem infoLoop_SysCapabilities (info : LinkLayerDiscoveryInfo) (errors : list Error)
    (v : LinkLayerDiscoveryValue) (vals : list LinkLayerDiscoveryValue)
    (b0 b1 b2 b3 : byte) (bs : list byte) :
  Typ v = LLDPTLVSysCapabilities ->
  elems (Value v) = b0 :: b1 :: b2 :: b3 :: bs ->
  infoLoop (v :: vals) (info, errors)
  = infoLoop vals
      (setSysCapabilities info
         (mkSysCaps (getCapabilities (byteval b0 * 256 + byteval b1))
                    (getCapabilities (byteval b2 * 256 + byteval b3))),
       errors).
Proof.
  intros Ht He. cbn [infoLoop].
  rewrite (infoStep_SysCapabilities info errors v b0 b1 b2 b3 bs Ht He). reflexivity.
Qed.

(** An organisation-specific record of four bytes or more is appended to
    [OrgTLVs]: the OUI is the big-endian value of bytes 0 to 2, the subtype
    is byte 3, the payload is the rest. *)
Theorem infoLoop_OrgSpecific (info : LinkLayerDiscoveryInfo) (errors : list Error)
    (v : LinkLayerDiscoveryValue) (vals : list LinkLayerDiscoveryValue)
    (b0 b1 b2 b3 : byte) (bs : list byte) :
  Typ v = LLDPTLVOrgSpecific ->
  elems (Value v) = b0 :: b1 :: b2 :: b3 :: bs ->
  exists payload,
    infoLoop (v :: vals) (info, errors)
    = infoLoop vals
        (setOrgTLVs info
           (OrgTLVs info
            ++ [LLDPOrgSpecificTLV.mk
                  (byteval b0 * 65536 + byteval b1 * 256 + byteval b2)
                  (byteval b3) payload]),
         errors) /\
    elems payload = bs.
Proof.
  intros Ht He.
  destruct (infoStep_OrgSpecific info errors v b0 b1 b2 b3 bs Ht He) as (payload & H & Hp).
  exists payload. split; [|exact Hp]. cbn [infoLoop]. rewrite H. reflexivity.
Qed.

(** A ManagementAddress record laid out as the code reads it, in a value
    of fewer than 256 bytes, is decoded without an error: [n] counts the
    subtype byte and the address, the OID is taken two bytes behind its
    length byte. *)
Theorem infoLoop_MgmtAddress (info : LinkLayerDiscoveryInfo) (errors : list Error)
    (v : LinkLayerDiscoveryValue) (vals : list LinkLayerDiscoveryValue)
    (nb st ifs i0 i1 i2 i3 mb x y : byte) (addr oid rest : list byte) :
  Typ v = LLDPTLVMgmtAddress ->
  elems (Value v)
  = nb :: st :: addr ++ ifs :: i0 :: i1 :: i2 :: i3 :: mb :: x :: y :: oid ++ rest ->
  byteval nb = Z.of_nat (length addr) + 1 ->
  byteval mb = Z.of_nat (length oid) ->
  len (Value v) < 256 ->
  exists address,
    infoLoop (v :: vals) (info, errors)
    = infoLoop vals
        (setMgmtAddress info
           (LLDPMgmtAddress.mk (byteval st) address (byteval ifs)
              (byteval i0 * 16777216 + byteval i1 * 65536 + byteval i2 * 256 + byteval i3)
              oid),
         errors) /\
    elems address = addr.
Proof.
  intros Ht He Hn Hm Hlt.
  destruct (decodeMgmtAddress_fields info errors v nb st ifs i0 i1 i2 i3 mb x y
              addr oid rest He Hn Hm Hlt) as (address & H & Ha).
  exists address. split; [|exact Ha].
  cbn [infoLoop]. unfold infoStep. rewrite Ht.
  cbn [Z.eqb Pos.eqb LLDPTLVPortDescription LLDPTLVSysName LLDPTLVSysDescription
       LLDPTLVSysCapabilities LLDPTLVMgmtAddress].
  rewrite H. reflexivity.
Qed.

(** The fields that [Decode8023] reads from a TLV of its OUI: MAC/PHY
    configuration (five bytes), Power via MDI with three to seven bytes,
    link aggregation (five bytes) and the maximum frame size (two bytes). *)
Theorem step8023_fields (info : LLDPInfo8023.t) (errors : list Error)
    (o : LLDPOrgSpecificTLV.t) :
  LLDPOrgSpecificTLV.OUI o = IEEEOUI8023 ->
  (forall b0 b1 b2 b3 b4 bs,
     LLDPOrgSpecificTLV.SubType o = LLDP8023SubtypeMACPHY ->
     elems (LLDPOrgSpecificTLV.Info o) = b0 :: b1 :: b2 :: b3 :: b4 :: bs ->
     step8023 (info, errors) o
     = Ok (LLDPInfo8023.setMACPHYConfigStatus info
             (MACPHYConfigStatus.mk (Z.testbit (byteval b0) 0) (Z.testbit (byteval b0) 1)
                (byteval b1 * 256 + byteval b2) (byteval b3 * 256 + byteval b4)),
           errors)) /\
  (forall b0 b1 b2 bs,
     LLDPOrgSpecificTLV.SubType o = LLDP8023SubtypeMDIPower ->
     elems (LLDPOrgSpecificTLV.Info o) = b0 :: b1 :: b2 :: bs -> (length bs < 5)%nat ->
     step8023 (info, errors) o
     = Ok (LLDPInfo8023.setPowerViaMDI info
             (PowerViaMDI.mk (Z.testbit (byteval b0) 0) (Z.testbit (byteval b0) 1)
                (Z.testbit (byteval b0) 2) (Z.testbit (byteval b0) 3)
                (byteval b1) (byteval b2)
                (PowerViaMDI.PowerType (LLDPInfo8023.PowerViaMDI info))
                (PowerViaMDI.PowerSource (LLDPInfo8023.PowerViaMDI info))
                (PowerViaMDI.PowerPriority (LLDPInfo8023.PowerViaMDI info))
                (PowerViaMDI.RequestedPower (LLDPInfo8023.PowerViaMDI info))
                (PowerViaMDI.AllocatedPower (LLDPInfo8023.PowerViaMDI info))),
           errors)) /\
  (forall b0 b1 b2 b3 b4 bs,
     LLDPOrgSpecificTLV.SubType o = LLDP8023SubtypeLinkAggregation ->
     elems (LLDPOrgSpecificTLV.Info o) = b0 :: b1 :: b2 :: b3 :: b4 :: bs ->
     step8023 (info, errors) o
     = Ok (LLDPInfo8023.setLinkAggregation info
             (LinkAggregation8023.mk (byteval b0)
                (byteval b1 * 16777216 + byteval b2 * 65536 + byteval b3 * 256
                 + byteval b4)),
           errors)) /\
  (forall b0 b1 bs,
     LLDPOrgSpecificTLV.SubType o = LLDP8023SubtypeMTU ->
     elems (LLDPOrgSpecificTLV.Info o) = b0 :: b1 :: bs ->
     step8023 (info, errors) o
     = Ok (LLDPInfo8023.setMTU info (byteval b0 * 256 + byteval b1), errors)).
Proof.
  intro Ho. repeat split; intros.
  - apply step8023_MACPHY with (bs := bs); assumption.
  - apply step8023_MDIPower_short with (bs := bs); assumption.
  - apply step8023_LinkAggregation with (bs := bs); assumption.
  - apply step8023_MTU with (bs := bs); assumption.
Qed.

Lemma step8023_fields_witness :
  step8023 (LLDPInfo8023.zero, []) sampleMTU
  = Ok (LLDPInfo8023.setMTU LLDPInfo8023.zero (byteval x05 * 256 + byteval xdc), []).
Proof.
  apply (proj2 (proj2 (proj2
           (step8023_fields LLDPInfo8023.zero [] sampleMTU eq_refl))) x05 xdc []);
    reflexivity.
Defined.

(** The fields that [Decode8021] reads from a TLV of its OUI: port VLAN id,
    port-and-protocol VLAN id, a Protocol Identity that lies inside the
    payload, VID usage digest, management VID and link aggregation. *)
Theorem step8021_fields (info : LLDPInfo8021.t) (errors : list Error)
    (o : LLDPOrgSpecificTLV.t) :
  LLDPOrgSpecificTLV.OUI o = IEEEOUI8021 ->
  (forall b0 b1 bs,
     LLDPOrgSpecificTLV.SubType o = LLDP8021SubtypePortVLANID ->
     elems (LLDPOrgSpecificTLV.Info o) = b0 :: b1 :: bs ->
     step8021 (info, errors) o
     = Ok (LLDPInfo8021.setPVID info (byteval b0 * 256 + byteval b1), errors)) /\
  (forall b0 b1 b2 bs,
     LLDPOrgSpecificTLV.SubType o = LLDP8021SubtypeProtocolVLANID ->
     elems (LLDPOrgSpecificTLV.Info o) = b0 :: b1 :: b2 :: bs ->
     step8021 (info, errors) o
     = Ok (LLDPInfo8021.setPPVIDs info
             (LLDPInfo8021.PPVIDs info
              ++ [PortProtocolVLANID.mk (Z.testbit (byteval b0) 0)
                    (Z.testbit (byteval b0) 1) (byteval b1 * 256 + byteval b2)]),
           errors)) /\
  (forall lb blob rest,
     LLDPOrgSpecificTLV.SubType o = LLDP8021SubtypeProtocolIdentity ->
     elems (LLDPOrgSpecificTLV.Info o) = lb :: blob ++ rest ->
     byteval lb = Z.of_nat (length blob) ->
     (blob = [] /\ step8021 (info, errors) o = Ok (info, errors)) \/
     (blob <> [] /\
      exists identity,
        step8021 (info, errors) o
        = Ok (LLDPInfo8021.setProtocolIdentities info
                (LLDPInfo8021.ProtocolIdentities info ++ [identity]),
              errors) /\
        elems identity = blob)) /\
  (forall b0 b1 b2 b3 bs,
     LLDPOrgSpecificTLV.SubType o = LLDP8021SubtypeVDIUsageDigest ->
     elems (LLDPOrgSpecificTLV.Info o) = b0 :: b1 :: b2 :: b3 :: bs ->
     step8021 (info, errors) o
     = Ok (LLDPInfo8021.setVIDUsageDigest info
             (byteval b0 * 16777216 + byteval b1 * 65536 + byteval b2 * 256
              + byteval b3),
           errors)) /\
  (forall b0 b1 bs,
     LLDPOrgSpecificTLV.SubType o = LLDP8021SubtypeManagementVID ->
     elems (LLDPOrgSpecificTLV.Info o) = b0 :: b1 :: bs ->
     step8021 (info, errors) o
     = Ok (LLDPInfo8021.setManagementVID info (byteval b0 * 256 + byteval b1), errors)) /\
  (forall b0 b1 b2 b3 b4 bs,
     LLDPOrgSpecificTLV.SubType o = LLDP8021SubtypeLinkAggregation ->
     elems (LLDPOrgSpecificTLV.Info o) = b0 :: b1 :: b2 :: b3 :: b4 :: bs ->
     step8021 (info, errors) o
     = Ok (LLDPInfo8021.setLinkAggregation info
             (LinkAggregation8021.mk (Z.testbit (byteval b0) 0)
                (Z.testbit (byteval b0) 1)
                (byteval b1 * 16777216 + byteval b2 * 65536 + byteval b3 * 256
                 + byteval b4)),
           errors)).
Proof.
  intro Ho. split; [|split; [|split; [|split; [|split]]]]; intros.
  - apply step8021_PortVLANID with (bs := bs); assumption.
  - apply step8021_ProtocolVLANID with (bs := bs); assumption.
  - apply step8021_ProtocolIdentity with (lb := lb) (rest := rest); assumption.
  - apply step8021_VDIUsageDigest with (bs := bs); assumption.
  - apply step8021_ManagementVID with (bs := bs); assumption.
  - apply step8021_LinkAggregation with (bs := bs); assumption.
Qed.

Lemma step8021_fields_witness :
  step8021 (LLDPInfo8021.zero, []) samplePVID
  = Ok (LLDPInfo8021.setPVID LLDPInfo8021.zero (byteval x00 * 256 + byteval x64), []).
Proof.
  apply (proj1 (step8021_fields LLDPInfo8021.zero [] samplePVID eq_refl) x00 x64 []);
    reflexivity.
Defined.

(** ** The statements tried on inputs *)

Lemma scanTLVs_encoded_witness :
  exists vals,
    scanTLVs (mkSlice (encodeTLVs sampleRecords ++ tlvEnd ++ [xff]) [xee]) = Ok vals /\
    map recordOf vals = sampleRecords ++ [(LLDPTLVEnd, [])] /\
    Forall (fun v => Length v = len (Value v)) vals.
Proof.
  apply (scanTLVs_encoded sampleRecords [xff] [xee]).
  unfold sampleRecords, encodable.
  repeat (apply Forall_cons;
          [unfold LLDPTLVSysName, LLDPTLVPortDescription, LLDPTLVSysCapabilities;
           cbn [fst snd length]; lia|]).
  apply Forall_nil.
Defined.

Lemma decodeFrame_encoded_witness :
  exists c,
    decodeFrame
      (mkSlice (encodeFrame x04 [x00; x11; x22; x33; x44; x55] x03 [x01; x02; x03; x04]
                  x00 x78 sampleRecords ++ [xff]) [xee])
    = Ok c /\
    contents c
    = mkSlice (encodeFrame x04 [x00; x11; x22; x33; x44; x55] x03 [x01; x02; x03; x04]
                 x00 x78 sampleRecords ++ [xff]) [xee] /\
    LLDPChassisID.Subtype (ChassisID c) = byteval x04 /\
    elems (LLDPChassisID.ID (ChassisID c)) = [x00; x11; x22; x33; x44; x55] /\
    LLDPPortID.Subtype (PortID c) = byteval x03 /\
    elems (LLDPPortID.ID (PortID c)) = [x01; x02; x03; x04] /\
    TTL c = byteval x00 * 256 + byteval x78 /\
    map recordOf (Values c) = sampleRecords.
Proof.
  apply (decodeFrame_encoded x04 [x00; x11; x22; x33; x44; x55] x03 [x01; x02; x03; x04]
           x00 x78 sampleRecords [xff] [xee]).
  - vm_compute. discriminate.
  - vm_compute. discriminate.
  - cbn [length]. lia.
  - cbn [length]. lia.
  - unfold sampleRecords, encodable.
    repeat (apply Forall_cons;
            [unfold LLDPTLVSysName, LLDPTLVPortDescription, LLDPTLVSysCapabilities;
             cbn [fst snd length]; lia|]).
    apply Forall_nil.
  - unfold sampleRecords.
    repeat (apply Forall_cons;
            [unfold LLDPTLVSysName, LLDPTLVPortDescription, LLDPTLVSysCapabilities;
             cbn [fst snd length]; lia|]).
    apply Forall_nil.
Defined.

Lemma scanTLVs_wellFormed_witness :
  Forall wellFormed partialRecords /\
  forall i v, nth_error partialRecords i = Some v -> Typ v = LLDPTLVEnd ->
              S i = length partialRecords.
Proof.
  apply (scanTLVs_wellFormed partialData partialRecords). reflexivity.
Defined.

Lemma decodeFrame_accepted_witness :
  contents partialFrame = partialData /\
  1 <= LLDPChassisID.Subtype (ChassisID partialFrame) < 256 /\
  1 <= len (LLDPChassisID.ID (ChassisID partialFrame)) /\
  1 <= LLDPPortID.Subtype (PortID partialFrame) < 256 /\
  1 <= len (LLDPPortID.ID (PortID partialFrame)) /\
  0 <= TTL partialFrame < 65536 /\
  Forall (fun v => wellFormed v /\ 4 <= Typ v) (Values partialFrame).
Proof.
  apply (decodeFrame_accepted partialData partialFrame). reflexivity.
Defined.

Lemma decodeLinkLayerDiscovery_returns_witness :
  exists info err,
    decodeLinkLayerDiscovery partialData []
    = Returned ([] ++ [LayerLinkLayerDiscovery partialFrame;
                       LayerLinkLayerDiscoveryInfo info]) err.
Proof.
  apply (decodeLinkLayerDiscovery_returns partialData [] partialFrame).
  - reflexivity.
  - change (Values partialFrame) with [partialName; partialCaps].
    repeat (apply Forall_cons; [vm_compute; discriminate|]). apply Forall_nil.
Defined.

Lemma infoLoop_SysCapabilities_witness :
  infoLoop [sampleSysCaps] (zeroLinkLayerDiscoveryInfo, [])
  = infoLoop []
      (setSysCapabilities zeroLinkLayerDiscoveryInfo
         (mkSysCaps (getCapabilities (byteval x00 * 256 + byteval x14))
                    (getCapabilities (byteval x00 * 256 + byteval x04))),
       []).
Proof.
  apply (infoLoop_SysCapabilities zeroLinkLayerDiscoveryInfo [] sampleSysCaps []
           x00 x14 x00 x04 []); reflexivity.
Defined.

Lemma infoLoop_OrgSpecific_witness :
  exists payload,
    infoLoop [sampleOrg] (zeroLinkLayerDiscoveryInfo, [])
    = infoLoop []
        (setOrgTLVs zeroLinkLayerDiscoveryInfo
           (OrgTLVs zeroLinkLayerDiscoveryInfo
            ++ [LLDPOrgSpecificTLV.mk
                  (byteval x00 * 65536 + byteval x12 * 256 + byteval x0f)
                  (byteval x04) payload]),
         []) /\
    elems payload = [x05; xdc].
Proof.
  apply (infoLoop_OrgSpecific zeroLinkLayerDiscoveryInfo [] sampleOrg []
           x00 x12 x0f x04 [x05; xdc]); reflexivity.
Defined.

Lemma infoLoop_MgmtAddress_witness :
  exists address,
    infoLoop [sampleMgmt] (zeroLinkLayerDiscoveryInfo, [])
    = infoLoop []
        (setMgmtAddress zeroLinkLayerDiscoveryInfo
           (LLDPMgmtAddress.mk (byteval x01) address (byteval x02)
              (byteval x00 * 16777216 + byteval x00 * 65536 + byteval x00 * 256
               + byteval x07)
              [x2b; x06; x01]),
         []) /\
    elems address = [xc0; xa8; x01; x01].
Proof.
  apply (infoLoop_MgmtAddress zeroLinkLayerDiscoveryInfo [] sampleMgmt []
           x05 x01 x02 x00 x00 x00 x07 x03 x00 x00
           [xc0; xa8; x01; x01] [x2b; x06; x01] []); reflexivity.
Defined.

Lemma Decode8023_panics_iff_witness :
  exists info err, Decode8023 (infoOfOrgTLVs [sampleMTU]) = Ok (info, err).
Proof.
  apply (proj2 (Decode8023_panics_iff (infoOfOrgTLVs [sampleMTU]))).
  intro H. inversion H as [? ? Hp | ? ? Hp]; [|inversion Hp].
  destruct Hp as (_ & Hs & _). discriminate Hs.
Defined.

Lemma Decode8021_panics_iff_witness :
  Decode8021 (infoOfOrgTLVs [samplePVID; sampleVLANName2]) = Panic.
Proof.
  apply (proj2 (proj1 (Decode8021_panics_iff
                         (infoOfOrgTLVs [samplePVID; sampleVLANName2])))).
  right. left. split; [reflexivity|]. left. split; reflexivity.
Defined.

Lemma step8021Qbg_EVB_witness :
  step8021Qbg (mkInfo8021Qbg LLDPEVBSettings.zero, []) sampleEVB
  = Ok (mkInfo8021Qbg
          (LLDPEVBSettings.mk (getEVBCapabilities (byteval x00 * 256 + byteval x03))
             (getEVBCapabilities (byteval x00 * 256 + byteval x01))
             (byteval x00 * 256 + byteval x10) (byteval x00 * 256 + byteval x02)
             (byteval x08)),
        []).
Proof.
  apply (step8021Qbg_EVB (mkInfo8021Qbg LLDPEVBSettings.zero) [] sampleEVB
           x00 x03 x00 x01 x00 x10 x00 x02 x08 []); reflexivity.
Defined.

Lemma decodeLinkLayerDiscovery_error_tiers_witness :
  (frameError (InvalidTLVLength 7 2 4) /\
   [LayerLinkLayerDiscovery twoErrorsFrame;
    LayerLinkLayerDiscoveryInfo zeroLinkLayerDiscoveryInfo] = [] /\
   decodeFrame twoErrorsData = Fail (InvalidTLVLength 7 2 4)) \/
  (recordError (InvalidTLVLength 7 2 4) /\
   exists c info,
     decodeFrame twoErrorsData = Ok c /\
     [LayerLinkLayerDiscovery twoErrorsFrame;
      LayerLinkLayerDiscoveryInfo zeroLinkLayerDiscoveryInfo]
     = [] ++ [LayerLinkLayerDiscovery c; LayerLinkLayerDiscoveryInfo info]).
Proof.
  apply (decodeLinkLayerDiscovery_error_tiers twoErrorsData []
           [LayerLinkLayerDiscovery twoErrorsFrame;
            LayerLinkLayerDiscoveryInfo zeroLinkLayerDiscoveryInfo]
           (InvalidTLVLength 7 2 4)).
  reflexivity.
Defined.

Lemma extension_decoder_errors_witness :
  Some (InvalidOrgSpecificLength 1 1 2)
  = firstError (flat_map (lengthErrors IEEEOUI8021 minLen8021) (OrgTLVs twoErrorsA)).
Proof.
  apply (proj1 (extension_decoder_errors twoErrorsA) LLDPInfo8021.zero
           (Some (InvalidOrgSpecificLength 1 1 2))).
  reflexivity.
Defined.
